(** * A verification model of the credit-card anomaly pipeline

    The repository has three straight-line scripts:

    - [generate_data.py]: draws a synthetic customer table from numpy's
      global random generator and blanks a fixed number of cells;
    - [preprocess.py]: drops the identifier, imputes medians, derives four
      ratio columns and clips five columns at their 99th percentile;
    - [train.py]: standardises, projects with PCA, fits an isolation forest
      and writes a metrics record.

    Tables are modelled as ordered lists of named columns.  A numeric cell is
    an extended rational: a finite value, one of the two infinities, or NaN
    (the missing marker of pandas).  Finite values are exact rationals, so
    the rounding and overflow of binary floating point are idealised away and
    zero carries no sign; the special values follow IEEE 754 (x/0 is an
    infinity, 0/0 is NaN, comparisons with NaN are false).  The library
    routines the scripts call (pandas, numpy, scikit-learn, argparse) are
    modelled by their documented behaviour; random draws and fitted
    estimators are kept abstract behind interfaces. *)

From Stdlib Require Import String Ascii List ZArith QArith Qround Qabs.
From Stdlib Require Import Bool Arith Lia Lqa DecimalString DecimalNat FinFun.
Import ListNotations.

Open Scope string_scope.
Open Scope list_scope.

(* ================================================================= *)
(** ** Exceptions *)

Inductive exn : Type :=
| KeyError (key : string)
| TypeError
| ValueError
| IndexError
| FileNotFoundError (path : string)
| SystemExit (code : Z).

Inductive result (A : Type) : Type :=
| Ok (a : A)
| Raise (e : exn).

Arguments Ok {A} a.
Arguments Raise {A} e.

Definition rbind {A B : Type} (m : result A) (f : A -> result B) : result B :=
  match m with
  | Ok a => f a
  | Raise e => Raise e
  end.

Declare Scope result_scope.
Delimit Scope result_scope with result.
Notation "x <- m ;; k" := (rbind m (fun x => k))
  (at level 61, m at next level, right associativity) : result_scope.

(* ================================================================= *)
(** ** Numeric cells *)

Inductive float : Type :=
| Fin (q : Q)
| PInf
| NInf
| NaN.

Definition Qltb (a b : Q) : bool := negb (Qle_bool b a).

Definition isna (x : float) : bool :=
  match x with NaN => true | _ => false end.

Definition is_finite (x : float) : bool :=
  match x with Fin _ => true | _ => false end.

Definition fneg (x : float) : float :=
  match x with
  | Fin q => Fin (- q)
  | PInf => NInf
  | NInf => PInf
  | NaN => NaN
  end.

Definition fadd (x y : float) : float :=
  match x, y with
  | NaN, _ | _, NaN => NaN
  | Fin a, Fin b => Fin (a + b)
  | PInf, NInf | NInf, PInf => NaN
  | PInf, _ | _, PInf => PInf
  | NInf, _ | _, NInf => NInf
  end.

Definition fsub (x y : float) : float := fadd x (fneg y).

(** The infinity [x * q] for an infinite [x] (given by its sign) and a
    finite [q]; [inf * 0] is NaN. *)
Definition inf_times (positive : bool) (q : Q) : float :=
  if Qeq_bool q 0 then NaN
  else if Bool.eqb positive (Qltb 0 q) then PInf else NInf.

Definition fmul (x y : float) : float :=
  match x, y with
  | NaN, _ | _, NaN => NaN
  | Fin a, Fin b => Fin (a * b)
  | PInf, Fin b | Fin b, PInf => inf_times true b
  | NInf, Fin b | Fin b, NInf => inf_times false b
  | PInf, PInf | NInf, NInf => PInf
  | PInf, NInf | NInf, PInf => NInf
  end.

Definition fdiv (x y : float) : float :=
  match x, y with
  | NaN, _ | _, NaN => NaN
  | Fin a, Fin b =>
      if Qeq_bool b 0 then
        if Qeq_bool a 0 then NaN
        else if Qltb 0 a then PInf else NInf
      else Fin (a / b)
  | Fin _, (PInf | NInf) => Fin 0
  | PInf, Fin b => if Qle_bool 0 b then PInf else NInf
  | NInf, Fin b => if Qle_bool 0 b then NInf else PInf
  | (PInf | NInf), (PInf | NInf) => NaN
  end.

(** [x <= y] and [x > y] as numpy evaluates them: false when either side
    is NaN. *)
Definition fleb (x y : float) : bool :=
  match x, y with
  | NaN, _ | _, NaN => false
  | NInf, _ | _, PInf => true
  | Fin a, Fin b => Qle_bool a b
  | _, _ => false
  end.

Definition fgtb (x y : float) : bool :=
  match x, y with
  | NaN, _ | _, NaN => false
  | NInf, _ | _, PInf => false
  | Fin a, Fin b => Qltb b a
  | _, _ => true
  end.

Definition fltb (x y : float) : bool := fgtb y x.

Definition of_Z (z : Z) : float := Fin (inject_Z z).
Definition of_nat (n : nat) : float := of_Z (Z.of_nat n).

(** Rounding to the nearest integer, ties to even. *)
Definition round_half_even (x : Q) : Z :=
  let f := Qfloor x in
  let r := x - inject_Z f in
  if Qltb r (1 # 2) then f
  else if Qltb (1 # 2) r then (f + 1)%Z
  else if Z.even f then f else (f + 1)%Z.

(** [round(x, d)] for a finite [x]. *)
Definition Qround_to (d : nat) (x : Q) : Q :=
  let scale := inject_Z (10 ^ Z.of_nat d) in
  inject_Z (round_half_even (x * scale)) / scale.

(* ================================================================= *)
(** ** Series *)

Definition dropna (xs : list float) : list float :=
  filter (fun x => negb (isna x)) xs.

Definition count_na (xs : list float) : nat :=
  length (filter isna xs).

Fixpoint insert_sorted (x : float) (l : list float) : list float :=
  match l with
  | [] => [x]
  | y :: l' => if fleb x y then x :: l else y :: insert_sorted x l'
  end.

Definition sort (l : list float) : list float :=
  fold_right insert_sorted [] l.

Definition fillna (xs : list float) (v : float) : list float :=
  map (fun x => if isna x then v else x) xs.

(** [Series.median()]: NaN is skipped; the middle value of the sorted
    rest, or the mean of the two middle values; NaN when nothing is left. *)
Definition median (xs : list float) : float :=
  let s := sort (dropna xs) in
  let n := length s in
  match n with
  | O => NaN
  | _ =>
      if Nat.even n
      then fdiv (fadd (nth (n / 2 - 1) s NaN) (nth (n / 2) s NaN)) (Fin 2)
      else nth (n / 2) s NaN
  end.

(** numpy's linear interpolation between two neighbours. *)
Definition lerp (a b : float) (t : Q) : float :=
  let diff := fsub b a in
  if Qle_bool (1 # 2) t
  then fsub b (fmul diff (Fin (1 - t)))
  else fadd a (fmul diff (Fin t)).

(** [Series.quantile(q)] with the default linear interpolation: NaN is
    skipped; the virtual index [(n - 1) * q] is split into its floor and
    its fractional part. *)
Definition quantile (q : Q) (xs : list float) : float :=
  let s := sort (dropna xs) in
  let n := length s in
  match n with
  | O => NaN
  | _ =>
      let idx := inject_Z (Z.of_nat (n - 1)) * q in
      let lo := Z.to_nat (Qfloor idx) in
      let hi := Nat.min (lo + 1) (n - 1) in
      lerp (nth lo s NaN) (nth hi s NaN) (idx - inject_Z (Qfloor idx))
  end.

(** [Series.clip(upper=u)]: a missing threshold clips nothing, and a
    missing value stays missing. *)
Definition clip_upper (u : float) (xs : list float) : list float :=
  map (fun x => if fgtb x u then u else x) xs.

Fixpoint zip_with {A B C : Type} (f : A -> B -> C)
         (xs : list A) (ys : list B) : list C :=
  match xs, ys with
  | x :: xs', y :: ys' => f x y :: zip_with f xs' ys'
  | _, _ => []
  end.

Definition series_div (xs ys : list float) : list float :=
  zip_with fdiv xs ys.

Definition series_add_scalar (xs : list float) (c : float) : list float :=
  map (fun x => fadd x c) xs.

(* ================================================================= *)
(** ** Data frames *)

(** A column is numeric, or holds strings (dtype object) with [None] for a
    missing entry. *)
Inductive Series : Type :=
| NumCol (xs : list float)
| ObjCol (xs : list (option string)).

Definition DataFrame : Type := list (string * Series).

Definition series_len (s : Series) : nat :=
  match s with
  | NumCol xs => length xs
  | ObjCol xs => length xs
  end.

Definition series_count_na (s : Series) : nat :=
  match s with
  | NumCol xs => count_na xs
  | ObjCol xs => length (filter (fun o => match o with None => true | Some _ => false end) xs)
  end.

Definition columns (df : DataFrame) : list string := map fst df.

Definition nrows (df : DataFrame) : nat :=
  match df with
  | [] => O
  | (_, s) :: _ => series_len s
  end.

Definition shape (df : DataFrame) : nat * nat := (nrows df, length df).

Fixpoint get_col (df : DataFrame) (c : string) : option Series :=
  match df with
  | [] => None
  | (k, s) :: df' => if String.eqb k c then Some s else get_col df' c
  end.

(** [df[c] = s]: replaces the column in place, or appends a new one. *)
Fixpoint set_col (df : DataFrame) (c : string) (s : Series) : DataFrame :=
  match df with
  | [] => [(c, s)]
  | (k, s') :: df' =>
      if String.eqb k c then (k, s) :: df' else (k, s') :: set_col df' c s
  end.

(** [df.drop(columns=cs, errors="ignore")]. *)
Definition drop_columns (cs : list string) (df : DataFrame) : DataFrame :=
  filter (fun kv => negb (existsb (String.eqb (fst kv)) cs)) df.

(** [df[c]] used in arithmetic: the column must exist and be numeric. *)
Definition get_num (df : DataFrame) (c : string) : result (list float) :=
  match get_col df c with
  | None => Raise (KeyError c)
  | Some (NumCol xs) => Ok xs
  | Some (ObjCol _) => Raise TypeError
  end.

(* ================================================================= *)
(** ** Files *)

(** The metrics record that [train] serialises as JSON. *)
Record Metrics : Type := {
  model : string;
  n_samples : Z;
  n_components_pca : Z;
  variance_explained : Q;
  contamination : Q;
  n_anomalies : Z;
  n_normal : Z;
  anomaly_percentage : Q;
  anomaly_score_mean : Q;
  anomaly_score_min : Q;
  anomaly_score_max : Q
}.

(** A file holds a table (CSV), a metrics record (JSON), or an opaque
    artefact (a figure or a serialised estimator).  A CSV file is
    identified with the table [read_csv] parses from it. *)
Inductive file : Type :=
| CsvFile (table : DataFrame)
| JsonFile (metrics : Metrics)
| BinaryFile.

Definition filesystem : Type := string -> option file.

Definition write_file (fs : filesystem) (path : string) (f : file) : filesystem :=
  fun p => if String.eqb p path then Some f else fs p.

Definition read_csv (fs : filesystem) (path : string) : result DataFrame :=
  match fs path with
  | Some (CsvFile t) => Ok t
  | _ => Raise (FileNotFoundError path)
  end.

(* ================================================================= *)
(** ** preprocess.py *)

Definition RAW_PATH : string := "data/raw/CC_GENERAL.csv".
Definition PROCESSED_PATH : string := "data/processed/CC_PROCESSED.csv".

Definition cols_to_clip : list string :=
  ["BALANCE"; "PURCHASES"; "CASH_ADVANCE"; "PAYMENTS"; "MINIMUM_PAYMENTS"].

Open Scope result_scope.

(** Step 1: drop the identifier column. *)
Definition drop_identifier (df : DataFrame) : DataFrame :=
  drop_columns ["CUST_ID"] df.

(** [df[c] = df[c].fillna(df[c].median())]. *)
Definition fill_with_median (c : string) (df : DataFrame) : result DataFrame :=
  xs <- get_num df c ;;
  Ok (set_col df c (NumCol (fillna xs (median xs)))).

(** Step 2: fill missing values. *)
Definition impute (df : DataFrame) : result DataFrame :=
  df <- fill_with_median "CREDIT_LIMIT" df ;;
  fill_with_median "MINIMUM_PAYMENTS" df.

(** [df[c] = df[a] / df[b]]. *)
Definition ratio_column (c a b : string) (df : DataFrame) : result DataFrame :=
  xs <- get_num df a ;;
  ys <- get_num df b ;;
  Ok (set_col df c (NumCol (series_div xs ys))).

(** [df[c] = df[a] / (df[b] + 1)]. *)
Definition guarded_ratio_column (c a b : string) (df : DataFrame)
  : result DataFrame :=
  xs <- get_num df a ;;
  ys <- get_num df b ;;
  Ok (set_col df c (NumCol (series_div xs (series_add_scalar ys (Fin 1))))).

(** Step 3: feature engineering. *)
Definition engineer (df : DataFrame) : result DataFrame :=
  df <- ratio_column "MONTHLY_AVG_PURCHASE" "PURCHASES" "TENURE" df ;;
  df <- ratio_column "MONTHLY_AVG_CASH_ADVANCE" "CASH_ADVANCE" "TENURE" df ;;
  df <- guarded_ratio_column "PURCHASE_TO_LIMIT_RATIO" "PURCHASES" "CREDIT_LIMIT" df ;;
  guarded_ratio_column "BALANCE_TO_LIMIT_RATIO" "BALANCE" "CREDIT_LIMIT" df.

(** One iteration of the clipping loop. *)
Definition clip_column (df : DataFrame) (col : string) : result DataFrame :=
  xs <- get_num df col ;;
  let upper := quantile (99 # 100) xs in
  Ok (set_col df col (NumCol (clip_upper upper xs))).

Fixpoint for_each (cols : list string) (body : DataFrame -> string -> result DataFrame)
         (df : DataFrame) : result DataFrame :=
  match cols with
  | [] => Ok df
  | col :: rest => df' <- body df col ;; for_each rest body df'
  end.

(** Step 4: clip outliers at the 99th percentile. *)
Definition clip_outliers (df : DataFrame) : result DataFrame :=
  for_each cols_to_clip clip_column df.

(** The table transformation of [preprocess], between [read_csv] and
    [to_csv]. *)
Definition preprocess_frame (df : DataFrame) : result DataFrame :=
  let df := drop_identifier df in
  df <- impute df ;;
  df <- engineer df ;;
  clip_outliers df.

Definition preprocess (input_path output_path : string) (fs : filesystem)
  : result (DataFrame * filesystem) :=
  df <- read_csv fs input_path ;;
  df <- preprocess_frame df ;;
  Ok (df, write_file fs output_path (CsvFile df)).

Close Scope result_scope.

(* ================================================================= *)
(** ** numpy's global random generator *)

(** The draws of [np.random] over an abstract generator state.  A draw
    returns the sample and the advanced state.  Finite draws are rationals
    or integers by type; the laws are the parts of numpy's contract the
    pipeline relies on. *)
Class NumpyRandom : Type := {
  rng_state : Type;
  (** the state [np.random.seed(s)] installs *)
  seed_state : Z -> rng_state;
  (** [np.random.exponential(scale, size)] *)
  draw_exponential : Q -> nat -> rng_state -> list Q * rng_state;
  (** [np.random.uniform(low, high, size)] *)
  draw_uniform : Q -> Q -> nat -> rng_state -> list Q * rng_state;
  (** [np.random.randint(low, high, size)] *)
  draw_randint : Z -> Z -> nat -> rng_state -> list Z * rng_state;
  (** positions drawn by [np.random.choice(a, size)] in a population of
      the given length, with replacement *)
  draw_positions : nat -> nat -> rng_state -> list nat * rng_state;
  (** positions drawn by [np.random.choice(a, size, replace=False)] *)
  draw_distinct : nat -> nat -> rng_state -> list nat * rng_state;

  exponential_length : forall scale n st,
    length (fst (draw_exponential scale n st)) = n;
  uniform_length : forall lo hi n st,
    length (fst (draw_uniform lo hi n st)) = n;
  randint_length : forall lo hi n st,
    length (fst (draw_randint lo hi n st)) = n;
  randint_range : forall lo hi n st, (lo < hi)%Z ->
    Forall (fun z => (lo <= z < hi)%Z) (fst (draw_randint lo hi n st));
  positions_length : forall pop n st,
    length (fst (draw_positions pop n st)) = n;
  positions_range : forall pop n st, (0 < pop)%nat ->
    Forall (fun i => (i < pop)%nat) (fst (draw_positions pop n st));
  distinct_length : forall pop k st, (k <= pop)%nat ->
    length (fst (draw_distinct pop k st)) = k;
  distinct_range : forall pop k st, (k <= pop)%nat ->
    Forall (fun i => (i < pop)%nat) (fst (draw_distinct pop k st));
  distinct_NoDup : forall pop k st, (k <= pop)%nat ->
    NoDup (fst (draw_distinct pop k st))
}.

(** Computations over the global generator: they may raise, and the
    generator state survives either way. *)
Definition np `{NumpyRandom} (A : Type) : Type :=
  rng_state -> result A * rng_state.

Definition np_ret `{NumpyRandom} {A : Type} (a : A) : np A :=
  fun st => (Ok a, st).

Definition np_raise `{NumpyRandom} {A : Type} (e : exn) : np A :=
  fun st => (Raise e, st).

Definition np_bind `{NumpyRandom} {A B : Type} (m : np A) (f : A -> np B)
  : np B :=
  fun st =>
    match m st with
    | (Ok a, st') => f a st'
    | (Raise e, st') => (Raise e, st')
    end.

Definition np_draw `{NumpyRandom} {A : Type} (d : rng_state -> A * rng_state)
  : np A :=
  fun st => (Ok (fst (d st)), snd (d st)).

Declare Scope np_scope.
Delimit Scope np_scope with np.
Notation "x <- m ;; k" := (np_bind m (fun x => k))
  (at level 61, m at next level, right associativity) : np_scope.

Section NumpyCalls.
Context `{NumpyRandom}.

(** [np.random.seed(seed)]: the seed must fit in 32 bits; the previous
    state is discarded. *)
Definition np_random_seed (seed : Z) : np unit :=
  fun st =>
    if ((0 <=? seed) && (seed <? 2 ^ 32))%Z
    then (Ok tt, seed_state seed)
    else (Raise ValueError, st).

(** [np.random.exponential(scale, size).round(6)] *)
Definition np_exponential_round6 (scale : Q) (size : nat) : np (list float) :=
  np_draw (fun st =>
    let r := draw_exponential scale size st in
    (map (fun x => Fin (Qround_to 6 x)) (fst r), snd r)).

(** [np.random.uniform(low, high, size).round(6)] *)
Definition np_uniform_round6 (low high : Q) (size : nat) : np (list float) :=
  np_draw (fun st =>
    let r := draw_uniform low high size st in
    (map (fun x => Fin (Qround_to 6 x)) (fst r), snd r)).

(** [np.random.randint(low, high, size)] *)
Definition np_randint (low high : Z) (size : nat) : np (list float) :=
  np_draw (fun st =>
    let r := draw_randint low high size st in
    (map of_Z (fst r), snd r)).

(** [np.random.choice(a, size).astype(float)] for a list [a] of
    integers; an empty population is rejected. *)
Definition np_choice_float (a : list Z) (size : nat) : np (list float) :=
  match a with
  | [] => np_raise ValueError
  | _ =>
      np_draw (fun st =>
        let r := draw_positions (length a) size st in
        (map (fun p => of_Z (nth p a 0%Z)) (fst r), snd r))
  end.

(** [np.random.choice(index, size, replace=False)] over a range index
    of the given length: more draws than rows is an error. *)
Definition np_choice_no_replace (index_len size : nat) : np (list nat) :=
  if (size <=? index_len)%nat
  then np_draw (draw_distinct index_len size)
  else np_raise ValueError.
End NumpyCalls.

(* ================================================================= *)
(** ** generate_data.py *)

(** [str(i).zfill(width)] for a natural number. *)
Definition str_nat (i : nat) : string :=
  NilEmpty.string_of_uint (Nat.to_uint i).

Fixpoint repeat_char (c : ascii) (n : nat) : string :=
  match n with
  | O => EmptyString
  | S n' => String c (repeat_char c n')
  end.

Definition zfill (width : nat) (s : string) : string :=
  (repeat_char "0"%char (width - String.length s) ++ s)%string.

Definition cust_id (i : nat) : option string :=
  Some ("C1" ++ zfill 4 (str_nat i))%string.

Definition credit_limit_tiers : list Z :=
  [500; 1000; 1500; 2000; 3000; 5000; 7500; 10000; 15000; 20000]%Z.

(** Row [i] is one of the row labels [idx]. *)
Definition row_listed (idx : list nat) (i : nat) : bool :=
  existsb (Nat.eqb i) idx.

(** [df.loc[idx, c] = np.nan] on the cells of one column. *)
Definition set_nan_at (idx : list nat) (xs : list float) : list float :=
  map (fun ix => if row_listed idx (fst ix) then NaN else snd ix)
      (combine (seq 0 (length xs)) xs).

(** [df.loc[idx, c] = np.nan]: a numeric column gets the marker at the
    rows of [idx], a string column loses those entries, and a column that
    does not exist yet is created entirely missing. *)
Definition loc_set_nan (idx : list nat) (c : string) (df : DataFrame)
  : DataFrame :=
  match get_col df c with
  | Some (NumCol xs) => set_col df c (NumCol (set_nan_at idx xs))
  | Some (ObjCol xs) =>
      set_col df c (ObjCol (map (fun ix => if row_listed idx (fst ix)
                                           then None else snd ix)
                                (combine (seq 0 (length xs)) xs)))
  | None => set_col df c (NumCol (repeat NaN (nrows df)))
  end.

Section Generator.
Context `{NumpyRandom}.
Open Scope np_scope.

Definition generate_credit_card_data (n_samples : nat) (seed : Z)
  : np DataFrame :=
  _ <- np_random_seed seed ;;
  let cust := map cust_id (seq 1 n_samples) in
  balance <- np_exponential_round6 1500 n_samples ;;
  balance_frequency <- np_uniform_round6 0 1 n_samples ;;
  purchases <- np_exponential_round6 1000 n_samples ;;
  oneoff_purchases <- np_exponential_round6 500 n_samples ;;
  installments_purchases <- np_exponential_round6 400 n_samples ;;
  cash_advance <- np_exponential_round6 900 n_samples ;;
  purchases_frequency <- np_uniform_round6 0 1 n_samples ;;
  oneoff_purchases_frequency <- np_uniform_round6 0 1 n_samples ;;
  purchases_installments_frequency <- np_uniform_round6 0 1 n_samples ;;
  cash_advance_frequency <- np_uniform_round6 0 (1 # 2) n_samples ;;
  cash_advance_trx <- np_randint 0 20 n_samples ;;
  purchases_trx <- np_randint 0 100 n_samples ;;
  credit_limit <- np_choice_float credit_limit_tiers n_samples ;;
  payments <- np_exponential_round6 1500 n_samples ;;
  minimum_payments <- np_exponential_round6 400 n_samples ;;
  prc_full_payment <- np_uniform_round6 0 1 n_samples ;;
  tenure <- np_randint 6 13 n_samples ;;
  let df : DataFrame :=
    [ ("CUST_ID", ObjCol cust);
      ("BALANCE", NumCol balance);
      ("BALANCE_FREQUENCY", NumCol balance_frequency);
      ("PURCHASES", NumCol purchases);
      ("ONEOFF_PURCHASES", NumCol oneoff_purchases);
      ("INSTALLMENTS_PURCHASES", NumCol installments_purchases);
      ("CASH_ADVANCE", NumCol cash_advance);
      ("PURCHASES_FREQUENCY", NumCol purchases_frequency);
      ("ONEOFF_PURCHASES_FREQUENCY", NumCol oneoff_purchases_frequency);
      ("PURCHASES_INSTALLMENTS_FREQUENCY", NumCol purchases_installments_frequency);
      ("CASH_ADVANCE_FREQUENCY", NumCol cash_advance_frequency);
      ("CASH_ADVANCE_TRX", NumCol cash_advance_trx);
      ("PURCHASES_TRX", NumCol purchases_trx);
      ("CREDIT_LIMIT", NumCol credit_limit);
      ("PAYMENTS", NumCol payments);
      ("MINIMUM_PAYMENTS", NumCol minimum_payments);
      ("PRC_FULL_PAYMENT", NumCol prc_full_payment);
      ("TENURE", NumCol tenure) ] in
  nan_idx_credit <- np_choice_no_replace (nrows df) 1 ;;
  nan_idx_min <- np_choice_no_replace (nrows df) 313 ;;
  let df := loc_set_nan nan_idx_credit "CREDIT_LIMIT" df in
  let df := loc_set_nan nan_idx_min "MINIMUM_PAYMENTS" df in
  np_ret df.
End Generator.

(* ================================================================= *)
(** ** The command line of generate_data.py *)

Definition digit_value (c : ascii) : option Z :=
  let n := nat_of_ascii c in
  if ((48 <=? n) && (n <=? 57))%nat then Some (Z.of_nat (n - 48)) else None.

Fixpoint parse_digits (s : string) (acc : Z) : option Z :=
  match s with
  | EmptyString => Some acc
  | String c s' =>
      match digit_value c with
      | Some d => parse_digits s' (10 * acc + d)%Z
      | None => None
      end
  end.

(** [int(s)] on an optional sign followed by decimal digits; anything
    else is a conversion error. *)
Definition parse_int (s : string) : option Z :=
  match s with
  | EmptyString => None
  | String "-"%char EmptyString | String "+"%char EmptyString => None
  | String "-"%char s' => option_map Z.opp (parse_digits s' 0)
  | String "+"%char s' => parse_digits s' 0
  | _ => parse_digits s 0
  end.

(** Splits [--flag=value] at the first equals sign. *)
Fixpoint split_equals (s : string) : string * option string :=
  match s with
  | EmptyString => (EmptyString, None)
  | String "="%char s' => (EmptyString, Some s')
  | String c s' =>
      let (flag, value) := split_equals s' in (String c flag, value)
  end.

(** argparse accepts every unambiguous abbreviation of a long flag. *)
Definition abbreviates (long flag : string) : bool :=
  String.prefix "--" flag && negb (String.eqb flag "--") && String.prefix flag long.

Definition version_choices : list Z := [1; 2]%Z.

(** The conversion ([type=int]) and membership ([choices=[1, 2]]) checks
    on the value of [--version]. *)
Definition check_version (value : string) : result Z :=
  match parse_int value with
  | None => Raise (SystemExit 2)
  | Some v =>
      if existsb (Z.eqb v) version_choices then Ok v
      else Raise (SystemExit 2)
  end.

(** [parser.parse_args()] for the parser of [main]: the only flags are
    [--version] and the built-in help.  [version] is the value seen so
    far, [extras] tells whether an unrecognised argument was met (reported
    once the scan is over). *)
Fixpoint parse_args_from (argv : list string) (version : Z) (extras : bool)
  : result Z :=
  match argv with
  | [] => if extras then Raise (SystemExit 2) else Ok version
  | arg :: rest =>
      if String.eqb arg "--" then
        match rest with
        | [] => if extras then Raise (SystemExit 2) else Ok version
        | _ => Raise (SystemExit 2)
        end
      else if String.eqb arg "-h" then Raise (SystemExit 0)
      else
        let (flag, inline) := split_equals arg in
        if abbreviates "--help" flag then
          match inline with
          | None => Raise (SystemExit 0)
          | Some _ => Raise (SystemExit 2)
          end
        else if abbreviates "--version" flag then
          match inline, rest with
          | Some value, _ =>
              match check_version value with
              | Ok v => parse_args_from rest v extras
              | Raise e => Raise e
              end
          | None, value :: rest' =>
              match check_version value with
              | Ok v => parse_args_from rest' v extras
              | Raise e => Raise e
              end
          | None, [] => Raise (SystemExit 2)
          end
        else parse_args_from rest version true
  end.

Definition parse_args (argv : list string) : result Z :=
  parse_args_from argv 1%Z false.

Section GeneratorMain.
Context `{NumpyRandom}.

(** What one run leaves behind: the outcome, the generator state and
    the file system. *)
Definition outcome (A : Type) : Type := result A * rng_state * filesystem.

(** [main()] of generate_data.py, given [sys.argv[1:]]. *)
Definition main (argv : list string) (st : rng_state) (fs : filesystem)
  : outcome unit :=
  match parse_args argv with
  | Raise e => (Raise e, st, fs)
  | Ok version =>
      let output_path := "data/raw/CC_GENERAL.csv" in
      let run :=
        if (version =? 1)%Z
        then generate_credit_card_data 8950 42
        else generate_credit_card_data 9500 99 in
      match run st with
      | (Ok df, st') => (Ok tt, st', write_file fs output_path (CsvFile df))
      | (Raise e, st') => (Raise e, st', fs)
      end
  end.
End GeneratorMain.

(* ================================================================= *)
(** ** scikit-learn *)

Definition matrix : Type := list (list Q).

(** The three estimators of [train], abstract: fitting gives a fitted
    object, transforming and scoring are functions of it.  Every
    transformation is row by row, so the number of rows is kept. *)
Class Sklearn : Type := {
  StandardScaler : Type;
  PCA : Type;
  IsolationForest : Type;
  scaler_fit : matrix -> StandardScaler;
  scaler_transform : StandardScaler -> matrix -> matrix;
  (** [PCA(n_components, random_state).fit(X)] *)
  pca_fit : nat -> Z -> matrix -> PCA;
  pca_transform : PCA -> matrix -> matrix;
  explained_variance_ratio_ : PCA -> list Q;
  (** [IsolationForest(n_estimators, contamination, random_state).fit(X)] *)
  iforest_fit : nat -> Q -> Z -> matrix -> IsolationForest;
  decision_function : IsolationForest -> matrix -> list Q;

  scaler_transform_length : forall s X,
    length (scaler_transform s X) = length X;
  pca_transform_length : forall p X,
    length (pca_transform p X) = length X;
  scaler_transform_width : forall s X d,
    Forall (fun row => length row = d) X ->
    Forall (fun row => length row = d) (scaler_transform s X);
  decision_function_length : forall m X,
    length (decision_function m X) = length X;
  explained_variance_ratio_length : forall k seed X,
    (k <= length X)%nat -> Forall (fun row => (k <= length row)%nat) X ->
    length (explained_variance_ratio_ (pca_fit k seed X)) = k
}.

Section Estimators.
Context `{Sklearn}.

Definition scaler_fit_transform (X : matrix) : StandardScaler * matrix :=
  let s := scaler_fit X in (s, scaler_transform s X).

Definition pca_fit_transform (n_components : nat) (random_state : Z)
           (X : matrix) : PCA * matrix :=
  let p := pca_fit n_components random_state X in (p, pca_transform p X).

(** [IsolationForest.predict]: -1 where the decision function is
    negative, 1 elsewhere. *)
Definition predict (m : IsolationForest) (X : matrix) : list Z :=
  map (fun score => if Qltb score 0 then (-1)%Z else 1%Z)
      (decision_function m X).

(** [fit_predict] of the outlier mixin: fit, then predict on the same
    data. *)
Definition iforest_fit_predict (n_estimators : nat) (contamination : Q)
           (random_state : Z) (X : matrix) : IsolationForest * list Z :=
  let m := iforest_fit n_estimators contamination random_state X in
  (m, predict m X).
End Estimators.

(* ================================================================= *)
(** ** train.py *)

Definition MODEL_PATH : string := "models/isolation_forest.joblib".
Definition SCALER_PATH : string := "models/scaler.joblib".
Definition PCA_PATH : string := "models/pca.joblib".
Definition METRICS_PATH : string := "reports/metrics.json".
Definition FIGURES_DIR : string := "reports/figures".

Definition CONTAMINATION : Q := 0.05.

(** The cells of a column as finite numbers, when they all are. *)
Fixpoint finite_values (xs : list float) : option (list Q) :=
  match xs with
  | [] => Some []
  | Fin q :: xs' => option_map (cons q) (finite_values xs')
  | _ :: _ => None
  end.

(** The columns of a table as finite numbers; estimators reject strings,
    NaN and infinities. *)
Fixpoint numeric_columns (df : DataFrame) : result (list (list Q)) :=
  match df with
  | [] => Ok []
  | (_, NumCol xs) :: df' =>
      match finite_values xs with
      | Some qs =>
          match numeric_columns df' with
          | Ok cols => Ok (qs :: cols)
          | Raise e => Raise e
          end
      | None => Raise ValueError
      end
  | (_, ObjCol _) :: _ => Raise ValueError
  end.

(** The design matrix: one row per table row. *)
Definition rows_of (n : nat) (cols : list (list Q)) : matrix :=
  map (fun i => map (fun col => nth i col 0) cols) (seq 0 n).

(** What an estimator sees of a table; PCA asks for at least
    [n_components] rows and columns. *)
Definition design_matrix (n_components : nat) (df : DataFrame) : result matrix :=
  match numeric_columns df with
  | Raise e => Raise e
  | Ok cols =>
      if ((n_components <=? nrows df) && (n_components <=? length df))%nat
      then Ok (rows_of (nrows df) cols)
      else Raise ValueError
  end.

Definition Qsum (xs : list Q) : Q := fold_right Qplus 0 xs.

Definition Qmean (xs : list Q) : Q := Qsum xs / inject_Z (Z.of_nat (length xs)).

Definition Qlist_min (xs : list Q) : Q :=
  match xs with
  | [] => 0
  | x :: xs' => fold_left (fun m y => if Qltb y m then y else m) xs' x
  end.

Definition Qlist_max (xs : list Q) : Q :=
  match xs with
  | [] => 0
  | x :: xs' => fold_left (fun m y => if Qltb m y then y else m) xs' x
  end.

Fixpoint cumsum_from (acc : Q) (xs : list Q) : list Q :=
  match xs with
  | [] => []
  | x :: xs' => (acc + x) :: cumsum_from (acc + x) xs'
  end.

Definition cumsum (xs : list Q) : list Q := cumsum_from 0 xs.

(** [xs[-1]] *)
Definition last_item (xs : list Q) : result Q :=
  match rev xs with
  | [] => Raise IndexError
  | x :: _ => Ok x
  end.

Definition Zsum (xs : list Z) : Z := fold_right Z.add 0%Z xs.

(** Everything [train] computes on the way to its metrics. *)
Record TrainRun : Type := {
  run_labels : list Z;
  run_anomaly_flags : list Z;
  run_scores : list Q;
  run_metrics : Metrics
}.

Section Train.
Context `{Sklearn}.
Open Scope result_scope.

(** The computation of [train] on the table it loaded. *)
Definition train_frame (df : DataFrame) : result TrainRun :=
  X <- design_matrix 10 df ;;
  let (scaler, X_scaled) := scaler_fit_transform X in
  let (pca_full, X_pca) := pca_fit_transform 10 42 X_scaled in
  let explained := cumsum (explained_variance_ratio_ pca_full) in
  explained_last <- last_item explained ;;
  let (pca_2d, X_2d) := pca_fit_transform 2 42 X_scaled in
  let (model, labels) := iforest_fit_predict 200 CONTAMINATION 42 X_pca in
  let anomaly_flags := map (fun l => if (l =? -1)%Z then 1%Z else 0%Z) labels in
  let n_anomalies := Zsum anomaly_flags in
  let n_normal := (Z.of_nat (length anomaly_flags) - n_anomalies)%Z in
  let anomaly_pct :=
    (inject_Z n_anomalies / inject_Z (Z.of_nat (length anomaly_flags)) * 100)%Q in
  let scores := decision_function model X_pca in
  let avg_score := Qmean scores in
  let min_score := Qlist_min scores in
  let max_score := Qlist_max scores in
  Ok {| run_labels := labels;
        run_anomaly_flags := anomaly_flags;
        run_scores := scores;
        run_metrics :=
          {| model := "IsolationForest + PCA";
             n_samples := Z.of_nat (nrows df);
             n_components_pca := 10;
             variance_explained := Qround_to 4 explained_last;
             contamination := CONTAMINATION;
             n_anomalies := n_anomalies;
             n_normal := n_normal;
             anomaly_percentage := Qround_to 2 anomaly_pct;
             anomaly_score_mean := Qround_to 4 avg_score;
             anomaly_score_min := Qround_to 4 min_score;
             anomaly_score_max := Qround_to 4 max_score |} |}.

(** [train()]: loads the processed table and, when the estimators
    accept it, writes the metrics, the figures and the models. *)
Definition train (fs : filesystem) : result Metrics * filesystem :=
  match read_csv fs PROCESSED_PATH with
  | Raise e => (Raise e, fs)
  | Ok df =>
      match train_frame df with
      | Raise e => (Raise e, fs)
      | Ok run =>
          let metrics := run_metrics run in
          let fs := write_file fs (FIGURES_DIR ++ "/pca_variance.png") BinaryFile in
          let fs := write_file fs METRICS_PATH (JsonFile metrics) in
          let fs := write_file fs (FIGURES_DIR ++ "/anomaly_scatter.png") BinaryFile in
          let fs := write_file fs (FIGURES_DIR ++ "/anomaly_scores.png") BinaryFile in
          let fs := write_file fs MODEL_PATH BinaryFile in
          let fs := write_file fs SCALER_PATH BinaryFile in
          let fs := write_file fs PCA_PATH BinaryFile in
          (Ok metrics, fs)
      end
  end.
End Train.

(* ================================================================= *)
(** ** Specification vocabulary *)

(** A frame is rectangular when its columns all have the length of its
    index. *)
Definition rectangular (df : DataFrame) : Prop :=
  Forall (fun kv => series_len (snd kv) = nrows df) df.


(** The columns that feature engineering writes. *)
Definition derived_columns : list string :=
  ["MONTHLY_AVG_PURCHASE"; "MONTHLY_AVG_CASH_ADVANCE";
   "PURCHASE_TO_LIMIT_RATIO"; "BALANCE_TO_LIMIT_RATIO"].

(** The columns of the generator's table, in the order it writes them. *)
Definition numeric_schema : list string :=
  ["BALANCE"; "BALANCE_FREQUENCY"; "PURCHASES"; "ONEOFF_PURCHASES";
   "INSTALLMENTS_PURCHASES"; "CASH_ADVANCE"; "PURCHASES_FREQUENCY";
   "ONEOFF_PURCHASES_FREQUENCY"; "PURCHASES_INSTALLMENTS_FREQUENCY";
   "CASH_ADVANCE_FREQUENCY"; "CASH_ADVANCE_TRX"; "PURCHASES_TRX";
   "CREDIT_LIMIT"; "PAYMENTS"; "MINIMUM_PAYMENTS"; "PRC_FULL_PAYMENT";
   "TENURE"].

Definition generator_schema : list string := "CUST_ID" :: numeric_schema.

(** A cell is a finite number satisfying [P]. *)
Definition fin_sat (P : Q -> Prop) (x : float) : Prop :=
  match x with
  | Fin q => P q
  | _ => False
  end.

Definition finite (x : float) : Prop := fin_sat (fun _ => True) x.

(** A cell is missing, or a finite number satisfying [P]. *)
Definition na_or_fin_sat (P : Q -> Prop) (x : float) : Prop :=
  x = NaN \/ fin_sat P x.

(** The numeric columns of a customer table. *)
Record Customers : Type := {
  balance : list float;
  balance_frequency : list float;
  purchases : list float;
  oneoff_purchases : list float;
  installments_purchases : list float;
  cash_advance : list float;
  purchases_frequency : list float;
  oneoff_purchases_frequency : list float;
  purchases_installments_frequency : list float;
  cash_advance_frequency : list float;
  cash_advance_trx : list float;
  purchases_trx : list float;
  credit_limit : list float;
  payments : list float;
  minimum_payments : list float;
  prc_full_payment : list float;
  tenure : list float
}.

Definition numeric_frame (c : Customers) : DataFrame :=
  [ ("BALANCE", NumCol (balance c));
    ("BALANCE_FREQUENCY", NumCol (balance_frequency c));
    ("PURCHASES", NumCol (purchases c));
    ("ONEOFF_PURCHASES", NumCol (oneoff_purchases c));
    ("INSTALLMENTS_PURCHASES", NumCol (installments_purchases c));
    ("CASH_ADVANCE", NumCol (cash_advance c));
    ("PURCHASES_FREQUENCY", NumCol (purchases_frequency c));
    ("ONEOFF_PURCHASES_FREQUENCY", NumCol (oneoff_purchases_frequency c));
    ("PURCHASES_INSTALLMENTS_FREQUENCY",
     NumCol (purchases_installments_frequency c));
    ("CASH_ADVANCE_FREQUENCY", NumCol (cash_advance_frequency c));
    ("CASH_ADVANCE_TRX", NumCol (cash_advance_trx c));
    ("PURCHASES_TRX", NumCol (purchases_trx c));
    ("CREDIT_LIMIT", NumCol (credit_limit c));
    ("PAYMENTS", NumCol (payments c));
    ("MINIMUM_PAYMENTS", NumCol (minimum_payments c));
    ("PRC_FULL_PAYMENT", NumCol (prc_full_payment c));
    ("TENURE", NumCol (tenure c)) ].

(** The table with the generator's columns: the identifier, when there
    is one, holds strings and comes first; the others hold numbers. *)
Definition customer_frame (ids : option (list (option string)))
           (c : Customers) : DataFrame :=
  match ids with
  | Some ids => ("CUST_ID", ObjCol ids) :: numeric_frame c
  | None => numeric_frame c
  end.

(** A table matches the generator's schema when it is rectangular and
    has the generator's columns, with or without the identifier. *)
Definition in_generator_schema (df : DataFrame) : Prop :=
  rectangular df /\
  exists ids c, df = customer_frame ids c.

(** Missing values occur only in the listed columns. *)
Definition missing_only_in (cs : list string) (df : DataFrame) : Prop :=
  forall c s, get_col df c = Some s -> ~ In c cs -> series_count_na s = O.

(** Column [c] is numeric and has at least one value that is not
    missing. *)
Definition not_entirely_missing (c : string) (df : DataFrame) : Prop :=
  exists xs, get_num df c = Ok xs /\ (count_na xs < length xs)%nat.

Definition designated_missing (df : DataFrame) : Prop :=
  missing_only_in ["CREDIT_LIMIT"; "MINIMUM_PAYMENTS"] df /\
  not_entirely_missing "CREDIT_LIMIT" df /\
  not_entirely_missing "MINIMUM_PAYMENTS" df.

(** Every cell of numeric column [c] satisfies [P]. *)
Definition cells_of (c : string) (P : float -> Prop) (df : DataFrame) : Prop :=
  exists xs, get_num df c = Ok xs /\ Forall P xs.

(** A table has no missing value, and no identifier column. *)
Definition clean (out : DataFrame) : Prop :=
  Forall (fun kv => series_count_na (snd kv) = O) out /\
  ~ In "CUST_ID" (columns out).

(** [preprocess] succeeds on a table and returns a clean one. *)
Definition preprocess_cleans (df : DataFrame) : Prop :=
  exists out, preprocess_frame df = Ok out /\ clean out.

(** What [preprocess] returns on a customer table. *)
Definition processed_frame (c : Customers) : DataFrame :=
  let cl := fillna (credit_limit c) (median (credit_limit c)) in
  let mp := fillna (minimum_payments c) (median (minimum_payments c)) in
  let clipped xs := clip_upper (quantile (99 # 100) xs) xs in
  [ ("BALANCE", NumCol (clipped (balance c)));
    ("BALANCE_FREQUENCY", NumCol (balance_frequency c));
    ("PURCHASES", NumCol (clipped (purchases c)));
    ("ONEOFF_PURCHASES", NumCol (oneoff_purchases c));
    ("INSTALLMENTS_PURCHASES", NumCol (installments_purchases c));
    ("CASH_ADVANCE", NumCol (clipped (cash_advance c)));
    ("PURCHASES_FREQUENCY", NumCol (purchases_frequency c));
    ("ONEOFF_PURCHASES_FREQUENCY", NumCol (oneoff_purchases_frequency c));
    ("PURCHASES_INSTALLMENTS_FREQUENCY",
     NumCol (purchases_installments_frequency c));
    ("CASH_ADVANCE_FREQUENCY", NumCol (cash_advance_frequency c));
    ("CASH_ADVANCE_TRX", NumCol (cash_advance_trx c));
    ("PURCHASES_TRX", NumCol (purchases_trx c));
    ("CREDIT_LIMIT", NumCol cl);
    ("PAYMENTS", NumCol (clipped (payments c)));
    ("MINIMUM_PAYMENTS", NumCol (clipped mp));
    ("PRC_FULL_PAYMENT", NumCol (prc_full_payment c));
    ("TENURE", NumCol (tenure c));
    ("MONTHLY_AVG_PURCHASE", NumCol (series_div (purchases c) (tenure c)));
    ("MONTHLY_AVG_CASH_ADVANCE",
     NumCol (series_div (cash_advance c) (tenure c)));
    ("PURCHASE_TO_LIMIT_RATIO",
     NumCol (series_div (purchases c) (series_add_scalar cl (Fin 1))));
    ("BALANCE_TO_LIMIT_RATIO",
     NumCol (series_div (balance c) (series_add_scalar cl (Fin 1)))) ].

(** A small table in the generator's schema, for examples: three
    customers, one credit limit and one minimum payment missing. *)
Definition ints (zs : list Z) : Series := NumCol (map of_Z zs).

Definition sample_table : DataFrame :=
  [ ("CUST_ID", ObjCol [Some "C10001"; Some "C10002"; Some "C10003"]);
    ("BALANCE", ints [10; 20; 3000]%Z);
    ("BALANCE_FREQUENCY", ints [1; 0; 1]%Z);
    ("PURCHASES", ints [0; 100; 50]%Z);
    ("ONEOFF_PURCHASES", ints [0; 60; 50]%Z);
    ("INSTALLMENTS_PURCHASES", ints [0; 40; 0]%Z);
    ("CASH_ADVANCE", ints [5; 0; 7]%Z);
    ("PURCHASES_FREQUENCY", ints [0; 1; 1]%Z);
    ("ONEOFF_PURCHASES_FREQUENCY", ints [0; 1; 0]%Z);
    ("PURCHASES_INSTALLMENTS_FREQUENCY", ints [0; 1; 0]%Z);
    ("CASH_ADVANCE_FREQUENCY", ints [0; 0; 0]%Z);
    ("CASH_ADVANCE_TRX", ints [1; 0; 3]%Z);
    ("PURCHASES_TRX", ints [0; 12; 1]%Z);
    ("CREDIT_LIMIT", NumCol [Fin 500; NaN; Fin 1000]);
    ("PAYMENTS", ints [1; 2; 3]%Z);
    ("MINIMUM_PAYMENTS", NumCol [NaN; Fin 4; Fin 8]);
    ("PRC_FULL_PAYMENT", ints [0; 0; 1]%Z);
    ("TENURE", ints [6; 10; 12]%Z) ].

(** What [preprocess] makes of the sample table. *)
Definition sample_processed : DataFrame :=
  Eval vm_compute in
    match preprocess_frame sample_table with
    | Ok out => out
    | Raise _ => []
    end.

(** Two cells hold the same number. *)
Definition same_value (x y : float) : Prop :=
  match x, y with
  | Fin a, Fin b => a == b
  | PInf, PInf | NInf, NInf | NaN, NaN => True
  | _, _ => False
  end.

(** Column [c] of a table is, row by row, column [a] divided by
    [denominator] of column [b] of the same table. *)
Definition ratio_of_columns (t : DataFrame) (c a b : string)
           (denominator : float -> float) : Prop :=
  exists cs xs ys : list float,
    get_num t c = Ok cs /\ get_num t a = Ok xs /\ get_num t b = Ok ys /\
    forall i : nat, (i < nrows t)%nat ->
      same_value (nth i cs NaN) (fdiv (nth i xs NaN) (denominator (nth i ys NaN))).

(** The four derived columns read as ratios of the columns of the table
    they are found in. *)
Definition derived_from_own_columns (t : DataFrame) : Prop :=
  ratio_of_columns t "MONTHLY_AVG_PURCHASE" "PURCHASES" "TENURE" (fun y => y) /\
  ratio_of_columns t "MONTHLY_AVG_CASH_ADVANCE" "CASH_ADVANCE" "TENURE" (fun y => y) /\
  ratio_of_columns t "PURCHASE_TO_LIMIT_RATIO" "PURCHASES" "CREDIT_LIMIT"
                   (fun y => fadd y (Fin 1)) /\
  ratio_of_columns t "BALANCE_TO_LIMIT_RATIO" "BALANCE" "CREDIT_LIMIT"
                   (fun y => fadd y (Fin 1)).


(** The sample table with a customer who has no purchases and a tenure
    of zero months. *)
Definition zero_tenure_table : DataFrame :=
  set_col sample_table "TENURE" (ints [0; 10; 12]%Z).

(** The seeds [np.random.seed] accepts. *)
Definition valid_seed (seed : Z) : Prop := (0 <= seed < 2 ^ 32)%Z.

(** Every numeric column of a customer table satisfies [P]. *)
Definition every_column (P : list float -> Prop) (c : Customers) : Prop :=
  P (balance c) /\ P (balance_frequency c) /\ P (purchases c) /\
  P (oneoff_purchases c) /\ P (installments_purchases c) /\
  P (cash_advance c) /\ P (purchases_frequency c) /\
  P (oneoff_purchases_frequency c) /\
  P (purchases_installments_frequency c) /\
  P (cash_advance_frequency c) /\ P (cash_advance_trx c) /\
  P (purchases_trx c) /\ P (credit_limit c) /\ P (payments c) /\
  P (minimum_payments c) /\ P (prc_full_payment c) /\ P (tenure c).

(** The customer table after the generator has blanked the rows
    [idx_credit] of CREDIT_LIMIT and [idx_min] of MINIMUM_PAYMENTS. *)
Definition with_missing (idx_credit idx_min : list nat) (c : Customers)
  : Customers :=
  {| balance := balance c;
     balance_frequency := balance_frequency c;
     purchases := purchases c;
     oneoff_purchases := oneoff_purchases c;
     installments_purchases := installments_purchases c;
     cash_advance := cash_advance c;
     purchases_frequency := purchases_frequency c;
     oneoff_purchases_frequency := oneoff_purchases_frequency c;
     purchases_installments_frequency := purchases_installments_frequency c;
     cash_advance_frequency := cash_advance_frequency c;
     cash_advance_trx := cash_advance_trx c;
     purchases_trx := purchases_trx c;
     credit_limit := set_nan_at idx_credit (credit_limit c);
     payments := payments c;
     minimum_payments := set_nan_at idx_min (minimum_payments c);
     prc_full_payment := prc_full_payment c;
     tenure := tenure c |}.

(** A sample of row indices: distinct rows of a table of [n] rows. *)
Definition row_sample (n size : nat) (idx : list nat) : Prop :=
  NoDup idx /\ length idx = size /\ Forall (fun i => (i < n)%nat) idx.

(** An integer cell between [lo] and [hi]. *)
Definition integer_between (lo hi : Z) (q : Q) : Prop :=
  exists z : Z, q = inject_Z z /\ (lo <= z <= hi)%Z.

(** What a run of the generator returns, given the identifiers, the
    drawn columns (all finite) and the rows blanked afterwards. *)
Record generated_from (n : nat) (ids : list (option string))
       (c : Customers) (idx_credit idx_min : list nat) (df : DataFrame)
  : Prop := {
  gen_frame :
    df = customer_frame (Some ids) (with_missing idx_credit idx_min c);
  gen_ids_length : length ids = n;
  gen_ids_present : Forall (fun o => o <> None) ids;
  gen_lengths : every_column (fun xs => length xs = n) c;
  gen_finite : every_column (Forall finite) c;
  gen_tenure : Forall (fin_sat (integer_between 6 12)) (tenure c);
  gen_credit_limit : Forall (fin_sat (fun q => 500 <= q)) (credit_limit c);
  gen_sample_credit : row_sample n 1 idx_credit;
  gen_sample_min : row_sample n 313 idx_min
}.

Definition generated (n : nat) (df : DataFrame) : Prop :=
  exists ids c idx_credit idx_min,
    generated_from n ids c idx_credit idx_min df.

(** A generator to run examples with: the state counts the draws, every
    draw returns its lowest admissible value, and a sample without
    replacement is the first rows. *)
Definition counting_random : NumpyRandom.
Proof.
  refine {| rng_state := Z;
            seed_state := fun seed => seed;
            draw_exponential := fun scale n st => (repeat 0 n, (st + 1)%Z);
            draw_uniform := fun lo hi n st => (repeat lo n, (st + 1)%Z);
            draw_randint := fun lo hi n st => (repeat lo n, (st + 1)%Z);
            draw_positions := fun pop n st => (repeat O n, (st + 1)%Z);
            draw_distinct := fun pop k st => (seq 0 k, (st + 1)%Z) |};
    intros; simpl.
  - apply repeat_length.
  - apply repeat_length.
  - apply repeat_length.
  - apply Forall_forall. intros z Hz. apply repeat_spec in Hz. subst z. lia.
  - apply repeat_length.
  - apply Forall_forall. intros i Hi. apply repeat_spec in Hi. subst i. lia.
  - apply length_seq.
  - apply Forall_forall. intros i Hi. apply in_seq in Hi. lia.
  - apply seq_NoDup.
Defined.

(** Estimators to run examples with: scaling and projection keep the
    matrix, every component explains the same share of the variance, and
    a row scores its first feature minus fifteen. *)
Definition first_feature_estimators : Sklearn.
Proof.
  refine {| StandardScaler := unit;
            PCA := nat;
            IsolationForest := unit;
            scaler_fit := fun _ => tt;
            scaler_transform := fun _ X => X;
            pca_fit := fun k _ _ => k;
            pca_transform := fun _ X => X;
            explained_variance_ratio_ := fun k => repeat (1 # 10) k;
            iforest_fit := fun _ _ _ _ => tt;
            decision_function :=
              fun _ X => map (fun row => hd 0 row - 15) X |};
    intros; simpl.
  - reflexivity.
  - reflexivity.
  - assumption.
  - apply length_map.
  - apply repeat_length.
Defined.


Definition count_labelled (l : Z) (labels : list Z) : Z :=
  Z.of_nat (length (filter (Z.eqb l) labels)).

(** A processed table to train on in examples: twelve customers, ten
    features. *)
Definition training_sample : DataFrame :=
  [ ("BALANCE", ints [10; 20; 30; 40; 50; 60; 70; 80; 90; 100; 110; 120]%Z);
    ("PURCHASES", ints [0; 100; 50; 20; 30; 10; 5; 0; 7; 9; 11; 13]%Z);
    ("CASH_ADVANCE", ints [5; 0; 7; 1; 2; 3; 4; 5; 6; 7; 8; 9]%Z);
    ("CREDIT_LIMIT", ints [500; 750; 1000; 500; 500; 500; 500; 500; 500; 500; 500; 500]%Z);
    ("PAYMENTS", ints [1; 2; 3; 4; 5; 6; 7; 8; 9; 10; 11; 12]%Z);
    ("MINIMUM_PAYMENTS", ints [6; 4; 8; 6; 4; 8; 6; 4; 8; 6; 4; 8]%Z);
    ("TENURE", ints [6; 10; 12; 6; 10; 12; 6; 10; 12; 6; 10; 12]%Z);
    ("MONTHLY_AVG_PURCHASE", ints [0; 10; 4; 3; 3; 1; 1; 0; 1; 1; 1; 1]%Z);
    ("MONTHLY_AVG_CASH_ADVANCE", ints [1; 0; 1; 0; 0; 0; 1; 0; 0; 1; 1; 1]%Z);
    ("PURCHASE_TO_LIMIT_RATIO", ints [0; 0; 0; 0; 0; 0; 0; 0; 0; 0; 0; 0]%Z) ].

Definition training_files : filesystem :=
  write_file (fun _ => None) PROCESSED_PATH (CsvFile training_sample).

(** The metrics the example estimators report on the example table. *)
Definition training_metrics : Metrics :=
  Eval vm_compute in
    match @train_frame first_feature_estimators training_sample with
    | Ok run => run_metrics run
    | Raise _ =>
        {| model := ""; n_samples := 0; n_components_pca := 0;
           variance_explained := 0; contamination := 0; n_anomalies := 0;
           n_normal := 0; anomaly_percentage := 0; anomaly_score_mean := 0;
           anomaly_score_min := 0; anomaly_score_max := 0 |}
    end.

(** The sample table after the identifier is dropped and the missing
    values are filled. *)
Definition sample_imputed : DataFrame :=
  Eval vm_compute in
    match impute (drop_identifier sample_table) with
    | Ok imputed => imputed
    | Raise _ => []
    end.

(** Every column of a table holds [n] finite numbers. *)
Definition finite_frame (n : nat) (df : DataFrame) : Prop :=
  Forall (fun kv => exists xs, snd kv = NumCol xs /\
                               Forall finite xs /\ length xs = n) df.

(** The columns [preprocess] reads, in the order it first reads them. *)
Definition required_columns : list string :=
  ["CREDIT_LIMIT"; "MINIMUM_PAYMENTS"; "PURCHASES"; "TENURE";
   "CASH_ADVANCE"; "BALANCE"; "PAYMENTS"].

(** The first of the listed columns that a table does not have. *)
Definition first_missing (df : DataFrame) (cs : list string) : option string :=
  find (fun c => match get_col df c with None => true | Some _ => false end) cs.

(** Every column of a table other than the identifier is numeric. *)
Definition numeric_but_identifier (df : DataFrame) : Prop :=
  forall c s, get_col df c = Some s -> c <> "CUST_ID" ->
              exists xs, s = NumCol xs.

(** The sample table without its PAYMENTS and TENURE columns. *)
Definition sample_without_tenure : DataFrame :=
  drop_columns ["PAYMENTS"; "TENURE"] sample_table.

(** The row number an identifier was made from: the decimal digits after
    the ["C1"] prefix. *)
Definition id_number (id : option string) : option nat :=
  match id with
  | Some (String "C" (String "1" digits)) =>
      option_map Nat.of_uint (NilEmpty.uint_of_string digits)
  | _ => None
  end.

(** A table an estimator cannot take: it holds a string column or a cell
    that is not a finite number, or it has fewer than ten rows or
    columns. *)
Definition unfit_for_training (df : DataFrame) : Prop :=
  (exists c xs, In (c, ObjCol xs) df) \/
  (exists c xs x, In (c, NumCol xs) df /\ In x xs /\ ~ finite x) \/
  (nrows df < 10)%nat \/
  (length df < 10)%nat.

Definition raw_sample_files : filesystem :=
  write_file (fun _ => None) PROCESSED_PATH (CsvFile sample_table).

(* ================================================================= *)
(** * Properties *)

(** ** Results *)

Lemma rbind_Ok_inv {A B : Type} (m : result A) (f : A -> result B) (b : B) :
  rbind m f = Ok b -> exists a, m = Ok a /\ f a = Ok b.
Proof.
  destruct m as [a | e]; simpl; intros Hb.
  - exists a. split; [reflexivity | exact Hb].
  - discriminate.
Qed.

Ltac invert_binds :=
  repeat match goal with
         | Hb : rbind _ _ = Ok _ |- _ =>
             let a := fresh "v" in
             let Ha := fresh "Hstep" in
             apply rbind_Ok_inv in Hb; destruct Hb as (a & Ha & Hb)
         | Hb : Ok _ = Ok _ |- _ => injection Hb as Hb
         end.

Ltac listed := solve [simpl; repeat (first [now left | right])].

(** ** Columns of a frame *)

Lemma get_col_set_col_same (df : DataFrame) (c : string) (s : Series) :
  get_col (set_col df c s) c = Some s.
Proof.
  induction df as [| [k s'] df IH]; simpl.
  - now rewrite String.eqb_refl.
  - destruct (String.eqb k c) eqn:E; simpl; rewrite E; [reflexivity | exact IH].
Qed.

Lemma get_col_set_col_other (df : DataFrame) (c c' : string) (s : Series) :
  c <> c' -> get_col (set_col df c s) c' = get_col df c'.
Proof.
  intros Hne. induction df as [| [k s'] df IH]; simpl.
  - destruct (String.eqb c c') eqn:E; [| reflexivity].
    apply String.eqb_eq in E. contradiction.
  - destruct (String.eqb k c) eqn:E; simpl.
    + apply String.eqb_eq in E. subst k.
      destruct (String.eqb c c') eqn:E'; [| reflexivity].
      apply String.eqb_eq in E'. contradiction.
    + now rewrite IH.
Qed.

Lemma get_num_set_col_same (df : DataFrame) (c : string) (xs : list float) :
  get_num (set_col df c (NumCol xs)) c = Ok xs.
Proof. unfold get_num. now rewrite get_col_set_col_same. Qed.

Lemma get_num_set_col_other (df : DataFrame) (c c' : string) (s : Series) :
  c <> c' -> get_num (set_col df c s) c' = get_num df c'.
Proof. intros Hne. unfold get_num. now rewrite get_col_set_col_other. Qed.

Lemma get_num_Ok (df : DataFrame) (c : string) (xs : list float) :
  get_num df c = Ok xs <-> get_col df c = Some (NumCol xs).
Proof.
  unfold get_num. destruct (get_col df c) as [[ys | ys] |]; split; intros E;
    try discriminate; congruence.
Qed.

Lemma get_col_drop_columns (cs : list string) (df : DataFrame) (c : string) :
  get_col (drop_columns cs df) c =
  if existsb (String.eqb c) cs then None else get_col df c.
Proof.
  induction df as [| [k s] df IH]; simpl.
  - now destruct (existsb (String.eqb c) cs).
  - destruct (existsb (String.eqb k) cs) eqn:Ek; simpl.
    + rewrite IH. destruct (String.eqb k c) eqn:E; [| reflexivity].
      apply String.eqb_eq in E. subst k. now rewrite Ek.
    + destruct (String.eqb k c) eqn:E.
      * apply String.eqb_eq in E. subst k. now rewrite Ek.
      * exact IH.
Qed.

Lemma rectangular_get_col (df : DataFrame) (c : string) (s : Series) :
  rectangular df -> get_col df c = Some s -> series_len s = nrows df.
Proof.
  unfold rectangular. generalize (nrows df) as n. intros n Hrect.
  induction Hrect as [| [k s'] df Hk Hrect IH]; simpl; [discriminate |].
  destruct (String.eqb k c); [| exact IH].
  intros E. injection E as <-. exact Hk.
Qed.

Lemma nrows_set_col (df : DataFrame) (c : string) (s : Series) :
  df <> [] -> series_len s = nrows df -> nrows (set_col df c s) = nrows df.
Proof.
  destruct df as [| [k s'] df]; [congruence |]. simpl. intros _ Hs.
  now destruct (String.eqb k c).
Qed.

(** ** Comparisons of cells *)

Lemma Qltb_lt (a b : Q) : Qltb a b = true <-> a < b.
Proof.
  unfold Qltb. rewrite negb_true_iff. split; intros Hab.
  - apply Qnot_le_lt. intros Hle. apply Qle_bool_iff in Hle. congruence.
  - destruct (Qle_bool b a) eqn:E; [| reflexivity].
    apply Qle_bool_iff in E. exfalso. exact (Qlt_not_le _ _ Hab E).
Qed.

Lemma Qltb_ge (a b : Q) : Qltb a b = false <-> b <= a.
Proof.
  unfold Qltb. rewrite negb_false_iff. apply Qle_bool_iff.
Qed.

Lemma fgtb_irrefl (x : float) : fgtb x x = false.
Proof.
  destruct x as [q | | |]; simpl; try reflexivity.
  apply Qltb_ge. apply Qle_refl.
Qed.

Lemma fgtb_asym (x y : float) : fgtb x y = true -> fgtb y x = false.
Proof.
  destruct x as [a | | |], y as [b | | |]; simpl; try congruence.
  intros Hab. apply Qltb_lt in Hab. apply Qltb_ge. now apply Qlt_le_weak.
Qed.

Lemma fleb_not_fgtb (x y : float) : fleb x y = true -> fgtb x y = false.
Proof.
  destruct x as [a | | |], y as [b | | |]; simpl; try congruence.
  intros Hab. apply Qle_bool_iff in Hab. now apply Qltb_ge.
Qed.

(** ** Clipping one column *)

Lemma clip_upper_length (u : float) (xs : list float) :
  length (clip_upper u xs) = length xs.
Proof. unfold clip_upper. apply length_map. Qed.

Lemma clip_upper_nth (u : float) (xs : list float) (i : nat) :
  nth i (clip_upper u xs) NaN =
  if fgtb (nth i xs NaN) u then u else nth i xs NaN.
Proof.
  unfold clip_upper.
  change NaN with ((fun x => if fgtb x u then u else x) NaN) at 1.
  apply map_nth.
Qed.

Lemma clip_upper_bounded (u x : float) :
  fgtb (if fgtb x u then u else x) u = false.
Proof.
  destruct (fgtb x u) eqn:E; [apply fgtb_irrefl | exact E].
Qed.

Lemma clip_upper_never_raises (u x : float) :
  fgtb (if fgtb x u then u else x) x = false.
Proof.
  destruct (fgtb x u) eqn:E; [now apply fgtb_asym | apply fgtb_irrefl].
Qed.

(** ** The steps of [preprocess] column by column *)

Lemma fill_with_median_spec (c : string) (df out : DataFrame) :
  fill_with_median c df = Ok out ->
  exists xs, get_num df c = Ok xs /\
             out = set_col df c (NumCol (fillna xs (median xs))).
Proof.
  unfold fill_with_median. intros Hrun. invert_binds. eauto.
Qed.

Lemma ratio_column_spec (c a b : string) (df out : DataFrame) :
  ratio_column c a b df = Ok out ->
  exists xs ys, get_num df a = Ok xs /\ get_num df b = Ok ys /\
                out = set_col df c (NumCol (series_div xs ys)).
Proof.
  unfold ratio_column. intros Hrun. invert_binds. eauto.
Qed.

Lemma guarded_ratio_column_spec (c a b : string) (df out : DataFrame) :
  guarded_ratio_column c a b df = Ok out ->
  exists xs ys,
    get_num df a = Ok xs /\ get_num df b = Ok ys /\
    out = set_col df c
            (NumCol (series_div xs (series_add_scalar ys (Fin 1)))).
Proof.
  unfold guarded_ratio_column. intros Hrun. invert_binds. eauto.
Qed.

(** The clipping loop rewrites exactly the listed columns, each from its
    own content before the loop. *)
Lemma for_each_clip_spec (cols : list string) :
  NoDup cols ->
  forall df out : DataFrame,
    for_each cols clip_column df = Ok out ->
    (forall c, In c cols ->
       exists xs, get_num df c = Ok xs /\
                  get_num out c = Ok (clip_upper (quantile (99 # 100) xs) xs)) /\
    (forall c, ~ In c cols -> get_col out c = get_col df c).
Proof.
  induction 1 as [| c0 cols Hfresh Hnodup IH]; intros df out Hrun; simpl in Hrun.
  - injection Hrun as <-. split; [intros c [] | reflexivity].
  - apply rbind_Ok_inv in Hrun. destruct Hrun as (df1 & Hclip & Hrest).
    unfold clip_column in Hclip. invert_binds. subst df1.
    destruct (IH _ _ Hrest) as [Hin Hout]. split.
    + intros c [-> | Hc].
      * exists v. split; [assumption |].
        unfold get_num. rewrite (Hout c Hfresh).
        now rewrite get_col_set_col_same.
      * destruct (Hin c Hc) as (xs & Hget & Hres).
        exists xs. split; [| exact Hres].
        rewrite get_num_set_col_other in Hget; [exact Hget |].
        intros ->. contradiction.
    + intros c Hc. rewrite Hout by (intros Hc'; apply Hc; now right).
      apply get_col_set_col_other. intros ->. apply Hc. now left.
Qed.

Lemma cols_to_clip_NoDup : NoDup cols_to_clip.
Proof.
  unfold cols_to_clip.
  repeat (constructor; [simpl; intuition discriminate |]). constructor.
Qed.

(** Feature engineering leaves every other column alone. *)
Lemma engineer_frame (df out : DataFrame) (c : string) :
  engineer df = Ok out -> ~ In c derived_columns ->
  get_col out c = get_col df c.
Proof.
  unfold engineer. intros Hrun Hc. invert_binds.
  apply ratio_column_spec in Hstep. destruct Hstep as (? & ? & _ & _ & ->).
  apply ratio_column_spec in Hstep0. destruct Hstep0 as (? & ? & _ & _ & ->).
  apply guarded_ratio_column_spec in Hstep1.
  destruct Hstep1 as (? & ? & _ & _ & ->).
  apply guarded_ratio_column_spec in Hrun.
  destruct Hrun as (? & ? & _ & _ & ->).
  rewrite !get_col_set_col_other; [reflexivity | | | |];
    intros <-; apply Hc; listed.
Qed.

(** ** Clipping (C3) *)

Lemma in_cols_to_clip_not_derived (c : string) :
  In c cols_to_clip -> ~ In c derived_columns.
Proof.
  unfold cols_to_clip, derived_columns. simpl.
  intros Hc Hd. repeat destruct Hc as [<- | Hc]; try contradiction;
    repeat destruct Hd as [Hd | Hd]; try discriminate; contradiction.
Qed.

(** C3: after [preprocess], a clipped column never exceeds the 99th
    percentile of that column as it was after imputation; cells at or
    below the threshold are unchanged; no cell is raised. *)
Theorem clipping_respects_threshold (df out : DataFrame) (col : string) :
  preprocess_frame df = Ok out ->
  In col cols_to_clip ->
  exists (imputed : DataFrame) (xs ys : list float),
    impute (drop_identifier df) = Ok imputed /\
    get_num imputed col = Ok xs /\
    get_num out col = Ok ys /\
    length ys = length xs /\
    forall i : nat, (i < length xs)%nat ->
      let upper := quantile (99 # 100) xs in
      fgtb (nth i ys NaN) upper = false /\
      (fleb (nth i xs NaN) upper = true -> nth i ys NaN = nth i xs NaN) /\
      fgtb (nth i ys NaN) (nth i xs NaN) = false.
Proof.
  unfold preprocess_frame. intros Hrun Hcol.
  apply rbind_Ok_inv in Hrun. destruct Hrun as (imputed & Himpute & Hrun).
  apply rbind_Ok_inv in Hrun. destruct Hrun as (engineered & Heng & Hclip).
  destruct (for_each_clip_spec _ cols_to_clip_NoDup _ _ Hclip) as [Hin _].
  destruct (Hin col Hcol) as (xs & Hxs & Hys).
  exists imputed, xs, (clip_upper (quantile (99 # 100) xs) xs).
  repeat split; try assumption.
  - apply get_num_Ok. apply get_num_Ok in Hxs.
    rewrite <- (engineer_frame _ _ col Heng); [exact Hxs |].
    now apply in_cols_to_clip_not_derived.
  - apply clip_upper_length.
  - rewrite clip_upper_nth. apply clip_upper_bounded.
  - intros Hle. rewrite clip_upper_nth.
    now rewrite (fleb_not_fgtb _ _ Hle).
  - rewrite clip_upper_nth. apply clip_upper_never_raises.
Qed.

Lemma clipping_respects_threshold_witness :
  exists (imputed : DataFrame) (xs ys : list float),
    impute (drop_identifier sample_table) = Ok imputed /\
    get_num imputed "BALANCE" = Ok xs /\
    get_num sample_processed "BALANCE" = Ok ys /\
    length ys = length xs /\
    forall i : nat, (i < length xs)%nat ->
      let upper := quantile (99 # 100) xs in
      fgtb (nth i ys NaN) upper = false /\
      (fleb (nth i xs NaN) upper = true -> nth i ys NaN = nth i xs NaN) /\
      fgtb (nth i ys NaN) (nth i xs NaN) = false.
Proof.
  apply (clipping_respects_threshold sample_table sample_processed "BALANCE").
  - vm_compute. reflexivity.
  - simpl. now left.
Defined.

(** ** Derived ratios (C2) *)

Lemma fdiv_NaN_l (y : float) : fdiv NaN y = NaN.
Proof. now destruct y. Qed.

Lemma fdiv_NaN_r (x : float) : fdiv x NaN = NaN.
Proof. now destruct x. Qed.

Lemma series_div_nth (xs ys : list float) (i : nat) :
  nth i (series_div xs ys) NaN = fdiv (nth i xs NaN) (nth i ys NaN).
Proof.
  unfold series_div. revert ys i.
  induction xs as [| x xs IH]; intros ys i.
  - simpl. destruct i; now rewrite fdiv_NaN_l.
  - destruct ys as [| y ys].
    + simpl. destruct i; now rewrite fdiv_NaN_r.
    + destruct i as [| i]; simpl; [reflexivity | apply IH].
Qed.

Lemma series_add_scalar_nth (xs : list float) (c : float) (i : nat) :
  nth i (series_add_scalar xs c) NaN = fadd (nth i xs NaN) c.
Proof.
  unfold series_add_scalar.
  change NaN with ((fun x => fadd x c) NaN) at 1. apply map_nth.
Qed.

Lemma impute_frame (df out : DataFrame) (c : string) :
  impute df = Ok out -> c <> "CREDIT_LIMIT" -> c <> "MINIMUM_PAYMENTS" ->
  get_col out c = get_col df c.
Proof.
  unfold impute. intros Hrun Hcl Hmp. invert_binds.
  apply fill_with_median_spec in Hstep. destruct Hstep as (? & _ & ->).
  apply fill_with_median_spec in Hrun. destruct Hrun as (? & _ & ->).
  rewrite !get_col_set_col_other; [reflexivity | |];
    intros Hsame; symmetry in Hsame; contradiction.
Qed.

Lemma drop_identifier_frame (df : DataFrame) (c : string) :
  c <> "CUST_ID" -> get_col (drop_identifier df) c = get_col df c.
Proof.
  intros Hc. unfold drop_identifier. rewrite get_col_drop_columns. simpl.
  destruct (String.eqb c "CUST_ID") eqn:E; [| reflexivity].
  apply String.eqb_eq in E. contradiction.
Qed.

Ltac names_differ :=
  solve [let Hsame := fresh "Hsame" in intros Hsame; discriminate Hsame
        | discriminate].

(** What feature engineering writes, in terms of the table it reads. *)
Lemma engineer_spec (df out : DataFrame) :
  engineer df = Ok out ->
  exists p ca b t cl : list float,
    get_num df "PURCHASES" = Ok p /\
    get_num df "CASH_ADVANCE" = Ok ca /\
    get_num df "BALANCE" = Ok b /\
    get_num df "TENURE" = Ok t /\
    get_num df "CREDIT_LIMIT" = Ok cl /\
    get_num out "MONTHLY_AVG_PURCHASE" = Ok (series_div p t) /\
    get_num out "MONTHLY_AVG_CASH_ADVANCE" = Ok (series_div ca t) /\
    get_num out "PURCHASE_TO_LIMIT_RATIO" =
      Ok (series_div p (series_add_scalar cl (Fin 1))) /\
    get_num out "BALANCE_TO_LIMIT_RATIO" =
      Ok (series_div b (series_add_scalar cl (Fin 1))).
Proof.
  unfold engineer. intros Hrun. invert_binds.
  apply ratio_column_spec in Hstep.
  destruct Hstep as (p & t & Hp & Ht & ->).
  apply ratio_column_spec in Hstep0.
  destruct Hstep0 as (ca & t' & Hca & Ht' & ->).
  apply guarded_ratio_column_spec in Hstep1.
  destruct Hstep1 as (p' & cl & Hp' & Hcl & ->).
  apply guarded_ratio_column_spec in Hrun.
  destruct Hrun as (b & cl' & Hb & Hcl' & ->).
  repeat match goal with
         | Hget : context [get_num (set_col _ _ _) _] |- _ =>
             rewrite get_num_set_col_other in Hget by names_differ
         end.
  assert (t' = t) by congruence. assert (p' = p) by congruence.
  assert (cl' = cl) by congruence. subst.
  exists p, ca, b, t, cl. repeat split; try assumption.
  - rewrite !get_num_set_col_other by names_differ.
    apply get_num_set_col_same.
  - rewrite !get_num_set_col_other by names_differ.
    apply get_num_set_col_same.
  - rewrite !get_num_set_col_other by names_differ.
    apply get_num_set_col_same.
  - apply get_num_set_col_same.
Qed.

Lemma clip_outliers_frame (df out : DataFrame) (c : string) :
  clip_outliers df = Ok out -> ~ In c cols_to_clip ->
  get_col out c = get_col df c.
Proof.
  intros Hrun Hc.
  now apply (for_each_clip_spec _ cols_to_clip_NoDup _ _ Hrun).
Qed.

Lemma get_num_transport (df df' : DataFrame) (c : string) :
  get_col df' c = get_col df c -> get_num df' c = get_num df c.
Proof. unfold get_num. now intros ->. Qed.

Ltac not_listed :=
  solve [simpl; let Hmem := fresh "Hmem" in
         intros Hmem; repeat destruct Hmem as [Hmem | Hmem];
         try discriminate Hmem; contradiction].

(** The table [preprocess] writes, column by column, in terms of the
    table it read. *)
Lemma preprocess_frame_spec (df out : DataFrame) :
  preprocess_frame df = Ok out ->
  exists b p ca pay t cl0 mp0 : list float,
    get_num df "BALANCE" = Ok b /\
    get_num df "PURCHASES" = Ok p /\
    get_num df "CASH_ADVANCE" = Ok ca /\
    get_num df "PAYMENTS" = Ok pay /\
    get_num df "TENURE" = Ok t /\
    get_num df "CREDIT_LIMIT" = Ok cl0 /\
    get_num df "MINIMUM_PAYMENTS" = Ok mp0 /\
    let cl := fillna cl0 (median cl0) in
    let mp := fillna mp0 (median mp0) in
    let clipped xs := clip_upper (quantile (99 # 100) xs) xs in
    get_col out "CUST_ID" = None /\
    get_num out "CREDIT_LIMIT" = Ok cl /\
    get_num out "TENURE" = Ok t /\
    get_num out "BALANCE" = Ok (clipped b) /\
    get_num out "PURCHASES" = Ok (clipped p) /\
    get_num out "CASH_ADVANCE" = Ok (clipped ca) /\
    get_num out "PAYMENTS" = Ok (clipped pay) /\
    get_num out "MINIMUM_PAYMENTS" = Ok (clipped mp) /\
    get_num out "MONTHLY_AVG_PURCHASE" = Ok (series_div p t) /\
    get_num out "MONTHLY_AVG_CASH_ADVANCE" = Ok (series_div ca t) /\
    get_num out "PURCHASE_TO_LIMIT_RATIO" =
      Ok (series_div p (series_add_scalar cl (Fin 1))) /\
    get_num out "BALANCE_TO_LIMIT_RATIO" =
      Ok (series_div b (series_add_scalar cl (Fin 1))) /\
    forall c : string,
      c <> "CUST_ID" -> c <> "CREDIT_LIMIT" ->
      ~ In c cols_to_clip -> ~ In c derived_columns ->
      get_col out c = get_col df c.
Proof.
  unfold preprocess_frame. intros Hrun.
  apply rbind_Ok_inv in Hrun. destruct Hrun as (imputed & Himpute & Hrun).
  apply rbind_Ok_inv in Hrun. destruct Hrun as (engineered & Heng & Hclip).
  pose proof (impute_frame _ _ "BALANCE" Himpute) as Hb.
  pose proof (impute_frame _ _ "PURCHASES" Himpute) as Hp.
  pose proof (impute_frame _ _ "CASH_ADVANCE" Himpute) as Hca.
  pose proof (impute_frame _ _ "PAYMENTS" Himpute) as Hpay.
  pose proof (impute_frame _ _ "TENURE" Himpute) as Ht.
  pose proof (impute_frame _ _ "CUST_ID" Himpute) as Hid.
  pose proof (fun c => impute_frame _ _ c Himpute) as Himputed_frame.
  unfold impute in Himpute. invert_binds.
  apply fill_with_median_spec in Hstep. destruct Hstep as (cl0 & Hcl0 & ->).
  apply fill_with_median_spec in Himpute. destruct Himpute as (mp0 & Hmp0 & ->).
  rewrite get_num_set_col_other in Hmp0 by names_differ.
  set (cl := fillna cl0 (median cl0)) in *.
  set (mp := fillna mp0 (median mp0)) in *.
  set (imputed := set_col (set_col _ _ _) _ _) in *.
  assert (Hcl : get_num imputed "CREDIT_LIMIT" = Ok cl).
  { unfold imputed. rewrite get_num_set_col_other by names_differ.
    apply get_num_set_col_same. }
  assert (Hmp : get_num imputed "MINIMUM_PAYMENTS" = Ok mp).
  { unfold imputed. apply get_num_set_col_same. }
  destruct (engineer_spec _ _ Heng)
    as (p & ca & b & t & cl' & Hp' & Hca' & Hb' & Ht' & Hcl' & Hm1 & Hm2 & Hr1 & Hr2).
  assert (cl' = cl) by congruence. subst cl'.
  pose proof (fun c => engineer_frame _ _ c Heng) as Heng_frame.
  destruct (for_each_clip_spec _ cols_to_clip_NoDup _ _ Hclip) as [Hin Hout].
  assert (Hclipped : forall c xs, In c cols_to_clip ->
            get_num imputed c = Ok xs ->
            get_num out c = Ok (clip_upper (quantile (99 # 100) xs) xs)).
  { intros c xs Hc Hxs. destruct (Hin c Hc) as (xs' & Hxs' & Hres).
    rewrite (get_num_transport _ _ c (Heng_frame c (in_cols_to_clip_not_derived c Hc)))
      in Hxs'.
    assert (xs' = xs) by congruence. now subst xs'. }
  assert (Hkept : forall c, ~ In c cols_to_clip -> ~ In c derived_columns ->
            get_col out c = get_col imputed c).
  { intros c Hc Hd. rewrite (Hout c Hc). now apply Heng_frame. }
  assert (Hderived : forall c xs, In c derived_columns ->
            get_num engineered c = Ok xs -> get_num out c = Ok xs).
  { intros c xs Hc Hxs. rewrite <- Hxs. apply get_num_transport, Hout.
    intros Hc'. exact (in_cols_to_clip_not_derived c Hc' Hc). }
  assert (Hraw : forall c, c <> "CUST_ID" -> c <> "CREDIT_LIMIT" ->
            c <> "MINIMUM_PAYMENTS" -> get_col imputed c = get_col df c).
  { intros c H1 H2 H3. rewrite (Himputed_frame c H2 H3).
    now apply drop_identifier_frame. }
  destruct (Hin "PAYMENTS") as (pay & Hpay' & _); [listed |].
  rewrite (get_num_transport _ _ _ (Heng_frame "PAYMENTS" ltac:(not_listed)))
    in Hpay'.
  assert (Hraw_num : forall c xs, c <> "CUST_ID" -> c <> "CREDIT_LIMIT" ->
            c <> "MINIMUM_PAYMENTS" -> get_num imputed c = Ok xs ->
            get_num df c = Ok xs).
  { intros c xs H1 H2 H3 Hxs.
    now rewrite <- (get_num_transport _ _ _ (Hraw c H1 H2 H3)). }
  rewrite (get_num_transport _ _ _ (drop_identifier_frame df "CREDIT_LIMIT"
             ltac:(names_differ))) in Hcl0.
  rewrite (get_num_transport _ _ _ (drop_identifier_frame df "MINIMUM_PAYMENTS"
             ltac:(names_differ))) in Hmp0.
  exists b, p, ca, pay, t, cl0, mp0.
  split; [apply Hraw_num; [names_differ .. | exact Hb'] |].
  split; [apply Hraw_num; [names_differ .. | exact Hp'] |].
  split; [apply Hraw_num; [names_differ .. | exact Hca'] |].
  split; [apply Hraw_num; [names_differ .. | exact Hpay'] |].
  split; [apply Hraw_num; [names_differ .. | exact Ht'] |].
  split; [exact Hcl0 |]. split; [exact Hmp0 |].
  cbv zeta. fold cl mp.
  split.
  { rewrite Hkept by not_listed. rewrite Hid by names_differ.
    unfold drop_identifier. rewrite get_col_drop_columns. reflexivity. }
  split.
  { rewrite (get_num_transport _ _ _
               (Hkept "CREDIT_LIMIT" ltac:(not_listed) ltac:(not_listed))).
    exact Hcl. }
  split.
  { rewrite (get_num_transport _ _ _
               (Hkept "TENURE" ltac:(not_listed) ltac:(not_listed))).
    exact Ht'. }
  split; [apply Hclipped; [listed | exact Hb'] |].
  split; [apply Hclipped; [listed | exact Hp'] |].
  split; [apply Hclipped; [listed | exact Hca'] |].
  split; [apply Hclipped; [listed | exact Hpay'] |].
  split; [apply Hclipped; [listed | exact Hmp] |].
  split; [apply Hderived; [listed | exact Hm1] |].
  split; [apply Hderived; [listed | exact Hm2] |].
  split; [apply Hderived; [listed | exact Hr1] |].
  split; [apply Hderived; [listed | exact Hr2] |].
  intros c H1 H2 H3 H4. rewrite (Hkept c H3 H4). apply Hraw; try assumption.
  intros ->. apply H3. listed.
Qed.

(** On the sample table the second customer's PURCHASES (100) is clipped
    to 99 while MONTHLY_AVG_PURCHASE stays at 100 / 10, so the written
    columns no longer satisfy the ratio. *)
Lemma derived_from_own_columns_counterexample :
  preprocess_frame sample_table = Ok sample_processed /\
  ~ derived_from_own_columns sample_processed.
Proof.
  split; [vm_compute; reflexivity |].
  intros [(cs & xs & ys & Hcs & Hxs & Hys & Hrows) _].
  vm_compute in Hcs, Hxs, Hys.
  injection Hcs as <-. injection Hxs as <-. injection Hys as <-.
  specialize (Hrows 1%nat ltac:(simpl; lia)). vm_compute in Hrows.
  discriminate Hrows.
Qed.

(** C2, amended: every derived cell is the ratio of the cells [preprocess]
    read, that is, of PURCHASES, CASH_ADVANCE and BALANCE before clipping,
    of TENURE, and of the imputed CREDIT_LIMIT plus one; TENURE and
    CREDIT_LIMIT are written as they were used, and the three numerators
    are written clipped at their 99th percentile. *)
Theorem derived_ratios_of_unclipped_columns (df out : DataFrame) :
  preprocess_frame df = Ok out ->
  exists p ca b t cl m1 m2 r1 r2 : list float,
    get_num df "PURCHASES" = Ok p /\
    get_num df "CASH_ADVANCE" = Ok ca /\
    get_num df "BALANCE" = Ok b /\
    get_num out "TENURE" = Ok t /\
    get_num out "CREDIT_LIMIT" = Ok cl /\
    get_num out "PURCHASES" = Ok (clip_upper (quantile (99 # 100) p) p) /\
    get_num out "CASH_ADVANCE" = Ok (clip_upper (quantile (99 # 100) ca) ca) /\
    get_num out "BALANCE" = Ok (clip_upper (quantile (99 # 100) b) b) /\
    get_num out "MONTHLY_AVG_PURCHASE" = Ok m1 /\
    get_num out "MONTHLY_AVG_CASH_ADVANCE" = Ok m2 /\
    get_num out "PURCHASE_TO_LIMIT_RATIO" = Ok r1 /\
    get_num out "BALANCE_TO_LIMIT_RATIO" = Ok r2 /\
    forall i : nat,
      nth i m1 NaN = fdiv (nth i p NaN) (nth i t NaN) /\
      nth i m2 NaN = fdiv (nth i ca NaN) (nth i t NaN) /\
      nth i r1 NaN = fdiv (nth i p NaN) (fadd (nth i cl NaN) (Fin 1)) /\
      nth i r2 NaN = fdiv (nth i b NaN) (fadd (nth i cl NaN) (Fin 1)).
Proof.
  intros Hrun.
  destruct (preprocess_frame_spec _ _ Hrun)
    as (b & p & ca & pay & t & cl0 & mp0 & Hb & Hp & Hca & _ & _ & _ & _ & Hout).
  cbv zeta in Hout.
  destruct Hout as (_ & Hcl & Ht & Hb' & Hp' & Hca' & _ & _ & Hm1 & Hm2 & Hr1 & Hr2 & _).
  exists p, ca, b, t, (fillna cl0 (median cl0)).
  do 4 eexists.
  repeat match goal with |- _ /\ _ => split end; try eassumption.
  intros i. rewrite !series_div_nth, !series_add_scalar_nth. tauto.
Qed.

Lemma derived_ratios_of_unclipped_columns_witness :
  exists p ca b t cl m1 m2 r1 r2 : list float,
    get_num sample_table "PURCHASES" = Ok p /\
    get_num sample_table "CASH_ADVANCE" = Ok ca /\
    get_num sample_table "BALANCE" = Ok b /\
    get_num sample_processed "TENURE" = Ok t /\
    get_num sample_processed "CREDIT_LIMIT" = Ok cl /\
    get_num sample_processed "PURCHASES" =
      Ok (clip_upper (quantile (99 # 100) p) p) /\
    get_num sample_processed "CASH_ADVANCE" =
      Ok (clip_upper (quantile (99 # 100) ca) ca) /\
    get_num sample_processed "BALANCE" =
      Ok (clip_upper (quantile (99 # 100) b) b) /\
    get_num sample_processed "MONTHLY_AVG_PURCHASE" = Ok m1 /\
    get_num sample_processed "MONTHLY_AVG_CASH_ADVANCE" = Ok m2 /\
    get_num sample_processed "PURCHASE_TO_LIMIT_RATIO" = Ok r1 /\
    get_num sample_processed "BALANCE_TO_LIMIT_RATIO" = Ok r2 /\
    forall i : nat,
      nth i m1 NaN = fdiv (nth i p NaN) (nth i t NaN) /\
      nth i m2 NaN = fdiv (nth i ca NaN) (nth i t NaN) /\
      nth i r1 NaN = fdiv (nth i p NaN) (fadd (nth i cl NaN) (Fin 1)) /\
      nth i r2 NaN = fdiv (nth i b NaN) (fadd (nth i cl NaN) (Fin 1)).
Proof.
  apply (derived_ratios_of_unclipped_columns sample_table sample_processed).
  vm_compute. reflexivity.
Defined.

(** ** Sorting, medians and quantiles of finite values *)

Lemma fin_sat_impl (P R : Q -> Prop) (x : float) :
  (forall q, P q -> R q) -> fin_sat P x -> fin_sat R x.
Proof. destruct x; simpl; auto. Qed.

Lemma insert_sorted_Forall (P : float -> Prop) (x : float) (l : list float) :
  P x -> Forall P l -> Forall P (insert_sorted x l).
Proof.
  intros Hx Hl. induction Hl as [| y l Hy Hl IH]; simpl.
  - now constructor.
  - destruct (fleb x y); repeat constructor; assumption.
Qed.

Lemma sort_Forall (P : float -> Prop) (l : list float) :
  Forall P l -> Forall P (sort l).
Proof.
  induction 1 as [| x l Hx Hl IH]; simpl; [constructor |].
  now apply insert_sorted_Forall.
Qed.

Lemma insert_sorted_length (x : float) (l : list float) :
  length (insert_sorted x l) = S (length l).
Proof.
  induction l as [| y l IH]; simpl; [reflexivity |].
  destruct (fleb x y); simpl; [reflexivity | now rewrite IH].
Qed.

Lemma sort_length (l : list float) : length (sort l) = length l.
Proof.
  induction l as [| x l IH]; simpl; [reflexivity |].
  now rewrite insert_sorted_length, IH.
Qed.

Lemma dropna_Forall (P : Q -> Prop) (xs : list float) :
  Forall (na_or_fin_sat P) xs -> Forall (fin_sat P) (dropna xs).
Proof.
  induction 1 as [| x xs Hx Hxs IH]; simpl; [constructor |].
  destruct Hx as [-> | Hx]; simpl; [exact IH |].
  destruct x; simpl in *; try contradiction. now constructor.
Qed.

Lemma dropna_length (xs : list float) :
  (length (dropna xs) + count_na xs = length xs)%nat.
Proof.
  unfold dropna, count_na. induction xs as [| x xs IH]; simpl; [reflexivity |].
  destruct (isna x); simpl; lia.
Qed.

Lemma nth_Forall (P : float -> Prop) (l : list float) (i : nat) :
  Forall P l -> (i < length l)%nat -> P (nth i l NaN).
Proof.
  intros Hl Hi. rewrite Forall_forall in Hl. apply Hl. now apply nth_In.
Qed.

(** The median of finite values stays within any bound they share that
    is closed under averaging. *)
Lemma median_fin_sat (P : Q -> Prop) (xs : list float) :
  (forall a b, P a -> P b -> P ((a + b) / 2)) ->
  Forall (na_or_fin_sat P) xs ->
  (count_na xs < length xs)%nat ->
  fin_sat P (median xs).
Proof.
  intros Havg Hxs Hsome. unfold median.
  pose proof (sort_Forall _ _ (dropna_Forall _ _ Hxs)) as Hs.
  pose proof (sort_length (dropna xs)) as Hlen.
  pose proof (dropna_length xs) as Hdrop.
  set (s := sort (dropna xs)) in *.
  destruct (length s) as [| n] eqn:Hn; [lia |].
  assert (Hhalf : (S n / 2 < S n)%nat) by (apply Nat.div_lt; lia).
  destruct (Nat.even (S n)).
  - pose proof (nth_Forall _ s (S n / 2 - 1) Hs ltac:(lia)) as Ha.
    pose proof (nth_Forall _ s (S n / 2) Hs ltac:(lia)) as Hb.
    destruct (nth (S n / 2 - 1) s NaN) as [a | | |]; simpl in Ha; try contradiction.
    destruct (nth (S n / 2) s NaN) as [b | | |]; simpl in Hb; try contradiction.
    simpl. now apply Havg.
  - apply nth_Forall; [exact Hs | lia].
Qed.

Lemma lerp_finite (a b : Q) (t : Q) : finite (lerp (Fin a) (Fin b) t).
Proof. unfold lerp. simpl. now destruct (Qle_bool (1 # 2) t). Qed.

(** A quantile of order at most one of finite values is finite. *)
Lemma quantile_finite (q : Q) (xs : list float) :
  0 <= q -> q <= 1 ->
  Forall (na_or_fin_sat (fun _ => True)) xs ->
  (count_na xs < length xs)%nat ->
  finite (quantile q xs).
Proof.
  intros Hq0 Hq1 Hxs Hsome. unfold quantile.
  pose proof (sort_Forall _ _ (dropna_Forall _ _ Hxs)) as Hs.
  pose proof (sort_length (dropna xs)) as Hlen.
  pose proof (dropna_length xs) as Hdrop.
  set (s := sort (dropna xs)) in *.
  destruct (length s) as [| n] eqn:Hn; [lia |].
  replace (S n - 1)%nat with n by lia.
  set (idx := inject_Z (Z.of_nat n) * q).
  assert (Hidx0 : 0 <= idx).
  { unfold idx. apply Qmult_le_0_compat; [| exact Hq0].
    change 0 with (inject_Z 0). rewrite <- Zle_Qle. lia. }
  assert (Hidx1 : idx <= inject_Z (Z.of_nat n)).
  { unfold idx. rewrite Qmult_comm.
    apply Qle_trans with (1 * inject_Z (Z.of_nat n)); [| rewrite Qmult_1_l; apply Qle_refl].
    apply Qmult_le_compat_r; [exact Hq1 |].
    change 0 with (inject_Z 0). rewrite <- Zle_Qle. lia. }
  assert (Hlo : (Z.to_nat (Qfloor idx) <= n)%nat).
  { apply Qfloor_resp_le in Hidx1. rewrite Qfloor_Z in Hidx1. lia. }
  pose proof (nth_Forall _ s (Z.to_nat (Qfloor idx)) Hs ltac:(lia)) as Ha.
  pose proof (nth_Forall _ s (Nat.min (Z.to_nat (Qfloor idx) + 1) n) Hs
                ltac:(lia)) as Hb.
  destruct (nth (Z.to_nat (Qfloor idx)) s NaN) as [a | | |];
    simpl in Ha; try contradiction.
  destruct (nth (Nat.min (Z.to_nat (Qfloor idx) + 1) n) s NaN) as [b | | |];
    simpl in Hb; try contradiction.
  apply lerp_finite.
Qed.

(** ** Missing values through the steps of [preprocess] *)

Lemma count_na_zero_iff (xs : list float) :
  count_na xs = O <-> Forall (fun x => isna x = false) xs.
Proof.
  unfold count_na. induction xs as [| x xs IH]; simpl.
  - split; [constructor | reflexivity].
  - destruct (isna x) eqn:E; simpl; split; intros Hx.
    + discriminate.
    + inversion Hx; congruence.
    + constructor; [exact E | now apply IH].
    + inversion Hx; now apply IH.
Qed.

Lemma fin_sat_not_na (P : Q -> Prop) (x : float) : fin_sat P x -> isna x = false.
Proof. destruct x; simpl; auto; contradiction. Qed.

Lemma count_na_fin_sat (P : Q -> Prop) (xs : list float) :
  Forall (fin_sat P) xs -> count_na xs = O.
Proof.
  intros Hxs. apply count_na_zero_iff.
  eapply Forall_impl; [| exact Hxs]. intros x. apply fin_sat_not_na.
Qed.

Lemma clip_upper_isna (u x : float) :
  isna (if fgtb x u then u else x) = isna x.
Proof.
  destruct (fgtb x u) eqn:E; [| reflexivity].
  destruct x, u; simpl in *; congruence.
Qed.

Lemma count_na_clip_upper (u : float) (xs : list float) :
  count_na (clip_upper u xs) = count_na xs.
Proof.
  unfold count_na, clip_upper. induction xs as [| x xs IH]; simpl; [reflexivity |].
  rewrite clip_upper_isna. destruct (isna x); simpl; now rewrite IH.
Qed.

Lemma fillna_Forall (P : Q -> Prop) (xs : list float) (v : float) :
  Forall (na_or_fin_sat P) xs -> fin_sat P v -> Forall (fin_sat P) (fillna xs v).
Proof.
  intros Hxs Hv. unfold fillna. apply Forall_map.
  eapply Forall_impl; [| exact Hxs].
  intros x [-> | Hx]; simpl; [exact Hv |].
  now rewrite (fin_sat_not_na _ _ Hx).
Qed.

Lemma series_add_scalar_Forall (P R : Q -> Prop) (c : Q) (xs : list float) :
  (forall q, P q -> R (q + c)) ->
  Forall (fin_sat P) xs -> Forall (fin_sat R) (series_add_scalar xs (Fin c)).
Proof.
  intros HPR Hxs. unfold series_add_scalar. apply Forall_map.
  eapply Forall_impl; [| exact Hxs].
  intros [q | | |]; simpl; auto.
Qed.

Lemma fdiv_not_na (x y : float) :
  isna x = false -> fin_sat (fun q => ~ q == 0) y -> isna (fdiv x y) = false.
Proof.
  destruct y as [b | | |]; simpl; try contradiction. intros Hx Hb.
  destruct x as [a | | |]; simpl in *; try discriminate.
  - destruct (Qeq_bool b 0) eqn:E; [| reflexivity].
    apply Qeq_bool_iff in E. contradiction.
  - now destruct (Qle_bool 0 b).
  - now destruct (Qle_bool 0 b).
Qed.

Lemma count_na_series_div (xs ys : list float) :
  count_na xs = O -> Forall (fin_sat (fun q => ~ q == 0)) ys ->
  count_na (series_div xs ys) = O.
Proof.
  rewrite !count_na_zero_iff. unfold series_div. intros Hxs Hys. revert ys Hys.
  induction Hxs as [| x xs Hx Hxs IH]; intros ys Hys; simpl; [constructor |].
  destruct Hys as [| y ys Hy Hys]; constructor.
  - now apply fdiv_not_na.
  - now apply IH.
Qed.

Lemma fdiv_finite (x y : float) :
  finite x -> fin_sat (fun q => ~ q == 0) y -> finite (fdiv x y).
Proof.
  destruct x as [a | | |], y as [b | | |]; simpl; try contradiction.
  intros _ Hb. destruct (Qeq_bool b 0) eqn:E; [| exact I].
  apply Qeq_bool_iff in E. contradiction.
Qed.

Lemma series_div_finite (xs ys : list float) :
  Forall finite xs -> Forall (fin_sat (fun q => ~ q == 0)) ys ->
  Forall finite (series_div xs ys).
Proof.
  unfold series_div. intros Hxs. revert ys.
  induction Hxs as [| x xs Hx Hxs IH]; intros ys Hys; simpl; [constructor |].
  destruct Hys as [| y ys Hy Hys]; constructor.
  - now apply fdiv_finite.
  - now apply IH.
Qed.

Lemma clip_upper_finite (u : float) (xs : list float) :
  finite u -> Forall finite xs -> Forall finite (clip_upper u xs).
Proof.
  intros Hu Hxs. unfold clip_upper. apply Forall_map.
  eapply Forall_impl; [| exact Hxs].
  intros x Hx. now destruct (fgtb x u).
Qed.

Lemma nonneg_average (a b : Q) : 0 <= a -> 0 <= b -> 0 <= (a + b) / 2.
Proof.
  intros Ha Hb. apply Qle_shift_div_l; [reflexivity | lra].
Qed.

Lemma nonneg_succ_nonzero (q : Q) : 0 <= q -> ~ q + 1 == 0.
Proof. intros Hq Hz. lra. Qed.

(** ** [preprocess] on a customer table *)

Lemma preprocess_customer_frame (ids : option (list (option string)))
      (c : Customers) :
  preprocess_frame (customer_frame ids c) = Ok (processed_frame c).
Proof. destruct ids; reflexivity. Qed.

Lemma get_col_customer_frame (ids : option (list (option string)))
      (c : Customers) (k : string) :
  k <> "CUST_ID" ->
  get_col (customer_frame ids c) k = get_col (numeric_frame c) k.
Proof.
  intros Hk. destruct ids as [ids |]; [| reflexivity].
  change (get_col (customer_frame (Some ids) c) k)
    with (if String.eqb "CUST_ID" k then Some (ObjCol ids)
          else get_col (numeric_frame c) k).
  destruct (String.eqb "CUST_ID" k) eqn:E; [| reflexivity].
  apply String.eqb_eq in E. congruence.
Qed.

Lemma get_num_customer_frame (ids : option (list (option string)))
      (c : Customers) (k : string) (xs ys : list float) :
  get_num (customer_frame ids c) k = Ok xs ->
  k <> "CUST_ID" ->
  get_num (numeric_frame c) k = Ok ys ->
  xs = ys.
Proof.
  unfold get_num. intros Hxs Hk Hys.
  rewrite (get_col_customer_frame ids c k Hk) in Hxs. congruence.
Qed.

Lemma Forall_get_col (P : Series -> Prop) (df : DataFrame) (c : string)
      (s : Series) :
  Forall (fun kv => P (snd kv)) df -> get_col df c = Some s -> P s.
Proof.
  induction 1 as [| [k s'] df Hk Hdf IH]; simpl; [discriminate |].
  destruct (String.eqb k c); [| exact IH].
  intros E. injection E as <-. exact Hk.
Qed.

Lemma missing_only_in_Forall (cs : list string) (df : DataFrame) :
  Forall (fun kv => In (fst kv) cs \/ series_count_na (snd kv) = O) df ->
  missing_only_in cs df.
Proof.
  intros Hdf c s. induction Hdf as [| [k s'] df Hk Hdf IH]; simpl;
    [discriminate |].
  destruct (String.eqb k c) eqn:E; [| exact IH].
  apply String.eqb_eq in E. subst k. intros Hs Hc. injection Hs as <-.
  destruct Hk as [Hk | Hk]; [contradiction | exact Hk].
Qed.

(** ** Missing values after preprocessing (C1) *)

(** A table in the generator's schema, missing values in the two
    designated columns only, that [preprocess] does not clean: the first
    customer has no purchases and zero tenure, and 0 / 0 is NaN. *)
Lemma preprocess_cleans_counterexample :
  in_generator_schema zero_tenure_table /\
  designated_missing zero_tenure_table /\
  ~ preprocess_cleans zero_tenure_table.
Proof.
  split; [| split].
  - split.
    + unfold rectangular. repeat constructor.
    + eexists (Some _).
      eexists (Build_Customers _ _ _ _ _ _ _ _ _ _ _ _ _ _ _ _ _).
      reflexivity.
  - repeat split.
    + apply missing_only_in_Forall.
      repeat (constructor; [first [right; reflexivity | left; listed] |]).
      constructor.
    + eexists. split; [reflexivity | vm_compute; lia].
    + eexists. split; [reflexivity | vm_compute; lia].
  - intros (out & Hrun & Hclean & _).
    vm_compute in Hrun. injection Hrun as <-.
    pose proof (Forall_get_col (fun s => series_count_na s = O) _
                  "MONTHLY_AVG_PURCHASE" _ Hclean eq_refl) as Hzero.
    vm_compute in Hzero. discriminate Hzero.
Qed.

Ltac customer_column :=
  solve [rewrite get_col_customer_frame by names_differ; reflexivity
        | unfold get_num; rewrite get_col_customer_frame by names_differ;
          reflexivity].

(** Closes [count_na xs = 0] for a column [xs] of the customer table,
    given what is known of every column by name. *)
Ltac kept_column Hkept :=
  let try_name k :=
    apply (Hkept k); [reflexivity | names_differ | not_listed] in
  first [ try_name "BALANCE" | try_name "BALANCE_FREQUENCY"
        | try_name "PURCHASES" | try_name "ONEOFF_PURCHASES"
        | try_name "INSTALLMENTS_PURCHASES" | try_name "CASH_ADVANCE"
        | try_name "PURCHASES_FREQUENCY"
        | try_name "ONEOFF_PURCHASES_FREQUENCY"
        | try_name "PURCHASES_INSTALLMENTS_FREQUENCY"
        | try_name "CASH_ADVANCE_FREQUENCY" | try_name "CASH_ADVANCE_TRX"
        | try_name "PURCHASES_TRX" | try_name "PAYMENTS"
        | try_name "PRC_FULL_PAYMENT" | try_name "TENURE" ].

(** C1, amended: on a table in the generator's schema (with or without
    the identifier) whose missing values are confined to CREDIT_LIMIT and
    MINIMUM_PAYMENTS, neither entirely missing, whose TENURE values are
    finite and nonzero, whose CREDIT_LIMIT values are finite and
    non-negative and whose MINIMUM_PAYMENTS values are finite,
    [preprocess] succeeds and its table has no missing value and no
    identifier column. *)
Theorem preprocess_cleans_guarded_tables (df : DataFrame) :
  in_generator_schema df ->
  designated_missing df ->
  cells_of "TENURE" (fin_sat (fun q => ~ q == 0)) df ->
  cells_of "CREDIT_LIMIT" (na_or_fin_sat (fun q => 0 <= q)) df ->
  cells_of "MINIMUM_PAYMENTS" (na_or_fin_sat (fun _ => True)) df ->
  preprocess_cleans df.
Proof.
  intros [_ (ids & c & ->)] (Hmissing & Hcl_some & Hmp_some) Ht Hcl Hmp.
  exists (processed_frame c). split; [apply preprocess_customer_frame |].
  destruct Ht as (t & Ht & Htenure).
  rewrite (get_num_customer_frame _ _ _ _ (tenure c) Ht) in Htenure
    by (names_differ || reflexivity).
  destruct Hcl as (cl & Hcl & Hlimit).
  rewrite (get_num_customer_frame _ _ _ _ (credit_limit c) Hcl) in Hlimit
    by (names_differ || reflexivity).
  destruct Hmp as (mp & Hmp & Hminimum).
  rewrite (get_num_customer_frame _ _ _ _ (minimum_payments c) Hmp) in Hminimum
    by (names_differ || reflexivity).
  destruct Hcl_some as (cl' & Hcl' & Hcl_some).
  rewrite (get_num_customer_frame _ _ _ _ (credit_limit c) Hcl') in Hcl_some
    by (names_differ || reflexivity).
  destruct Hmp_some as (mp' & Hmp' & Hmp_some).
  rewrite (get_num_customer_frame _ _ _ _ (minimum_payments c) Hmp') in Hmp_some
    by (names_differ || reflexivity).
  clear t Ht cl Hcl mp Hmp cl' Hcl' mp' Hmp'.
  assert (Hkept : forall k xs,
            get_col (numeric_frame c) k = Some (NumCol xs) ->
            k <> "CUST_ID" -> ~ In k ["CREDIT_LIMIT"; "MINIMUM_PAYMENTS"] ->
            count_na xs = O).
  { intros k xs Hk Hid Hdesignated.
    apply (Hmissing k (NumCol xs)); [| exact Hdesignated].
    now rewrite get_col_customer_frame. }
  pose proof (median_fin_sat _ _ nonneg_average Hlimit Hcl_some) as Hmedian_cl.
  pose proof (median_fin_sat (fun _ => True) _ (fun _ _ _ _ => I)
                Hminimum Hmp_some) as Hmedian_mp.
  pose proof (fillna_Forall _ _ _ Hlimit Hmedian_cl) as Hfilled_cl.
  pose proof (fillna_Forall _ _ _ Hminimum Hmedian_mp) as Hfilled_mp.
  pose proof (series_add_scalar_Forall _ (fun q => ~ q == 0) 1 _
                nonneg_succ_nonzero Hfilled_cl) as Hdenominator.
  split; [| unfold columns, processed_frame; not_listed].
  unfold processed_frame.
  repeat (apply Forall_cons; [cbn [snd series_count_na] |]);
    [ .. | apply Forall_nil];
    rewrite ?count_na_clip_upper;
    first [ kept_column Hkept
          | exact (count_na_fin_sat _ _ Hfilled_cl)
          | exact (count_na_fin_sat _ _ Hfilled_mp)
          | apply count_na_series_div;
            [kept_column Hkept
            | first [exact Htenure | exact Hdenominator]] ].
Qed.

Lemma sample_table_in_schema : in_generator_schema sample_table.
Proof.
  split.
  - unfold rectangular. repeat constructor.
  - eexists (Some _).
    eexists (Build_Customers _ _ _ _ _ _ _ _ _ _ _ _ _ _ _ _ _).
    reflexivity.
Qed.

Lemma sample_table_designated_missing : designated_missing sample_table.
Proof.
  repeat split.
  - apply missing_only_in_Forall.
    repeat (constructor; [first [right; reflexivity | left; listed] |]).
    constructor.
  - eexists. split; [reflexivity | vm_compute; lia].
  - eexists. split; [reflexivity | vm_compute; lia].
Qed.

Lemma preprocess_cleans_guarded_tables_witness :
  preprocess_cleans sample_table.
Proof.
  apply preprocess_cleans_guarded_tables.
  - exact sample_table_in_schema.
  - exact sample_table_designated_missing.
  - eexists. split; [reflexivity |].
    repeat (apply Forall_cons; [simpl; intros Hzero; discriminate Hzero |]).
    apply Forall_nil.
  - eexists. split; [reflexivity |].
    repeat (apply Forall_cons;
            [first [left; reflexivity
                   | right; simpl; intros Hneg; discriminate Hneg] |]).
    apply Forall_nil.
  - eexists. split; [reflexivity |].
    repeat (apply Forall_cons;
            [first [left; reflexivity | right; exact I] |]).
    apply Forall_nil.
Defined.

(** ** The generator *)

Lemma Forall_finite_map_Fin (f : Q -> Q) (xs : list Q) :
  Forall finite (map (fun x => Fin (f x)) xs).
Proof. apply Forall_map. apply Forall_forall. intros x _. exact I. Qed.

Lemma Forall_finite_map_of_Z (zs : list Z) : Forall finite (map of_Z zs).
Proof. apply Forall_map. apply Forall_forall. intros z _. exact I. Qed.

Lemma credit_limit_tiers_bound (p : nat) :
  (p < length credit_limit_tiers)%nat ->
  (500 <= nth p credit_limit_tiers 0)%Z.
Proof.
  intros Hp.
  assert (Hall : Forall (fun z => (500 <= z)%Z) credit_limit_tiers)
    by (unfold credit_limit_tiers; repeat constructor; lia).
  rewrite Forall_forall in Hall. apply Hall. now apply nth_In.
Qed.

Section GeneratorProperties.
Context `{NumpyRandom}.

Lemma np_random_seed_valid (seed : Z) (st : rng_state) :
  valid_seed seed -> np_random_seed seed st = (Ok tt, seed_state seed).
Proof.
  unfold valid_seed, np_random_seed. intros Hseed.
  replace ((0 <=? seed)%Z && (seed <? 2 ^ 32)%Z) with true; [reflexivity |].
  symmetry. apply andb_true_iff. split; lia.
Qed.

Lemma np_bind_Ok {A B : Type} (m : np A) (f : A -> np B)
      (st st' : rng_state) (a : A) :
  m st = (Ok a, st') -> np_bind m f st = f a st'.
Proof. unfold np_bind. now intros ->. Qed.

Lemma np_choice_no_replace_sample (n size : nat) (st : rng_state) :
  (size <= n)%nat ->
  np_choice_no_replace n size st =
    (Ok (fst (draw_distinct n size st)), snd (draw_distinct n size st)) /\
  row_sample n size (fst (draw_distinct n size st)).
Proof.
  intros Hsize. unfold np_choice_no_replace.
  replace (size <=? n)%nat with true by (symmetry; now apply Nat.leb_le).
  split; [reflexivity |]. repeat split.
  - now apply distinct_NoDup.
  - now apply distinct_length.
  - now apply distinct_range.
Qed.

(** A run with a valid seed and at least 313 rows returns a table of
    finite draws with one CREDIT_LIMIT row and 313 MINIMUM_PAYMENTS rows
    blanked. *)
Lemma generate_credit_card_data_spec (n : nat) (seed : Z) (st : rng_state) :
  valid_seed seed -> (313 <= n)%nat ->
  exists df st',
    generate_credit_card_data n seed st = (Ok df, st') /\ generated n df.
Proof.
  intros Hseed Hn. unfold generate_credit_card_data.
  unfold np_bind at 1. rewrite (np_random_seed_valid seed st Hseed).
  cbn [np_bind np_exponential_round6 np_uniform_round6 np_randint
       np_choice_float np_draw fst snd credit_limit_tiers].
  cbn [nrows series_len]. rewrite length_map, length_seq.
  match goal with
  | |- context [np_bind (np_choice_no_replace n 1%nat) _ ?s] =>
      destruct (np_choice_no_replace_sample n 1%nat s ltac:(lia))
        as [Hrun Hcredit];
      rewrite (np_bind_Ok _ _ _ _ _ Hrun); clear Hrun
  end.
  match goal with
  | |- context [np_bind (np_choice_no_replace n 313%nat) _ ?s] =>
      destruct (np_choice_no_replace_sample n 313%nat s Hn)
        as [Hrun Hmin];
      rewrite (np_bind_Ok _ _ _ _ _ Hrun); clear Hrun
  end.
  cbn [np_ret].
  cbn [loc_set_nan get_col set_col String.eqb Ascii.eqb Bool.eqb].
  do 2 eexists. split; [reflexivity |].
  lazymatch goal with
  | |- generated _
         [ (_, ObjCol ?ids); (_, NumCol ?c1); (_, NumCol ?c2);
           (_, NumCol ?c3); (_, NumCol ?c4); (_, NumCol ?c5);
           (_, NumCol ?c6); (_, NumCol ?c7); (_, NumCol ?c8);
           (_, NumCol ?c9); (_, NumCol ?c10); (_, NumCol ?c11);
           (_, NumCol ?c12); (_, NumCol (set_nan_at ?i1 ?c13));
           (_, NumCol ?c14); (_, NumCol (set_nan_at ?i2 ?c15));
           (_, NumCol ?c16); (_, NumCol ?c17) ] =>
      exists ids,
        (Build_Customers c1 c2 c3 c4 c5 c6 c7 c8 c9 c10 c11 c12 c13 c14
                         c15 c16 c17), i1, i2
  end.
  constructor.
  - reflexivity.
  - now rewrite length_map, length_seq.
  - apply Forall_map. apply Forall_forall. intros i _. discriminate.
  - repeat split; simpl; rewrite length_map;
      first [apply exponential_length | apply uniform_length
            | apply randint_length | apply positions_length].
  - repeat split; simpl;
      first [apply Forall_finite_map_Fin | apply Forall_finite_map_of_Z
            | apply Forall_map; apply Forall_forall; intros p _; exact I].
  - simpl. apply Forall_map.
    eapply Forall_impl; [| apply randint_range; lia].
    intros z Hz. cbv beta in Hz. exists z. split; [reflexivity | lia].
  - simpl. apply Forall_map.
    eapply Forall_impl;
      [| apply positions_range; unfold credit_limit_tiers; simpl; lia].
    intros p Hp. unfold of_Z, fin_sat. rewrite <- (Zle_Qle 500).
    now apply credit_limit_tiers_bound.
  - exact Hcredit.
  - exact Hmin.
Qed.
End GeneratorProperties.

(** ** Blanking rows *)

Lemma row_listed_In (idx : list nat) (i : nat) :
  row_listed idx i = true <-> In i idx.
Proof.
  unfold row_listed. rewrite existsb_exists. split.
  - intros (j & Hj & E). apply Nat.eqb_eq in E. now subst j.
  - intros Hi. exists i. split; [exact Hi | apply Nat.eqb_refl].
Qed.

Lemma set_nan_at_length (idx : list nat) (xs : list float) :
  length (set_nan_at idx xs) = length xs.
Proof.
  unfold set_nan_at. rewrite length_map, length_combine, length_seq.
  apply Nat.min_id.
Qed.

Lemma blank_rows_nth (idx : list nat) (xs : list float) (a i : nat) :
  (i < length xs)%nat ->
  nth i (map (fun ix => if row_listed idx (fst ix) then NaN else snd ix)
             (combine (seq a (length xs)) xs)) NaN =
  if row_listed idx (a + i) then NaN else nth i xs NaN.
Proof.
  revert a i. induction xs as [| x xs IH]; intros a i Hi; simpl in Hi; [lia |].
  destruct i as [| i]; simpl.
  - now rewrite Nat.add_0_r.
  - rewrite IH by lia. now rewrite Nat.add_succ_r.
Qed.

Lemma set_nan_at_nth (idx : list nat) (xs : list float) (i : nat) :
  (i < length xs)%nat ->
  nth i (set_nan_at idx xs) NaN =
  if row_listed idx i then NaN else nth i xs NaN.
Proof. intros Hi. unfold set_nan_at. now rewrite (blank_rows_nth idx xs 0 i Hi). Qed.

Lemma set_nan_at_isna (idx : list nat) (xs : list float) (i : nat) :
  Forall finite xs -> (i < length xs)%nat ->
  isna (nth i (set_nan_at idx xs) NaN) = true <-> In i idx.
Proof.
  intros Hxs Hi. rewrite set_nan_at_nth by exact Hi.
  rewrite <- row_listed_In. destruct (row_listed idx i); [tauto |].
  pose proof (nth_Forall _ _ i Hxs Hi) as Hfin.
  destruct (nth i xs NaN); simpl in *; try contradiction.
  split; discriminate.
Qed.

Lemma count_na_blank_rows (idx : list nat) (xs : list float) (a : nat) :
  Forall finite xs ->
  count_na (map (fun ix => if row_listed idx (fst ix) then NaN else snd ix)
                (combine (seq a (length xs)) xs)) =
  length (filter (row_listed idx) (seq a (length xs))).
Proof.
  unfold count_na. intros Hxs. revert a.
  induction Hxs as [| x xs Hx Hxs IH]; intros a; simpl; [reflexivity |].
  destruct (row_listed idx a); simpl.
  - now rewrite IH.
  - destruct x; simpl in *; try contradiction. apply IH.
Qed.

Lemma listed_rows_length (idx : list nat) (n : nat) :
  NoDup idx -> Forall (fun i => (i < n)%nat) idx ->
  length (filter (row_listed idx) (seq 0 n)) = length idx.
Proof.
  intros Hnodup Hrange. rewrite Forall_forall in Hrange.
  apply Nat.le_antisymm.
  - apply NoDup_incl_length.
    + apply NoDup_filter, seq_NoDup.
    + intros i Hi. apply filter_In in Hi. now apply row_listed_In.
  - apply NoDup_incl_length; [exact Hnodup |].
    intros i Hi. apply filter_In. split.
    + apply in_seq. specialize (Hrange i Hi). lia.
    + now apply row_listed_In.
Qed.

(** Blanking a sample of distinct rows of a finite column leaves exactly
    as many missing values as rows drawn. *)
Lemma count_na_set_nan_at (idx : list nat) (xs : list float) (size : nat) :
  Forall finite xs -> row_sample (length xs) size idx ->
  count_na (set_nan_at idx xs) = size.
Proof.
  intros Hxs (Hnodup & Hsize & Hrange). unfold set_nan_at.
  rewrite (count_na_blank_rows idx xs 0 Hxs).
  now rewrite listed_rows_length.
Qed.

(** ** Missing values in generated tables (C4) *)

Lemma every_column_get (P : list float -> Prop) (c : Customers) (k : string)
      (xs : list float) :
  every_column P c -> get_col (numeric_frame c) k = Some (NumCol xs) -> P xs.
Proof.
  unfold every_column. intros (H1 & H2 & H3 & H4 & H5 & H6 & H7 & H8 & H9 &
    H10 & H11 & H12 & H13 & H14 & H15 & H16 & H17).
  unfold numeric_frame, get_col.
  repeat match goal with
         | |- (if String.eqb ?a k then _ else _) = _ -> _ =>
             destruct (String.eqb a k)
         end;
    intros E; try discriminate E; injection E as <-; assumption.
Qed.

Lemma generated_missing_only (n : nat) (df : DataFrame) :
  generated n df ->
  missing_only_in ["CREDIT_LIMIT"; "MINIMUM_PAYMENTS"] df.
Proof.
  intros (ids & c & i1 & i2 & [-> _ Hids _ Hfin _ _ _ _]).
  set (blanked := with_missing i1 i2 c).
  apply missing_only_in_Forall. simpl.
  constructor.
  { right. simpl. clear - Hids. induction Hids as [| o ids Ho _ IH];
      [reflexivity |]. simpl. destruct o; [exact IH | contradiction]. }
  destruct Hfin as (H1 & H2 & H3 & H4 & H5 & H6 & H7 & H8 & H9 &
    H10 & H11 & H12 & H13 & H14 & H15 & H16 & H17).
  repeat (constructor;
          [first [ left; listed
                 | right; simpl; apply (count_na_fin_sat (fun _ => True));
                   assumption ] |]).
  constructor.
Qed.

(** C4: with at least 313 rows and a seed numpy accepts, the generated
    table has exactly one missing CREDIT_LIMIT and exactly 313 missing
    MINIMUM_PAYMENTS, at the distinct rows drawn for each column, and no
    missing value in any other column. *)
Theorem generated_missing_counts `{NumpyRandom} (n_samples : nat) (seed : Z)
        (st : rng_state) :
  (313 <= n_samples)%nat ->
  valid_seed seed ->
  exists (df : DataFrame) (st' : rng_state) (cl mp : list float)
         (idx_credit idx_min : list nat),
    generate_credit_card_data n_samples seed st = (Ok df, st') /\
    get_num df "CREDIT_LIMIT" = Ok cl /\
    get_num df "MINIMUM_PAYMENTS" = Ok mp /\
    count_na cl = 1%nat /\
    count_na mp = 313%nat /\
    row_sample n_samples 1 idx_credit /\
    row_sample n_samples 313 idx_min /\
    (forall i, (i < n_samples)%nat ->
       isna (nth i cl NaN) = true <-> In i idx_credit) /\
    (forall i, (i < n_samples)%nat ->
       isna (nth i mp NaN) = true <-> In i idx_min) /\
    missing_only_in ["CREDIT_LIMIT"; "MINIMUM_PAYMENTS"] df.
Proof.
  intros Hn Hseed.
  destruct (generate_credit_card_data_spec n_samples seed st Hseed Hn)
    as (df & st' & Hrun & Hgen).
  pose proof (generated_missing_only _ _ Hgen) as Hothers.
  destruct Hgen as (ids & c & i1 & i2 & [-> _ _ Hlen Hfin _ _ Hs1 Hs2]).
  pose proof (every_column_get _ c "CREDIT_LIMIT" _ Hlen eq_refl) as Hcl_len.
  pose proof (every_column_get _ c "CREDIT_LIMIT" _ Hfin eq_refl) as Hcl_fin.
  pose proof (every_column_get _ c "MINIMUM_PAYMENTS" _ Hlen eq_refl) as Hmp_len.
  pose proof (every_column_get _ c "MINIMUM_PAYMENTS" _ Hfin eq_refl) as Hmp_fin.
  cbv beta in Hcl_len, Hmp_len.
  exists (customer_frame (Some ids) (with_missing i1 i2 c)), st',
    (set_nan_at i1 (credit_limit c)), (set_nan_at i2 (minimum_payments c)),
    i1, i2.
  split; [exact Hrun |].
  split; [reflexivity |]. split; [reflexivity |].
  split; [apply count_na_set_nan_at; [exact Hcl_fin | now rewrite Hcl_len] |].
  split; [apply count_na_set_nan_at; [exact Hmp_fin | now rewrite Hmp_len] |].
  split; [exact Hs1 |]. split; [exact Hs2 |].
  split; [| split; [| exact Hothers]].
  - intros i Hi. apply set_nan_at_isna; [exact Hcl_fin | now rewrite Hcl_len].
  - intros i Hi. apply set_nan_at_isna; [exact Hmp_fin | now rewrite Hmp_len].
Qed.

Lemma generated_missing_counts_witness :
  exists (df : DataFrame) (st' : Z) (cl mp : list float)
         (idx_credit idx_min : list nat),
    @generate_credit_card_data counting_random 400 42 0%Z = (Ok df, st') /\
    get_num df "CREDIT_LIMIT" = Ok cl /\
    get_num df "MINIMUM_PAYMENTS" = Ok mp /\
    count_na cl = 1%nat /\
    count_na mp = 313%nat /\
    row_sample 400 1 idx_credit /\
    row_sample 400 313 idx_min /\
    (forall i, (i < 400)%nat ->
       isna (nth i cl NaN) = true <-> In i idx_credit) /\
    (forall i, (i < 400)%nat ->
       isna (nth i mp NaN) = true <-> In i idx_min) /\
    missing_only_in ["CREDIT_LIMIT"; "MINIMUM_PAYMENTS"] df.
Proof.
  apply (@generated_missing_counts counting_random 400 42 0%Z).
  - lia.
  - unfold valid_seed. lia.
Defined.

(** ** Determinism of the generator (C5) *)

Section Determinism.
Context `{NumpyRandom}.

(** Seeding discards the state the generator was in. *)
Lemma generate_ignores_state (n : nat) (seed : Z) (st1 st2 : rng_state) :
  valid_seed seed ->
  generate_credit_card_data n seed st1 = generate_credit_card_data n seed st2.
Proof.
  intros Hseed. unfold generate_credit_card_data.
  match goal with
  | |- np_bind _ ?k _ = _ => generalize k
  end.
  intros k. unfold np_bind.
  now rewrite !(np_random_seed_valid seed _ Hseed).
Qed.

Lemma generate_same_table (n : nat) (seed : Z) (st1 st2 : rng_state) :
  fst (generate_credit_card_data n seed st1) =
  fst (generate_credit_card_data n seed st2).
Proof.
  unfold generate_credit_card_data.
  match goal with
  | |- fst (np_bind _ ?k _) = _ => generalize k
  end.
  intros k. unfold np_bind, np_random_seed.
  now destruct ((0 <=? seed)%Z && (seed <? 2 ^ 32)%Z).
Qed.

Lemma valid_seed_42 : valid_seed 42.
Proof. unfold valid_seed. lia. Qed.

Lemma valid_seed_99 : valid_seed 99.
Proof. unfold valid_seed. lia. Qed.

Lemma enough_rows_v1 : (313 <= 8950)%nat.
Proof. apply Nat.leb_le. vm_compute. reflexivity. Qed.

Lemma enough_rows_v2 : (313 <= 9500)%nat.
Proof. apply Nat.leb_le. vm_compute. reflexivity. Qed.

(** What [main] does once the arguments are parsed. *)
Lemma main_parsed (argv : list string) (version : Z)
      (st : rng_state) (fs : filesystem) :
  parse_args argv = Ok version ->
  exists df st',
    (if (version =? 1)%Z
     then generate_credit_card_data 8950 42
     else generate_credit_card_data 9500 99) st = (Ok df, st') /\
    generated (if (version =? 1)%Z then 8950 else 9500)%nat df /\
    main argv st fs =
      (Ok tt, st', write_file fs "data/raw/CC_GENERAL.csv" (CsvFile df)).
Proof.
  intros Hparse. unfold main. rewrite Hparse. cbv zeta.
  destruct (version =? 1)%Z.
  - destruct (generate_credit_card_data_spec 8950 42 st valid_seed_42
                enough_rows_v1) as (df & st' & Hrun & Hgen).
    exists df, st'. rewrite Hrun.
    split; [reflexivity |]. split; [exact Hgen | reflexivity].
  - destruct (generate_credit_card_data_spec 9500 99 st valid_seed_99
                enough_rows_v2) as (df & st' & Hrun & Hgen).
    exists df, st'. rewrite Hrun.
    split; [reflexivity |]. split; [exact Hgen | reflexivity].
Qed.
Lemma main_version_1 (argv : list string) (st : rng_state)
      (fs : filesystem) :
  parse_args argv = Ok 1%Z ->
  exists df st',
    generate_credit_card_data 8950 42 st = (Ok df, st') /\
    generated 8950 df /\
    main argv st fs =
      (Ok tt, st', write_file fs "data/raw/CC_GENERAL.csv" (CsvFile df)).
Proof.
  intros Hparse.
  destruct (generate_credit_card_data_spec 8950 42 st valid_seed_42
              enough_rows_v1) as (df & st' & Hrun & Hgen).
  exists df, st'. split; [exact Hrun |]. split; [exact Hgen |].
  unfold main. rewrite Hparse.
  rewrite Z.eqb_refl. cbv zeta. rewrite Hrun. reflexivity.
Qed.

End Determinism.

(** C5: the table a run returns depends on the row count and the seed
    only, not on the state the global generator was in; and for a fixed
    command line, [main] ends the same way and leaves the same file at
    the output path whatever the generator state and the file system it
    started from. *)
Theorem generator_deterministic `{NumpyRandom} (n_samples : nat) (seed : Z)
        (argv : list string) (st1 st2 : rng_state) (fs1 fs2 : filesystem) :
  fst (generate_credit_card_data n_samples seed st1) =
  fst (generate_credit_card_data n_samples seed st2) /\
  fst (fst (main argv st1 fs1)) = fst (fst (main argv st2 fs2)) /\
  match parse_args argv with
  | Ok _ =>
      snd (main argv st1 fs1) "data/raw/CC_GENERAL.csv" =
      snd (main argv st2 fs2) "data/raw/CC_GENERAL.csv"
  | Raise _ =>
      snd (main argv st1 fs1) = fs1 /\ snd (main argv st2 fs2) = fs2
  end.
Proof.
  split; [apply generate_same_table |].
  destruct (parse_args argv) as [version | e] eqn:Hparse.
  - destruct (main_parsed argv version st1 fs1 Hparse)
      as (df1 & st1' & Hrun1 & _ & ->).
    destruct (main_parsed argv version st2 fs2 Hparse)
      as (df2 & st2' & Hrun2 & _ & ->).
    assert (Hsame : df1 = df2).
    { destruct (version =? 1)%Z.
      - rewrite (generate_ignores_state _ _ st1 st2 valid_seed_42) in Hrun1.
        congruence.
      - rewrite (generate_ignores_state _ _ st1 st2 valid_seed_99) in Hrun1.
        congruence. }
    subst df2. split; [reflexivity |].
    unfold write_file. simpl. reflexivity.
  - unfold main. rewrite Hparse. simpl. auto.
Qed.

(** ** Rounding *)


Lemma power_of_ten_pos (d : nat) : 0 < inject_Z (10 ^ Z.of_nat d).
Proof.
  change 0 with (inject_Z 0). rewrite <- Zlt_Qlt.
  apply Z.pow_pos_nonneg; lia.
Qed.


(** ** Training *)

Lemma rows_of_length (n : nat) (cols : list (list Q)) :
  length (rows_of n cols) = n.
Proof. unfold rows_of. now rewrite length_map, length_seq. Qed.

Lemma rows_of_width (n : nat) (cols : list (list Q)) :
  Forall (fun row => length row = length cols) (rows_of n cols).
Proof.
  unfold rows_of. apply Forall_map. apply Forall_forall.
  intros i _. apply length_map.
Qed.

Lemma numeric_columns_length (df : DataFrame) (cols : list (list Q)) :
  numeric_columns df = Ok cols -> length cols = length df.
Proof.
  revert cols. induction df as [| [k [xs | xs]] df IH]; intros cols; simpl.
  - intros E. injection E as <-. reflexivity.
  - destruct (finite_values xs); [| discriminate].
    destruct (numeric_columns df) as [cols' |]; [| discriminate].
    intros E. injection E as <-. simpl. f_equal. now apply IH.
  - discriminate.
Qed.

Lemma design_matrix_shape (k : nat) (df : DataFrame) (X : matrix) :
  design_matrix k df = Ok X ->
  length X = nrows df /\ (k <= nrows df)%nat /\ (k <= length df)%nat /\
  Forall (fun row => length row = length df) X.
Proof.
  unfold design_matrix.
  destruct (numeric_columns df) as [cols |] eqn:Hcols; [| discriminate].
  destruct ((k <=? nrows df)%nat && (k <=? length df)%nat) eqn:Hk;
    [| discriminate].
  intros E. injection E as <-. apply andb_true_iff in Hk.
  destruct Hk as [Hrows Hwidth].
  apply Nat.leb_le in Hrows. apply Nat.leb_le in Hwidth.
  repeat split; try assumption.
  - apply rows_of_length.
  - rewrite <- (numeric_columns_length _ _ Hcols). apply rows_of_width.
Qed.

Lemma flags_sum_counts_label (labels : list Z) :
  Zsum (map (fun l => if (l =? -1)%Z then 1%Z else 0%Z) labels) =
  count_labelled (-1) labels.
Proof.
  unfold count_labelled. induction labels as [| l labels IH]; [reflexivity |].
  cbn [map Zsum fold_right filter]. fold (Zsum (map (fun l => if (l =? -1)%Z then 1%Z else 0%Z) labels)).
  rewrite IH. rewrite (Z.eqb_sym (-1) l).
  destruct (l =? -1)%Z; cbn [length]; lia.
Qed.


Section TrainProperties.
Context `{Sklearn}.

(** What a successful run of [train] computed. *)
Lemma train_frame_spec (df : DataFrame) (run : TrainRun) :
  train_frame df = Ok run ->
  let m := run_metrics run in
  (10 <= nrows df)%nat /\
  length (run_scores run) = nrows df /\
  run_labels run =
    map (fun score => if Qltb score 0 then (-1)%Z else 1%Z) (run_scores run) /\
  run_anomaly_flags run =
    map (fun l => if (l =? -1)%Z then 1%Z else 0%Z) (run_labels run) /\
  n_samples m = Z.of_nat (nrows df) /\
  contamination m = CONTAMINATION /\
  n_anomalies m = Zsum (run_anomaly_flags run) /\
  n_normal m = (Z.of_nat (nrows df) - n_anomalies m)%Z /\
  anomaly_percentage m =
    Qround_to 2 (inject_Z (n_anomalies m) / inject_Z (n_samples m) * 100).
Proof.
  unfold train_frame.
  destruct (design_matrix 10 df) as [X |] eqn:HX; [| discriminate].
  destruct (design_matrix_shape _ _ _ HX) as (Hrows & Hten & _ & _).
  cbn [rbind]. unfold scaler_fit_transform, pca_fit_transform,
    iforest_fit_predict, predict.
  destruct (last_item _) as [explained_last |]; [| discriminate].
  cbn [rbind]. intros E. injection E as <-.
  cbn [run_metrics run_scores run_labels run_anomaly_flags n_samples
       contamination n_anomalies n_normal anomaly_percentage].
  assert (Hscores :
            length (decision_function
                      (iforest_fit 200 CONTAMINATION 42
                         (pca_transform (pca_fit 10 42
                            (scaler_transform (scaler_fit X) X))
                            (scaler_transform (scaler_fit X) X)))
                      (pca_transform (pca_fit 10 42
                         (scaler_transform (scaler_fit X) X))
                         (scaler_transform (scaler_fit X) X))) = nrows df).
  { now rewrite decision_function_length, pca_transform_length,
      scaler_transform_length. }
  rewrite !length_map, Hscores. repeat split; assumption.
Qed.

Lemma train_Ok (fs fs' : filesystem) (metrics : Metrics) :
  train fs = (Ok metrics, fs') ->
  exists df run,
    read_csv fs PROCESSED_PATH = Ok df /\
    train_frame df = Ok run /\
    metrics = run_metrics run /\
    fs' METRICS_PATH = Some (JsonFile metrics).
Proof.
  unfold train.
  destruct (read_csv fs PROCESSED_PATH) as [df |] eqn:Hread;
    [| discriminate].
  destruct (train_frame df) as [run |] eqn:Hrun; [| discriminate].
  intros E. injection E as <- <-. exists df, run.
  repeat split; try reflexivity. exact Hrun.
Qed.
End TrainProperties.

(** ** The metrics record (C6, C10) *)



(** C10: in the metrics [train] writes, the normal and the anomalous
    rows add up to the sample count. *)
Theorem counts_partition_samples `{Sklearn} (fs fs' : filesystem)
        (metrics : Metrics) :
  train fs = (Ok metrics, fs') ->
  (n_normal metrics + n_anomalies metrics = n_samples metrics)%Z.
Proof.
  intros Htrain.
  destruct (train_Ok _ _ _ Htrain) as (df & run & _ & Hrun & -> & _).
  destruct (train_frame_spec _ _ Hrun)
    as (_ & _ & _ & _ & Hsamples & _ & _ & Hnormal & _).
  rewrite Hnormal, Hsamples. lia.
Qed.

Lemma counts_partition_samples_witness :
  (n_normal training_metrics + n_anomalies training_metrics =
   n_samples training_metrics)%Z.
Proof.
  apply (@counts_partition_samples first_feature_estimators training_files
           (snd (@train first_feature_estimators training_files))).
  vm_compute. reflexivity.
Defined.

(** ** The command line (C8) *)









(** ** Denominators of the derived ratios (C9) *)

Section GeneratorInversion.
Context `{NumpyRandom}.

Lemma np_bind_Raise {A B : Type} (m : np A) (f : A -> np B)
      (st st' : rng_state) (e : exn) :
  m st = (Raise e, st') -> np_bind m f st = (Raise e, st').
Proof. unfold np_bind. now intros ->. Qed.

Lemma np_choice_no_replace_short (n size : nat) (st : rng_state) :
  (n < size)%nat -> np_choice_no_replace n size st = (Raise ValueError, st).
Proof.
  intros Hshort. unfold np_choice_no_replace.
  replace (size <=? n)%nat with false; [reflexivity |].
  symmetry. apply Nat.leb_gt. exact Hshort.
Qed.

(** A run that returns a table was given a valid seed and at least 313
    rows. *)
Lemma generate_credit_card_data_Ok (n : nat) (seed : Z)
      (st st' : rng_state) (df : DataFrame) :
  generate_credit_card_data n seed st = (Ok df, st') -> generated n df.
Proof.
  intros Hrun.
  assert (Hseed : valid_seed seed).
  { unfold generate_credit_card_data in Hrun.
    unfold np_bind at 1 in Hrun. unfold np_random_seed in Hrun.
    unfold valid_seed.
    destruct ((0 <=? seed)%Z && (seed <? 2 ^ 32)%Z) eqn:Hrange;
      [| discriminate Hrun].
    apply andb_true_iff in Hrange. lia. }
  destruct (Nat.le_gt_cases 313 n) as [Hn | Hn].
  - destruct (generate_credit_card_data_spec n seed st Hseed Hn)
      as (df' & st'' & Hrun' & Hgen).
    rewrite Hrun in Hrun'. now injection Hrun' as <- <-.
  - exfalso. revert Hrun. unfold generate_credit_card_data.
    unfold np_bind at 1. rewrite (np_random_seed_valid seed st Hseed).
    cbn [np_bind np_exponential_round6 np_uniform_round6 np_randint
         np_choice_float np_draw fst snd credit_limit_tiers].
    cbn [nrows series_len]. rewrite length_map, length_seq.
    destruct (Nat.le_gt_cases 1 n) as [Hone | Hnone].
    + match goal with
      | |- context [np_bind (np_choice_no_replace n 1%nat) _ ?s] =>
          destruct (np_choice_no_replace_sample n 1%nat s Hone)
            as [Hdraw _];
          rewrite (np_bind_Ok _ _ _ _ _ Hdraw); clear Hdraw
      end.
      match goal with
      | |- context [np_bind (np_choice_no_replace n 313%nat) _ ?s] =>
          rewrite (np_bind_Raise _ _ _ _ _
                     (np_choice_no_replace_short n 313%nat s Hn))
      end.
      discriminate.
    + match goal with
      | |- context [np_bind (np_choice_no_replace n 1%nat) _ ?s] =>
          rewrite (np_bind_Raise _ _ _ _ _
                     (np_choice_no_replace_short n 1%nat s Hnone))
      end.
      discriminate.
Qed.
End GeneratorInversion.

Lemma integer_between_nonzero (lo hi : Z) (q : Q) :
  (0 < lo)%Z -> integer_between lo hi q -> ~ q == 0.
Proof.
  intros Hlo (z & -> & Hz) Hzero.
  unfold Qeq in Hzero. simpl in Hzero. lia.
Qed.

(** C9: when, after imputation, every CREDIT_LIMIT is a non-negative
    number and every TENURE a nonzero number, the four derived columns
    are quotients by TENURE and by CREDIT_LIMIT + 1, and no cell of either
    denominator is zero.  The generator's tables satisfy the TENURE
    hypothesis: their TENURE cells are integers from 6 to 12. *)
Theorem ratio_denominators_nonzero (df imputed out : DataFrame) :
  impute (drop_identifier df) = Ok imputed ->
  preprocess_frame df = Ok out ->
  cells_of "CREDIT_LIMIT" (fin_sat (fun q => 0 <= q)) imputed ->
  cells_of "TENURE" (fin_sat (fun q => ~ q == 0)) imputed ->
  (exists p ca b t cl : list float,
     get_num imputed "PURCHASES" = Ok p /\
     get_num imputed "CASH_ADVANCE" = Ok ca /\
     get_num imputed "BALANCE" = Ok b /\
     get_num imputed "TENURE" = Ok t /\
     get_num imputed "CREDIT_LIMIT" = Ok cl /\
     Forall (fin_sat (fun q => ~ q == 0)) t /\
     Forall (fin_sat (fun q => ~ q == 0)) (series_add_scalar cl (Fin 1)) /\
     get_num out "MONTHLY_AVG_PURCHASE" = Ok (series_div p t) /\
     get_num out "MONTHLY_AVG_CASH_ADVANCE" = Ok (series_div ca t) /\
     get_num out "PURCHASE_TO_LIMIT_RATIO" =
       Ok (series_div p (series_add_scalar cl (Fin 1))) /\
     get_num out "BALANCE_TO_LIMIT_RATIO" =
       Ok (series_div b (series_add_scalar cl (Fin 1)))) /\
  (forall (R : NumpyRandom) (n : nat) (seed : Z) (st st' : rng_state)
          (generated_table : DataFrame),
     generate_credit_card_data n seed st = (Ok generated_table, st') ->
     cells_of "TENURE"
       (fin_sat (fun q => integer_between 6 12 q /\ ~ q == 0))
       generated_table).
Proof.
  intros Himpute Hrun (cl' & Hcl' & Hlimit) (t' & Ht' & Htenure). split.
  - unfold preprocess_frame in Hrun. rewrite Himpute in Hrun.
    cbn [rbind] in Hrun.
    apply rbind_Ok_inv in Hrun. destruct Hrun as (engineered & Heng & Hclip).
    destruct (engineer_spec _ _ Heng)
      as (p & ca & b & t & cl & Hp & Hca & Hb & Ht & Hcl & Hm1 & Hm2 & Hr1 & Hr2).
    assert (t' = t) by congruence. assert (cl' = cl) by congruence. subst.
    exists p, ca, b, t, cl.
    repeat match goal with |- _ /\ _ => split end; try assumption.
    + exact (series_add_scalar_Forall _ (fun q => ~ q == 0) 1 _
               nonneg_succ_nonzero Hlimit).
    + rewrite <- Hm1.
      apply get_num_transport, (clip_outliers_frame _ _ _ Hclip). not_listed.
    + rewrite <- Hm2.
      apply get_num_transport, (clip_outliers_frame _ _ _ Hclip). not_listed.
    + rewrite <- Hr1.
      apply get_num_transport, (clip_outliers_frame _ _ _ Hclip). not_listed.
    + rewrite <- Hr2.
      apply get_num_transport, (clip_outliers_frame _ _ _ Hclip). not_listed.
  - intros R n seed st st' generated_table Hgenerate.
    destruct (generate_credit_card_data_Ok _ _ _ _ _ Hgenerate)
      as (ids & c & i1 & i2 & [-> _ _ _ _ Hbetween _ _ _]).
    exists (tenure c). split; [reflexivity |].
    eapply Forall_impl; [| exact Hbetween].
    intros x Hx. eapply fin_sat_impl; [| exact Hx].
    intros q Hq. split; [exact Hq |].
    apply (integer_between_nonzero 6 12 q); [lia | exact Hq].
Qed.

Lemma ratio_denominators_nonzero_witness :
  exists p ca b t cl : list float,
    get_num sample_imputed "PURCHASES" = Ok p /\
    get_num sample_imputed "CASH_ADVANCE" = Ok ca /\
    get_num sample_imputed "BALANCE" = Ok b /\
    get_num sample_imputed "TENURE" = Ok t /\
    get_num sample_imputed "CREDIT_LIMIT" = Ok cl /\
    Forall (fin_sat (fun q => ~ q == 0)) t /\
    Forall (fin_sat (fun q => ~ q == 0)) (series_add_scalar cl (Fin 1)) /\
    get_num sample_processed "MONTHLY_AVG_PURCHASE" = Ok (series_div p t) /\
    get_num sample_processed "MONTHLY_AVG_CASH_ADVANCE" =
      Ok (series_div ca t) /\
    get_num sample_processed "PURCHASE_TO_LIMIT_RATIO" =
      Ok (series_div p (series_add_scalar cl (Fin 1))) /\
    get_num sample_processed "BALANCE_TO_LIMIT_RATIO" =
      Ok (series_div b (series_add_scalar cl (Fin 1))).
Proof.
  apply (ratio_denominators_nonzero sample_table sample_imputed
           sample_processed).
  - vm_compute. reflexivity.
  - vm_compute. reflexivity.
  - eexists. split; [reflexivity |].
    repeat (apply Forall_cons; [simpl; intros Hneg; discriminate Hneg |]).
    apply Forall_nil.
  - eexists. split; [reflexivity |].
    repeat (apply Forall_cons; [simpl; intros Hzero; discriminate Hzero |]).
    apply Forall_nil.
Defined.

(** ** Finite tables through [preprocess] *)

Lemma finite_na_or_fin_sat (xs : list float) :
  Forall finite xs -> Forall (na_or_fin_sat (fun _ => True)) xs.
Proof. apply Forall_impl. intros x Hx. now right. Qed.

Lemma clipped_finite (xs : list float) :
  Forall finite xs -> (0 < length xs)%nat ->
  Forall finite (clip_upper (quantile (99 # 100) xs) xs).
Proof.
  intros Hxs Hlen. apply clip_upper_finite; [| exact Hxs].
  apply quantile_finite; try lra.
  - now apply finite_na_or_fin_sat.
  - rewrite (count_na_fin_sat _ _ Hxs). exact Hlen.
Qed.

Lemma set_nan_at_Forall (P : Q -> Prop) (idx : list nat) (xs : list float) :
  Forall (fin_sat P) xs -> Forall (na_or_fin_sat P) (set_nan_at idx xs).
Proof.
  intros Hxs. unfold set_nan_at. apply Forall_map. apply Forall_forall.
  intros [i x] Hix. cbn [fst snd]. destruct (row_listed idx i); [now left |].
  right. rewrite Forall_forall in Hxs. apply Hxs.
  eapply in_combine_r. exact Hix.
Qed.

(** Filling the blanked rows of a finite column with its median gives a
    finite column again, within any bound closed under averaging. *)
Lemma filled_fin_sat (P : Q -> Prop) (idx : list nat) (xs : list float)
      (size : nat) :
  (forall a b, P a -> P b -> P ((a + b) / 2)) ->
  Forall (fin_sat P) xs ->
  row_sample (length xs) size idx -> (size < length xs)%nat ->
  Forall (fin_sat P)
         (fillna (set_nan_at idx xs) (median (set_nan_at idx xs))).
Proof.
  intros Havg Hxs Hsample Hsize.
  pose proof (set_nan_at_Forall P idx xs Hxs) as Hblank.
  apply fillna_Forall; [exact Hblank |].
  apply median_fin_sat; [exact Havg | exact Hblank |].
  rewrite set_nan_at_length.
  rewrite (count_na_set_nan_at idx xs size); [exact Hsize | | exact Hsample].
  eapply Forall_impl; [| exact Hxs]. intros x. now apply fin_sat_impl.
Qed.

Lemma fillna_length (xs : list float) (v : float) :
  length (fillna xs v) = length xs.
Proof. apply length_map. Qed.

Lemma series_add_scalar_length (xs : list float) (c : float) :
  length (series_add_scalar xs c) = length xs.
Proof. apply length_map. Qed.

Lemma series_div_length (xs ys : list float) :
  length xs = length ys -> length (series_div xs ys) = length xs.
Proof.
  unfold series_div. revert ys.
  induction xs as [| x xs IH]; intros [| y ys] Hlen; simpl in *;
    try discriminate; [reflexivity |].
  f_equal. apply IH. now injection Hlen.
Qed.

(** [preprocess] turns a generated table into a table of finite
    numbers with as many rows. *)
Lemma processed_generated_finite (n : nat) (ids : list (option string))
      (c : Customers) (i1 i2 : list nat) (df : DataFrame) :
  generated_from n ids c i1 i2 df -> (313 < n)%nat ->
  finite_frame n (processed_frame (with_missing i1 i2 c)).
Proof.
  intros [_ _ _ Hlen Hfin Htenure Hlimit Hs1 Hs2] Hn.
  destruct Hlen as (L1 & L2 & L3 & L4 & L5 & L6 & L7 & L8 & L9 & L10 & L11 &
    L12 & L13 & L14 & L15 & L16 & L17).
  destruct Hfin as (F1 & F2 & F3 & F4 & F5 & F6 & F7 & F8 & F9 & F10 & F11 &
    F12 & F13 & F14 & F15 & F16 & F17).
  rewrite <- L13 in Hs1. rewrite <- L15 in Hs2.
  assert (Hnonzero : Forall (fin_sat (fun q => ~ q == 0)) (tenure c)).
  { eapply Forall_impl; [| exact Htenure]. intros x. apply fin_sat_impl.
    intros q. now apply integer_between_nonzero. }
  assert (Hcl : Forall (fin_sat (fun q => 0 <= q))
                  (fillna (set_nan_at i1 (credit_limit c))
                          (median (set_nan_at i1 (credit_limit c))))).
  { apply (filled_fin_sat _ _ _ 1%nat nonneg_average); [| exact Hs1 | lia].
    eapply Forall_impl; [| exact Hlimit]. intros x. apply fin_sat_impl.
    intros q Hq. lra. }
  assert (Hmp : Forall finite
                  (fillna (set_nan_at i2 (minimum_payments c))
                          (median (set_nan_at i2 (minimum_payments c))))).
  { apply (filled_fin_sat (fun _ => True) _ _ 313%nat (fun _ _ _ _ => I));
      [exact F15 | exact Hs2 | lia]. }
  assert (Hcl_fin : Forall finite
                      (fillna (set_nan_at i1 (credit_limit c))
                              (median (set_nan_at i1 (credit_limit c))))).
  { eapply Forall_impl; [| exact Hcl]. intros x. now apply fin_sat_impl. }
  pose proof (series_add_scalar_Forall _ (fun q => ~ q == 0) 1 _
                nonneg_succ_nonzero Hcl) as Hdenominator.
  unfold finite_frame, processed_frame, with_missing.
  cbn [balance balance_frequency purchases oneoff_purchases
       installments_purchases cash_advance purchases_frequency
       oneoff_purchases_frequency purchases_installments_frequency
       cash_advance_frequency cash_advance_trx purchases_trx credit_limit
       payments minimum_payments prc_full_payment tenure].
  repeat (apply Forall_cons;
          [cbn [snd]; eexists; split; [reflexivity |]; split |]);
    [ .. | apply Forall_nil];
    rewrite ?clip_upper_length, ?fillna_length, ?set_nan_at_length,
      ?series_div_length, ?series_add_scalar_length, ?fillna_length,
      ?set_nan_at_length
      by (etransitivity; [eassumption | symmetry; assumption]);
    try assumption;
    first [ apply clipped_finite;
            [assumption | rewrite ?fillna_length, ?set_nan_at_length; lia]
          | apply series_div_finite; assumption
          | rewrite series_div_length;
            [assumption
            | rewrite series_add_scalar_length, fillna_length,
                set_nan_at_length;
              etransitivity; [eassumption | symmetry; assumption]] ].
Qed.

(** ** End to end (C7) *)

Lemma finite_values_Some (xs : list float) :
  Forall finite xs -> exists qs, finite_values xs = Some qs.
Proof.
  induction 1 as [| x xs Hx Hxs (qs & IH)]; simpl; [now exists [] |].
  destruct x; simpl in Hx; try contradiction.
  rewrite IH. simpl. eauto.
Qed.

Lemma numeric_columns_finite (n : nat) (df : DataFrame) :
  finite_frame n df -> exists cols, numeric_columns df = Ok cols.
Proof.
  induction 1 as [| [k s] df (xs & Hs & Hxs & _) Hdf (cols & IH)]; simpl;
    [now exists [] |].
  simpl in Hs. subst s.
  destruct (finite_values_Some xs Hxs) as (qs & ->). rewrite IH. eauto.
Qed.

Lemma finite_frame_nrows (n : nat) (df : DataFrame) :
  finite_frame n df -> df <> [] -> nrows df = n.
Proof.
  intros Hdf Hne. destruct Hdf as [| [k s] df (xs & Hs & _ & Hlen) _];
    [congruence |].
  simpl in Hs. subst s. exact Hlen.
Qed.

Lemma cumsum_from_length (acc : Q) (xs : list Q) :
  length (cumsum_from acc xs) = length xs.
Proof.
  revert acc. induction xs as [| x xs IH]; intros acc; simpl;
    [reflexivity | now rewrite IH].
Qed.

Lemma last_item_nonempty (xs : list Q) :
  (0 < length xs)%nat -> exists x, last_item xs = Ok x.
Proof.
  intros Hlen. unfold last_item.
  destruct (rev xs) as [| x l] eqn:Hrev; [| eauto].
  apply (f_equal (@length Q)) in Hrev. rewrite length_rev in Hrev.
  simpl in Hrev. lia.
Qed.

Section TrainSucceeds.
Context `{Sklearn}.

(** [train] accepts every table of finite numbers with at least ten
    rows and ten columns. *)
Lemma train_frame_succeeds (n : nat) (df : DataFrame) :
  finite_frame n df -> (10 <= n)%nat -> (10 <= length df)%nat ->
  exists run, train_frame df = Ok run.
Proof.
  intros Hdf Hn Hwidth.
  assert (Hrows : nrows df = n).
  { apply finite_frame_nrows; [exact Hdf |].
    intros ->. simpl in Hwidth. lia. }
  destruct (numeric_columns_finite _ _ Hdf) as (cols & Hcols).
  assert (HX : design_matrix 10 df = Ok (rows_of (nrows df) cols)).
  { unfold design_matrix. rewrite Hcols.
    replace ((10 <=? nrows df)%nat && (10 <=? length df)%nat) with true;
      [reflexivity |].
    symmetry. apply andb_true_iff. split; apply Nat.leb_le; lia. }
  destruct (design_matrix_shape _ _ _ HX) as (Hlen & _ & _ & Hrowwidth).
  unfold train_frame. rewrite HX. cbn [rbind].
  unfold scaler_fit_transform, pca_fit_transform, iforest_fit_predict.
  set (X := rows_of (nrows df) cols) in *.
  set (X_scaled := scaler_transform (scaler_fit X) X).
  assert (Hevr : length (explained_variance_ratio_ (pca_fit 10 42 X_scaled))
                 = 10%nat).
  { apply explained_variance_ratio_length.
    - unfold X_scaled. rewrite scaler_transform_length. lia.
    - eapply Forall_impl;
        [| apply (scaler_transform_width _ _ _ Hrowwidth)].
      intros row Hrow. cbv beta in Hrow. lia. }
  destruct (last_item_nonempty
              (cumsum (explained_variance_ratio_ (pca_fit 10 42 X_scaled))))
    as (x & Hlast).
  { unfold cumsum. rewrite cumsum_from_length, Hevr. lia. }
  rewrite Hlast. cbn [rbind]. eauto.
Qed.
End TrainSucceeds.

Section Pipeline.
Context `{Sklearn}.

(** Preprocessing and training on the file a generator run wrote. *)
Lemma pipeline_on_generated (n : nat) (ids : list (option string))
      (c : Customers) (i1 i2 : list nat) (df : DataFrame)
      (fs : filesystem) :
  generated_from n ids c i1 i2 df -> (313 < n)%nat ->
  exists (processed : DataFrame) (fs2 : filesystem) (metrics : Metrics)
         (fs3 : filesystem),
    preprocess RAW_PATH PROCESSED_PATH
               (write_file fs "data/raw/CC_GENERAL.csv" (CsvFile df)) =
      Ok (processed, fs2) /\
    nrows processed = n /\
    length processed = 21%nat /\
    columns processed = numeric_schema ++ derived_columns /\
    train fs2 = (Ok metrics, fs3) /\
    n_samples metrics = Z.of_nat n /\
    contamination metrics = CONTAMINATION /\
    fs3 METRICS_PATH = Some (JsonFile metrics).
Proof.
  intros Hfrom Hn.
  pose proof (processed_generated_finite _ _ _ _ _ _ Hfrom Hn) as Hfinite.
  destruct Hfrom as [-> _ _ _ _ _ _ _ _].
  set (processed := processed_frame (with_missing i1 i2 c)) in *.
  assert (Hwidth : length processed = 21%nat) by reflexivity.
  assert (Hrows : nrows processed = n).
  { apply finite_frame_nrows; [exact Hfinite |]. discriminate. }
  destruct (train_frame_succeeds n processed Hfinite ltac:(lia) ltac:(lia))
    as (run & Hrun).
  destruct (train_frame_spec _ _ Hrun)
    as (_ & _ & _ & _ & Hsamples & Hcontamination & _).
  set (fs1 := write_file fs "data/raw/CC_GENERAL.csv"
                (CsvFile (customer_frame (Some ids) (with_missing i1 i2 c)))).
  set (fs2 := write_file fs1 PROCESSED_PATH (CsvFile processed)).
  assert (Hread : read_csv fs2 PROCESSED_PATH = Ok processed).
  { unfold read_csv, fs2, write_file. now rewrite String.eqb_refl. }
  destruct (train fs2) as [outcome fs3] eqn:Htrain.
  exists processed, fs2, (run_metrics run), fs3.
  assert (Houtcome : outcome = Ok (run_metrics run) /\
                     fs3 METRICS_PATH = Some (JsonFile (run_metrics run))).
  { unfold train in Htrain. rewrite Hread, Hrun in Htrain.
    injection Htrain as <- <-. split; reflexivity. }
  destruct Houtcome as [-> Hfile].
  repeat match goal with |- _ /\ _ => split end;
    try assumption; try reflexivity.
  now rewrite Hsamples, Hrows.
Qed.
End Pipeline.

Lemma more_than_enough_rows_v1 : (313 < 8950)%nat.
Proof. apply Nat.ltb_lt. vm_compute. reflexivity. Qed.

Lemma rows_v1_as_integer : Z.of_nat 8950 = 8950%Z.
Proof. vm_compute. reflexivity. Qed.

(** C7: generating version 1, preprocessing and training gives a
    processed table of shape (8950, 21), the 17 numeric generated columns
    followed by the 4 derived ones, and metrics with [n_samples = 8950]
    and [contamination = 0.05], written to the metrics file. *)
Theorem end_to_end_version_1 `{NumpyRandom} `{Sklearn} (st : rng_state)
        (fs : filesystem) :
  exists (st1 : rng_state) (fs1 : filesystem) (processed : DataFrame)
         (fs2 : filesystem) (metrics : Metrics) (fs3 : filesystem),
    main ["--version"; "1"] st fs = (Ok tt, st1, fs1) /\
    preprocess RAW_PATH PROCESSED_PATH fs1 = Ok (processed, fs2) /\
    shape processed = (8950, 21)%nat /\
    columns processed = numeric_schema ++ derived_columns /\
    length generator_schema = 18%nat /\
    train fs2 = (Ok metrics, fs3) /\
    n_samples metrics = 8950%Z /\
    contamination metrics = 0.05 /\
    fs3 METRICS_PATH = Some (JsonFile metrics).
Proof.
  destruct (main_version_1 ["--version"; "1"] st fs eq_refl)
    as (df & st1 & _ & (ids & c & i1 & i2 & Hfrom) & Hmain).
  destruct (pipeline_on_generated _ _ _ _ _ _ fs Hfrom more_than_enough_rows_v1)
    as (processed & fs2 & metrics & fs3 & Hpre & Hrows & Hwidth & Hcols &
        Htrain & Hsamples & Hcontamination & Hfile).
  exists st1, (write_file fs "data/raw/CC_GENERAL.csv" (CsvFile df)),
    processed, fs2, metrics, fs3.
  split; [exact Hmain |]. split; [exact Hpre |].
  split; [unfold shape; now rewrite Hrows, Hwidth |].
  split; [exact Hcols |]. split; [reflexivity |].
  split; [exact Htrain |].
  split; [now rewrite Hsamples, rows_v1_as_integer |].
  split; [exact Hcontamination | exact Hfile].
Qed.

(* ================================================================= *)
(** * Further properties of the scripts *)

(** ** When [preprocess] succeeds, and how it fails *)

Lemma get_num_drop_identifier (df : DataFrame) (c : string) :
  c <> "CUST_ID" -> get_num (drop_identifier df) c = get_num df c.
Proof. intros Hc. apply get_num_transport. now apply drop_identifier_frame. Qed.

Lemma preprocess_frame_on_columns (df : DataFrame)
      (cl mp p t ca b pay : list float) :
  get_num df "CREDIT_LIMIT" = Ok cl ->
  get_num df "MINIMUM_PAYMENTS" = Ok mp ->
  get_num df "PURCHASES" = Ok p ->
  get_num df "TENURE" = Ok t ->
  get_num df "CASH_ADVANCE" = Ok ca ->
  get_num df "BALANCE" = Ok b ->
  get_num df "PAYMENTS" = Ok pay ->
  exists out, preprocess_frame df = Ok out.
Proof.
  intros Hcl Hmp Hp Ht Hca Hb Hpay.
  rewrite <- (get_num_drop_identifier df "CREDIT_LIMIT") in Hcl by names_differ.
  rewrite <- (get_num_drop_identifier df "MINIMUM_PAYMENTS") in Hmp
    by names_differ.
  rewrite <- (get_num_drop_identifier df "PURCHASES") in Hp by names_differ.
  rewrite <- (get_num_drop_identifier df "TENURE") in Ht by names_differ.
  rewrite <- (get_num_drop_identifier df "CASH_ADVANCE") in Hca by names_differ.
  rewrite <- (get_num_drop_identifier df "BALANCE") in Hb by names_differ.
  rewrite <- (get_num_drop_identifier df "PAYMENTS") in Hpay by names_differ.
  unfold preprocess_frame. generalize dependent (drop_identifier df).
  intros d Hcl Hmp Hp Ht Hca Hb Hpay.
  unfold impute, fill_with_median, engineer, ratio_column,
    guarded_ratio_column, clip_outliers, cols_to_clip, for_each, clip_column.
  repeat (rewrite ?get_num_set_col_other by names_differ;
          first [ rewrite Hcl | rewrite Hmp | rewrite Hp | rewrite Ht
                | rewrite Hca | rewrite Hb | rewrite Hpay
                | rewrite get_num_set_col_same ];
          cbn [rbind]).
  eauto.
Qed.

Lemma Forall_required_columns (P : string -> Prop) :
  Forall P required_columns ->
  P "CREDIT_LIMIT" /\ P "MINIMUM_PAYMENTS" /\ P "PURCHASES" /\ P "TENURE" /\
  P "CASH_ADVANCE" /\ P "BALANCE" /\ P "PAYMENTS".
Proof.
  unfold required_columns. intros Hall.
  repeat match goal with
         | Hc : Forall _ (_ :: _) |- _ => inversion_clear Hc
         end.
  tauto.
Qed.

(** X1: [preprocess] succeeds exactly on the tables that have its seven
    input columns, all numeric; nothing else about the table matters. *)
Theorem preprocess_succeeds_iff_required_columns (df : DataFrame) :
  (exists out, preprocess_frame df = Ok out) <->
  Forall (fun c => exists xs, get_num df c = Ok xs) required_columns.
Proof.
  split.
  - intros (out & Hrun).
    destruct (preprocess_frame_spec _ _ Hrun)
      as (b & p & ca & pay & t & cl & mp & Hb & Hp & Hca & Hpay & Ht & Hcl &
          Hmp & _).
    unfold required_columns. repeat constructor; eauto.
  - intros Hall. apply Forall_required_columns in Hall.
    destruct Hall as ((cl & Hcl) & (mp & Hmp) & (p & Hp) & (t & Ht) &
                      (ca & Hca) & (b & Hb) & (pay & Hpay)).
    now apply (preprocess_frame_on_columns df cl mp p t ca b pay).
Qed.

Lemma get_num_absent (df : DataFrame) (c : string) :
  get_col df c = None -> get_num df c = Raise (KeyError c).
Proof. unfold get_num. now intros ->. Qed.

Lemma get_num_present (df : DataFrame) (c : string) :
  numeric_but_identifier df -> c <> "CUST_ID" ->
  get_col df c <> None -> exists xs, get_num df c = Ok xs.
Proof.
  intros Hnum Hc Hsome. unfold get_num.
  destruct (get_col df c) as [s |] eqn:Hs; [| congruence].
  destruct (Hnum c s Hs Hc) as (xs & ->). eauto.
Qed.

Ltac run_preprocess d :=
  unfold impute, fill_with_median, engineer, ratio_column,
    guarded_ratio_column, clip_outliers, cols_to_clip, for_each, clip_column;
  repeat (rewrite ?get_num_set_col_other by names_differ;
          rewrite ?get_num_set_col_same;
          match goal with
          | Hget : get_num d _ = _ |- _ => rewrite Hget
          end;
          cbn [rbind]).

Ltac required_column df d Hnum Hfirst X :=
  let s := fresh "s" in
  let Hcol := fresh "Hcol" in
  destruct (get_col df X) as [s |] eqn:Hcol; cbn [find] in Hfirst;
  [ destruct (Hnum X s Hcol ltac:(names_differ)) as (? & ->);
    apply get_num_Ok in Hcol;
    rewrite <- (get_num_drop_identifier df X) in Hcol by names_differ;
    change (drop_identifier df) with d in Hcol
  | injection Hfirst as <-; apply get_num_absent in Hcol;
    rewrite <- (get_num_drop_identifier df X) in Hcol by names_differ;
    change (drop_identifier df) with d in Hcol;
    run_preprocess d; reflexivity ].

(** X2: on a table whose columns other than the identifier are numeric,
    [preprocess] fails with a KeyError naming the first of its input
    columns, in reading order, that the table lacks. *)
Theorem preprocess_missing_column_KeyError (df : DataFrame) (c : string) :
  numeric_but_identifier df ->
  first_missing df required_columns = Some c ->
  preprocess_frame df = Raise (KeyError c).
Proof.
  intros Hnum Hfirst. unfold preprocess_frame.
  set (d := drop_identifier df).
  unfold first_missing, required_columns in Hfirst. cbn [find] in Hfirst.
  required_column df d Hnum Hfirst "CREDIT_LIMIT".
  required_column df d Hnum Hfirst "MINIMUM_PAYMENTS".
  required_column df d Hnum Hfirst "PURCHASES".
  required_column df d Hnum Hfirst "TENURE".
  required_column df d Hnum Hfirst "CASH_ADVANCE".
  required_column df d Hnum Hfirst "BALANCE".
  required_column df d Hnum Hfirst "PAYMENTS".
  discriminate Hfirst.
Qed.

Lemma numeric_but_identifier_Forall (df : DataFrame) :
  Forall (fun kv => fst kv = "CUST_ID" \/ exists xs, snd kv = NumCol xs) df ->
  numeric_but_identifier df.
Proof.
  intros Hdf c s. induction Hdf as [| [k s'] df Hk Hdf IH]; simpl;
    [discriminate |].
  destruct (String.eqb k c) eqn:E; [| exact IH].
  apply String.eqb_eq in E. subst k. intros Hs Hc. injection Hs as <-.
  destruct Hk as [Hk | Hk]; [contradiction | exact Hk].
Qed.

Lemma sample_without_tenure_numeric :
  numeric_but_identifier sample_without_tenure.
Proof.
  apply numeric_but_identifier_Forall. simpl.
  repeat (apply Forall_cons;
          [first [left; reflexivity | right; eexists; reflexivity] |]).
  apply Forall_nil.
Qed.

Lemma preprocess_missing_column_KeyError_witness :
  preprocess_frame sample_without_tenure = Raise (KeyError "TENURE").
Proof.
  apply preprocess_missing_column_KeyError.
  - exact sample_without_tenure_numeric.
  - reflexivity.
Defined.

(** ** Shape of the processed table *)

Lemma columns_set_col_present (df : DataFrame) (c : string) (s : Series) :
  get_col df c <> None -> columns (set_col df c s) = columns df.
Proof.
  unfold columns. induction df as [| [k s'] df IH]; simpl; [congruence |].
  destruct (String.eqb k c); simpl; [reflexivity |].
  intros Hc. now rewrite IH.
Qed.

Lemma columns_set_col_absent (df : DataFrame) (c : string) (s : Series) :
  get_col df c = None -> columns (set_col df c s) = columns df ++ [c].
Proof.
  unfold columns. induction df as [| [k s'] df IH]; simpl; [reflexivity |].
  destruct (String.eqb k c); simpl; [discriminate |].
  intros Hc. now rewrite IH.
Qed.

Lemma columns_drop_columns (cs : list string) (df : DataFrame) :
  columns (drop_columns cs df) =
  filter (fun c => negb (existsb (String.eqb c) cs)) (columns df).
Proof.
  unfold columns, drop_columns. induction df as [| [k s] df IH]; simpl;
    [reflexivity |].
  destruct (existsb (String.eqb k) cs); simpl; now rewrite IH.
Qed.

Lemma get_num_present_col (df : DataFrame) (c : string) (xs : list float) :
  get_num df c = Ok xs -> get_col df c <> None.
Proof. intros Hxs. apply get_num_Ok in Hxs. congruence. Qed.

Lemma Forall_set_col (Q : Series -> Prop) (df : DataFrame) (c : string)
      (s : Series) :
  Forall (fun kv => Q (snd kv)) df -> Q s ->
  Forall (fun kv => Q (snd kv)) (set_col df c s).
Proof.
  intros Hdf Hs. induction Hdf as [| [k s'] df Hk Hdf IH]; simpl.
  - now repeat constructor.
  - destruct (String.eqb k c); constructor; assumption.
Qed.

Lemma get_num_length (n : nat) (df : DataFrame) (c : string)
      (xs : list float) :
  Forall (fun kv => series_len (snd kv) = n) df ->
  get_num df c = Ok xs -> length xs = n.
Proof.
  intros Hdf Hxs. apply get_num_Ok in Hxs.
  exact (Forall_get_col (fun s => series_len s = n) _ _ _ Hdf Hxs).
Qed.

Lemma fill_with_median_rows (n : nat) (c : string) (df out : DataFrame) :
  Forall (fun kv => series_len (snd kv) = n) df ->
  fill_with_median c df = Ok out ->
  Forall (fun kv => series_len (snd kv) = n) out /\ columns out = columns df.
Proof.
  intros Hdf Hrun. apply fill_with_median_spec in Hrun.
  destruct Hrun as (xs & Hxs & ->). split.
  - apply (Forall_set_col (fun s => series_len s = n)); [exact Hdf |].
    simpl. rewrite fillna_length. exact (get_num_length _ _ _ _ Hdf Hxs).
  - apply columns_set_col_present. exact (get_num_present_col _ _ _ Hxs).
Qed.

Lemma clip_column_rows (n : nat) (c : string) (df out : DataFrame) :
  Forall (fun kv => series_len (snd kv) = n) df ->
  clip_column df c = Ok out ->
  Forall (fun kv => series_len (snd kv) = n) out /\ columns out = columns df.
Proof.
  intros Hdf Hrun. unfold clip_column in Hrun. invert_binds. subst out. split.
  - apply (Forall_set_col (fun s => series_len s = n)); [exact Hdf |].
    simpl. rewrite clip_upper_length. exact (get_num_length _ _ _ _ Hdf Hstep).
  - apply columns_set_col_present. exact (get_num_present_col _ _ _ Hstep).
Qed.

Lemma for_each_clip_rows (n : nat) (cols : list string) :
  forall df out : DataFrame,
    Forall (fun kv => series_len (snd kv) = n) df ->
    for_each cols clip_column df = Ok out ->
    Forall (fun kv => series_len (snd kv) = n) out /\
    columns out = columns df.
Proof.
  induction cols as [| c cols IH]; intros df out Hdf Hrun; simpl in Hrun.
  - injection Hrun as <-. now split.
  - apply rbind_Ok_inv in Hrun. destruct Hrun as (df1 & Hclip & Hrest).
    destruct (clip_column_rows n c df df1 Hdf Hclip) as [Hdf1 Hcols1].
    destruct (IH df1 out Hdf1 Hrest) as [Hout Hcols]. split; [exact Hout |].
    now rewrite Hcols.
Qed.

Lemma ratio_rows (n : nat) (df : DataFrame) (c a b : string)
      (xs ys : list float) (g : list float -> list float) :
  Forall (fun kv => series_len (snd kv) = n) df ->
  get_num df a = Ok xs -> get_num df b = Ok ys ->
  (forall l, length (g l) = length l) ->
  Forall (fun kv => series_len (snd kv) = n)
         (set_col df c (NumCol (series_div xs (g ys)))).
Proof.
  intros Hdf Hxs Hys Hg.
  apply (Forall_set_col (fun s => series_len s = n)); [exact Hdf |].
  pose proof (get_num_length _ _ _ _ Hdf Hxs) as Hlx.
  pose proof (get_num_length _ _ _ _ Hdf Hys) as Hly.
  simpl. rewrite series_div_length; [exact Hlx |].
  rewrite Hg. now rewrite Hlx, Hly.
Qed.

Lemma engineer_rows (n : nat) (df out : DataFrame) :
  Forall (fun kv => series_len (snd kv) = n) df ->
  engineer df = Ok out ->
  Forall (fun kv => series_len (snd kv) = n) out.
Proof.
  unfold engineer. intros Hdf Hrun. invert_binds.
  apply ratio_column_spec in Hstep.
  destruct Hstep as (x1 & y1 & Hx1 & Hy1 & ->).
  pose proof (ratio_rows n df "MONTHLY_AVG_PURCHASE" _ _ _ _ (fun l => l)
                Hdf Hx1 Hy1 (fun l => eq_refl)) as H1.
  apply ratio_column_spec in Hstep0.
  destruct Hstep0 as (x2 & y2 & Hx2 & Hy2 & ->).
  pose proof (ratio_rows n _ "MONTHLY_AVG_CASH_ADVANCE" _ _ _ _ (fun l => l)
                H1 Hx2 Hy2 (fun l => eq_refl)) as H2.
  apply guarded_ratio_column_spec in Hstep1.
  destruct Hstep1 as (x3 & y3 & Hx3 & Hy3 & ->).
  pose proof (ratio_rows n _ "PURCHASE_TO_LIMIT_RATIO" _ _ _ _
                (fun l => series_add_scalar l (Fin 1)) H2 Hx3 Hy3
                (fun l => series_add_scalar_length l (Fin 1))) as H3.
  apply guarded_ratio_column_spec in Hrun.
  destruct Hrun as (x4 & y4 & Hx4 & Hy4 & ->).
  exact (ratio_rows n _ "BALANCE_TO_LIMIT_RATIO" _ _ _ _
           (fun l => series_add_scalar l (Fin 1)) H3 Hx4 Hy4
           (fun l => series_add_scalar_length l (Fin 1))).
Qed.

Lemma engineer_columns (df out : DataFrame) :
  (forall c, In c derived_columns -> get_col df c = None) ->
  engineer df = Ok out ->
  columns out = columns df ++ derived_columns.
Proof.
  unfold engineer. intros Hnew Hrun. invert_binds.
  apply ratio_column_spec in Hstep. destruct Hstep as (? & ? & _ & _ & ->).
  apply ratio_column_spec in Hstep0. destruct Hstep0 as (? & ? & _ & _ & ->).
  apply guarded_ratio_column_spec in Hstep1.
  destruct Hstep1 as (? & ? & _ & _ & ->).
  apply guarded_ratio_column_spec in Hrun.
  destruct Hrun as (? & ? & _ & _ & ->).
  rewrite !columns_set_col_absent;
    rewrite ?get_col_set_col_other by names_differ;
    try (apply Hnew; listed).
  unfold derived_columns. now rewrite <- !app_assoc.
Qed.

(** X3: on a rectangular table that has none of the derived columns yet,
    [preprocess] keeps the input columns in their order without the
    identifier, appends the four derived columns, and keeps the table
    rectangular with the same number of rows. *)
Theorem preprocess_shape (df out : DataFrame) :
  rectangular df ->
  (forall c, In c derived_columns -> get_col df c = None) ->
  preprocess_frame df = Ok out ->
  columns out =
    filter (fun c => negb (String.eqb c "CUST_ID")) (columns df)
    ++ derived_columns /\
  rectangular out /\
  nrows out = nrows df.
Proof.
  intros Hrect Hnew Hrun. unfold preprocess_frame in Hrun.
  apply rbind_Ok_inv in Hrun. destruct Hrun as (imputed & Himpute & Hrun).
  apply rbind_Ok_inv in Hrun. destruct Hrun as (engineered & Heng & Hclip).
  assert (Hd : Forall (fun kv => series_len (snd kv) = nrows df)
                      (drop_identifier df)).
  { unfold drop_identifier, drop_columns.
    apply Forall_forall. intros kv Hkv. apply filter_In in Hkv.
    unfold rectangular in Hrect. rewrite Forall_forall in Hrect.
    now apply Hrect. }
  unfold impute in Himpute. apply rbind_Ok_inv in Himpute.
  destruct Himpute as (filled & Hfill1 & Hfill2).
  destruct (fill_with_median_rows _ _ _ _ Hd Hfill1) as [Hrows1 Hcols1].
  destruct (fill_with_median_rows _ _ _ _ Hrows1 Hfill2) as [Hrows2 Hcols2].
  pose proof (engineer_rows _ _ _ Hrows2 Heng) as Hrows3.
  assert (Hcols3 : columns engineered = columns imputed ++ derived_columns).
  { apply engineer_columns; [| exact Heng]. intros c Hc.
    assert (Hc' : ~ In c cols_to_clip)
      by (intros Hclipped; exact (in_cols_to_clip_not_derived c Hclipped Hc)).
    assert (Himputed : impute (drop_identifier df) = Ok imputed)
      by (unfold impute; rewrite Hfill1; exact Hfill2).
    rewrite (impute_frame _ _ c Himputed).
    - rewrite drop_identifier_frame; [now apply Hnew |].
      intros ->. revert Hc. not_listed.
    - intros ->. revert Hc. not_listed.
    - intros ->. revert Hc. not_listed. }
  destruct (for_each_clip_rows _ _ _ _ Hrows3 Hclip) as [Hrows4 Hcols4].
  assert (Hcolumns : columns out =
            filter (fun c => negb (String.eqb c "CUST_ID")) (columns df)
            ++ derived_columns).
  { rewrite Hcols4, Hcols3, Hcols2, Hcols1. f_equal.
    unfold drop_identifier. rewrite columns_drop_columns.
    apply filter_ext. intros c. simpl. now rewrite orb_false_r. }
  assert (Hnrows : nrows out = nrows df).
  { destruct out as [| [k s] out]; [| now inversion Hrows4].
    exfalso. apply (f_equal (@length string)) in Hcolumns.
    rewrite length_app in Hcolumns. simpl in Hcolumns. lia. }
  split; [exact Hcolumns |]. split; [| exact Hnrows].
  unfold rectangular. now rewrite Hnrows.
Qed.

Lemma preprocess_shape_witness :
  columns sample_processed =
    filter (fun c => negb (String.eqb c "CUST_ID")) (columns sample_table)
    ++ derived_columns /\
  rectangular sample_processed /\
  nrows sample_processed = nrows sample_table.
Proof.
  apply preprocess_shape.
  - unfold rectangular. repeat constructor.
  - intros c Hc. simpl in Hc.
    repeat destruct Hc as [<- | Hc]; try reflexivity. contradiction.
  - vm_compute. reflexivity.
Defined.

(** ** What [preprocess] leaves alone *)

Lemma fillna_nth (xs : list float) (v : float) (i : nat) :
  (i < length xs)%nat ->
  nth i (fillna xs v) NaN =
  if isna (nth i xs NaN) then v else nth i xs NaN.
Proof.
  revert i. induction xs as [| x xs IH]; intros i Hi; simpl in Hi; [lia |].
  destruct i as [| i]; simpl; [reflexivity | apply IH; lia].
Qed.

(** X4: [preprocess] writes every column it neither imputes, clips nor
    derives exactly as it read it; it never alters a CREDIT_LIMIT that
    is present, and replaces every missing one by the median of the
    column. *)
Theorem preprocess_keeps_present_values (df out : DataFrame) :
  preprocess_frame df = Ok out ->
  (forall c : string,
     c <> "CUST_ID" -> c <> "CREDIT_LIMIT" ->
     ~ In c cols_to_clip -> ~ In c derived_columns ->
     get_col out c = get_col df c) /\
  exists cl cl' : list float,
    get_num df "CREDIT_LIMIT" = Ok cl /\
    get_num out "CREDIT_LIMIT" = Ok cl' /\
    length cl' = length cl /\
    forall i : nat, (i < length cl)%nat ->
      nth i cl' NaN =
      if isna (nth i cl NaN) then median cl else nth i cl NaN.
Proof.
  intros Hrun.
  destruct (preprocess_frame_spec _ _ Hrun)
    as (b & p & ca & pay & t & cl & mp & _ & _ & _ & _ & _ & Hcl & _ & Hout).
  cbv zeta in Hout.
  destruct Hout as (_ & Hcl' & _ & _ & _ & _ & _ & _ & _ & _ & _ & _ & Hkept).
  split; [exact Hkept |].
  exists cl, (fillna cl (median cl)).
  repeat split; try assumption.
  - apply fillna_length.
  - intros i Hi. now apply fillna_nth.
Qed.

Lemma preprocess_keeps_present_values_witness :
  (forall c : string,
     c <> "CUST_ID" -> c <> "CREDIT_LIMIT" ->
     ~ In c cols_to_clip -> ~ In c derived_columns ->
     get_col sample_processed c = get_col sample_table c) /\
  exists cl cl' : list float,
    get_num sample_table "CREDIT_LIMIT" = Ok cl /\
    get_num sample_processed "CREDIT_LIMIT" = Ok cl' /\
    length cl' = length cl /\
    forall i : nat, (i < length cl)%nat ->
      nth i cl' NaN =
      if isna (nth i cl NaN) then median cl else nth i cl NaN.
Proof.
  apply preprocess_keeps_present_values. vm_compute. reflexivity.
Defined.

(** ** Clipping keeps the order of the rows *)

Lemma Qle_bool_false (a b : Q) : Qle_bool a b = false -> b < a.
Proof.
  intros Hle. apply Qnot_le_lt. intros Hab.
  apply Qle_bool_iff in Hab. congruence.
Qed.

Lemma clip_cell_monotone (u x y : float) :
  fleb x y = true ->
  fleb (if fgtb x u then u else x) (if fgtb y u then u else y) = true.
Proof.
  destruct x as [a | | |], y as [b | | |], u as [c | | |];
    simpl; try congruence; unfold Qltb;
    repeat match goal with
           | |- context [Qle_bool ?p ?q] =>
               let E := fresh "E" in
               destruct (Qle_bool p q) eqn:E; simpl;
               [apply Qle_bool_iff in E | apply Qle_bool_false in E]
           end;
    intros Hxy; try congruence; try reflexivity;
    try (apply Qle_bool_iff in Hxy);
    try (apply Qle_bool_iff);
    try lra.
Qed.

Lemma clipped_column_spec (df out : DataFrame) (col : string) :
  preprocess_frame df = Ok out ->
  In col cols_to_clip ->
  exists (imputed : DataFrame) (xs : list float),
    impute (drop_identifier df) = Ok imputed /\
    get_num imputed col = Ok xs /\
    get_num out col = Ok (clip_upper (quantile (99 # 100) xs) xs).
Proof.
  unfold preprocess_frame. intros Hrun Hcol.
  apply rbind_Ok_inv in Hrun. destruct Hrun as (imputed & Himpute & Hrun).
  apply rbind_Ok_inv in Hrun. destruct Hrun as (engineered & Heng & Hclip).
  destruct (for_each_clip_spec _ cols_to_clip_NoDup _ _ Hclip) as [Hin _].
  destruct (Hin col Hcol) as (xs & Hxs & Hys).
  exists imputed, xs. repeat split; try assumption.
  rewrite <- Hxs. symmetry. apply get_num_transport.
  apply (engineer_frame _ _ col Heng).
  now apply in_cols_to_clip_not_derived.
Qed.

(** X5: clipping never reorders customers: if one row's value was at
    most another's before clipping, it still is afterwards, in each of
    the five clipped columns. *)
Theorem clipping_keeps_order (df out : DataFrame) (col : string) :
  preprocess_frame df = Ok out ->
  In col cols_to_clip ->
  exists (imputed : DataFrame) (xs ys : list float),
    impute (drop_identifier df) = Ok imputed /\
    get_num imputed col = Ok xs /\
    get_num out col = Ok ys /\
    forall i j : nat,
      fleb (nth i xs NaN) (nth j xs NaN) = true ->
      fleb (nth i ys NaN) (nth j ys NaN) = true.
Proof.
  intros Hrun Hcol.
  destruct (clipped_column_spec df out col Hrun Hcol)
    as (imputed & xs & Himpute & Hxs & Hys).
  exists imputed, xs, (clip_upper (quantile (99 # 100) xs) xs).
  repeat split; try assumption.
  intros i j Hle. rewrite !clip_upper_nth. now apply clip_cell_monotone.
Qed.

Lemma clipping_keeps_order_witness :
  exists (imputed : DataFrame) (xs ys : list float),
    impute (drop_identifier sample_table) = Ok imputed /\
    get_num imputed "PURCHASES" = Ok xs /\
    get_num sample_processed "PURCHASES" = Ok ys /\
    forall i j : nat,
      fleb (nth i xs NaN) (nth j xs NaN) = true ->
      fleb (nth i ys NaN) (nth j ys NaN) = true.
Proof.
  apply (clipping_keeps_order sample_table sample_processed "PURCHASES").
  - vm_compute. reflexivity.
  - simpl. right. now left.
Defined.

(** ** The generator on small requests *)

(** X6: asked for fewer than 313 rows, the generator draws all its
    columns and then fails with a ValueError when it samples the rows to
    blank: it cannot take 313 distinct rows (or, from an empty table, one
    row). *)
Theorem generate_fails_below_313_rows `{NumpyRandom} (n_samples : nat)
        (seed : Z) (st : rng_state) :
  valid_seed seed ->
  (n_samples < 313)%nat ->
  exists st' : rng_state,
    generate_credit_card_data n_samples seed st = (Raise ValueError, st').
Proof.
  intros Hseed Hn. unfold generate_credit_card_data.
  unfold np_bind at 1. rewrite (np_random_seed_valid seed st Hseed).
  cbn [np_bind np_exponential_round6 np_uniform_round6 np_randint
       np_choice_float np_draw fst snd credit_limit_tiers].
  cbn [nrows series_len]. rewrite length_map, length_seq.
  destruct (Nat.le_gt_cases 1 n_samples) as [Hone | Hnone].
  - match goal with
    | |- context [np_bind (np_choice_no_replace n_samples 1%nat) _ ?s] =>
        destruct (np_choice_no_replace_sample n_samples 1%nat s Hone)
          as [Hdraw _];
        rewrite (np_bind_Ok _ _ _ _ _ Hdraw); clear Hdraw
    end.
    match goal with
    | |- context [np_bind (np_choice_no_replace n_samples 313%nat) _ ?s] =>
        rewrite (np_bind_Raise _ _ _ _ _
                   (np_choice_no_replace_short n_samples 313%nat s Hn))
    end.
    eauto.
  - match goal with
    | |- context [np_bind (np_choice_no_replace n_samples 1%nat) _ ?s] =>
        rewrite (np_bind_Raise _ _ _ _ _
                   (np_choice_no_replace_short n_samples 1%nat s Hnone))
    end.
    eauto.
Qed.

Lemma generate_fails_below_313_rows_witness :
  exists st' : Z,
    @generate_credit_card_data counting_random 312 42 0%Z =
      (Raise ValueError, st').
Proof.
  apply (@generate_fails_below_313_rows counting_random 312 42 0%Z).
  - unfold valid_seed. lia.
  - lia.
Defined.

(** ** Customer identifiers *)

Lemma uint_of_padded_string (k : nat) (s : string) :
  NilEmpty.uint_of_string (repeat_char "0" k ++ s) =
  option_map (Nat.iter k Decimal.D0) (NilEmpty.uint_of_string s).
Proof.
  induction k as [| k IH]; simpl.
  - now destruct (NilEmpty.uint_of_string s).
  - rewrite IH. now destruct (NilEmpty.uint_of_string s).
Qed.

Lemma of_uint_leading_zeros (k : nat) (d : Decimal.uint) :
  Nat.of_uint (Nat.iter k Decimal.D0 d) = Nat.of_uint d.
Proof.
  induction k as [| k IH]; simpl; [reflexivity |]. exact IH.
Qed.

(** Reading the digits of an identifier gives back the row number it was
    made from. *)
Lemma id_number_cust_id (i : nat) : id_number (cust_id i) = Some i.
Proof.
  unfold cust_id, zfill, str_nat. cbn [append id_number].
  rewrite uint_of_padded_string, NilEmpty.usu. cbn [option_map].
  now rewrite of_uint_leading_zeros, Unsigned.of_to.
Qed.

Lemma cust_id_injective : Injective cust_id.
Proof.
  intros i j Hij. apply (f_equal id_number) in Hij.
  rewrite !id_number_cust_id in Hij. now injection Hij.
Qed.

Section GeneratedIdentifiers.
Context `{NumpyRandom}.

Lemma generated_identifier_column (n : nat) (seed : Z) (st : rng_state) :
  valid_seed seed -> (313 <= n)%nat ->
  exists df st',
    generate_credit_card_data n seed st = (Ok df, st') /\
    get_col df "CUST_ID" = Some (ObjCol (map cust_id (seq 1 n))).
Proof.
  intros Hseed Hn. unfold generate_credit_card_data.
  unfold np_bind at 1. rewrite (np_random_seed_valid seed st Hseed).
  cbn [np_bind np_exponential_round6 np_uniform_round6 np_randint
       np_choice_float np_draw fst snd credit_limit_tiers].
  cbn [nrows series_len]. rewrite length_map, length_seq.
  match goal with
  | |- context [np_bind (np_choice_no_replace n 1%nat) _ ?s] =>
      destruct (np_choice_no_replace_sample n 1%nat s ltac:(lia))
        as [Hrun _];
      rewrite (np_bind_Ok _ _ _ _ _ Hrun); clear Hrun
  end.
  match goal with
  | |- context [np_bind (np_choice_no_replace n 313%nat) _ ?s] =>
      destruct (np_choice_no_replace_sample n 313%nat s Hn) as [Hrun _];
      rewrite (np_bind_Ok _ _ _ _ _ Hrun); clear Hrun
  end.
  cbn [np_ret].
  cbn [loc_set_nan get_col set_col String.eqb Ascii.eqb Bool.eqb].
  do 2 eexists. split; reflexivity.
Qed.
End GeneratedIdentifiers.

(** X7: the identifiers of a generated table are ["C1"] followed by the
    row number counted from 1, padded to four digits; the row number can
    be read back from each, so no two customers share an identifier. *)
Theorem generated_identifiers_distinct `{NumpyRandom} (n_samples : nat)
        (seed : Z) (st : rng_state) :
  valid_seed seed ->
  (313 <= n_samples)%nat ->
  exists (df : DataFrame) (st' : rng_state) (ids : list (option string)),
    generate_credit_card_data n_samples seed st = (Ok df, st') /\
    get_col df "CUST_ID" = Some (ObjCol ids) /\
    length ids = n_samples /\
    (forall i : nat, (i < n_samples)%nat ->
       nth i ids None = cust_id (S i) /\
       id_number (nth i ids None) = Some (S i)) /\
    NoDup ids.
Proof.
  intros Hseed Hn.
  destruct (generated_identifier_column n_samples seed st Hseed Hn)
    as (df & st' & Hrun & Hids).
  exists df, st', (map cust_id (seq 1 n_samples)).
  split; [exact Hrun |]. split; [exact Hids |].
  split; [now rewrite length_map, length_seq |]. split.
  - intros i Hi.
    assert (Hnth : nth i (map cust_id (seq 1 n_samples)) None = cust_id (S i)).
    { rewrite (nth_indep _ None (cust_id 0))
        by (now rewrite length_map, length_seq).
      rewrite map_nth, seq_nth by exact Hi. reflexivity. }
    rewrite Hnth. split; [reflexivity | apply id_number_cust_id].
  - apply Injective_map_NoDup; [exact cust_id_injective | apply seq_NoDup].
Qed.

Lemma generated_identifiers_distinct_witness :
  exists (df : DataFrame) (st' : Z) (ids : list (option string)),
    @generate_credit_card_data counting_random 400 42 0%Z = (Ok df, st') /\
    get_col df "CUST_ID" = Some (ObjCol ids) /\
    length ids = 400%nat /\
    (forall i : nat, (i < 400)%nat ->
       nth i ids None = cust_id (S i) /\
       id_number (nth i ids None) = Some (S i)) /\
    NoDup ids.
Proof.
  apply (@generated_identifiers_distinct counting_random 400 42 0%Z).
  - unfold valid_seed. lia.
  - lia.
Defined.

(** ** Shape of the generated table *)

(** X8: a generated table is rectangular, with [n_samples] rows and the
    18 columns of the schema in the order the generator lists them. *)
Theorem generated_table_shape `{NumpyRandom} (n_samples : nat) (seed : Z)
        (st : rng_state) :
  valid_seed seed ->
  (313 <= n_samples)%nat ->
  exists (df : DataFrame) (st' : rng_state),
    generate_credit_card_data n_samples seed st = (Ok df, st') /\
    columns df = generator_schema /\
    shape df = (n_samples, 18%nat) /\
    rectangular df.
Proof.
  intros Hseed Hn.
  destruct (generate_credit_card_data_spec n_samples seed st Hseed Hn)
    as (df & st' & Hrun & ids & c & i1 & i2 &
        [-> Hids _ Hlen _ _ _ _ _]).
  exists (customer_frame (Some ids) (with_missing i1 i2 c)), st'.
  split; [exact Hrun |]. split; [reflexivity |].
  destruct Hlen as (L1 & L2 & L3 & L4 & L5 & L6 & L7 & L8 & L9 & L10 & L11 &
    L12 & L13 & L14 & L15 & L16 & L17).
  split.
  - unfold shape. cbn [nrows customer_frame series_len].
    rewrite Hids. reflexivity.
  - unfold rectangular. cbn [nrows customer_frame series_len].
    unfold numeric_frame, with_missing.
    cbn [balance balance_frequency purchases oneoff_purchases
         installments_purchases cash_advance purchases_frequency
         oneoff_purchases_frequency purchases_installments_frequency
         cash_advance_frequency cash_advance_trx purchases_trx credit_limit
         payments minimum_payments prc_full_payment tenure].
    rewrite Hids.
    repeat (apply Forall_cons;
            [cbn [snd series_len]; rewrite ?set_nan_at_length; assumption |]).
    apply Forall_nil.
Qed.

Lemma generated_table_shape_witness :
  exists (df : DataFrame) (st' : Z),
    @generate_credit_card_data counting_random 400 42 0%Z = (Ok df, st') /\
    columns df = generator_schema /\
    shape df = (400%nat, 18%nat) /\
    rectangular df.
Proof.
  apply (@generated_table_shape counting_random 400 42 0%Z).
  - unfold valid_seed. lia.
  - lia.
Defined.

(** ** What [train] refuses *)

Lemma finite_values_Some_inv (xs : list float) (qs : list Q) :
  finite_values xs = Some qs -> Forall finite xs.
Proof.
  revert qs. induction xs as [| x xs IH]; intros qs; simpl; [constructor |].
  destruct x; try discriminate.
  destruct (finite_values xs) as [qs' |] eqn:E; [| discriminate].
  intros _. constructor; [exact I | now apply (IH qs')].
Qed.

Lemma numeric_columns_Ok_inv (df : DataFrame) (cols : list (list Q)) :
  numeric_columns df = Ok cols ->
  Forall (fun kv => exists xs, snd kv = NumCol xs /\ Forall finite xs) df.
Proof.
  revert cols. induction df as [| [k [xs | xs]] df IH]; intros cols; simpl;
    [constructor | | discriminate].
  destruct (finite_values xs) as [qs |] eqn:Hqs; [| discriminate].
  destruct (numeric_columns df) as [cols' |]; [| discriminate].
  intros _. constructor; [| now apply (IH cols')].
  exists xs. split; [reflexivity | now apply (finite_values_Some_inv xs qs)].
Qed.

Lemma numeric_columns_Raise (df : DataFrame) (e : exn) :
  numeric_columns df = Raise e -> e = ValueError.
Proof.
  induction df as [| [k [xs | xs]] df IH]; simpl; [discriminate | |].
  - destruct (finite_values xs); [| congruence].
    destruct (numeric_columns df); [discriminate |].
    intros E. injection E as <-. now apply IH.
  - congruence.
Qed.

Lemma design_matrix_Raise (k : nat) (df : DataFrame) (e : exn) :
  design_matrix k df = Raise e -> e = ValueError.
Proof.
  unfold design_matrix.
  destruct (numeric_columns df) as [cols | e'] eqn:Hcols.
  - destruct ((k <=? nrows df)%nat && (k <=? length df)%nat);
      [discriminate | congruence].
  - intros E. injection E as <-. now apply numeric_columns_Raise in Hcols.
Qed.

Lemma unfit_design_matrix (df : DataFrame) :
  unfit_for_training df -> design_matrix 10 df = Raise ValueError.
Proof.
  intros Hunfit.
  destruct (design_matrix 10 df) as [X | e] eqn:HX;
    [| now rewrite (design_matrix_Raise _ _ _ HX)].
  exfalso.
  destruct (design_matrix_shape _ _ _ HX) as (_ & Hrows & Hwidth & _).
  unfold design_matrix in HX.
  destruct (numeric_columns df) as [cols |] eqn:Hcols; [| discriminate].
  pose proof (numeric_columns_Ok_inv _ _ Hcols) as Hall.
  rewrite Forall_forall in Hall.
  destruct Hunfit as [(c & xs & Hin) | [(c & xs & x & Hin & Hx & Hbad) | [Hn | Hn]]].
  - destruct (Hall _ Hin) as (ys & Hys & _). discriminate.
  - destruct (Hall _ Hin) as (ys & Hys & Hfin). simpl in Hys.
    injection Hys as <-. rewrite Forall_forall in Hfin. now apply Hbad, Hfin.
  - lia.
  - lia.
Qed.

(** X9: [train] refuses a table that holds a string column, a missing or
    infinite value, or fewer than ten rows or columns: it fails with a
    ValueError before it writes any file. *)
Theorem train_rejects_unfit_tables `{Sklearn} (fs : filesystem)
        (df : DataFrame) :
  read_csv fs PROCESSED_PATH = Ok df ->
  unfit_for_training df ->
  train fs = (Raise ValueError, fs).
Proof.
  intros Hread Hunfit. unfold train, train_frame.
  rewrite Hread, (unfit_design_matrix df Hunfit). reflexivity.
Qed.

Lemma train_rejects_unfit_tables_witness :
  @train first_feature_estimators raw_sample_files =
    (Raise ValueError, raw_sample_files).
Proof.
  apply (@train_rejects_unfit_tables first_feature_estimators
           raw_sample_files sample_table).
  - reflexivity.
  - left. eexists _, _. simpl. left. reflexivity.
Defined.

(** ** Ranges of the reported metrics *)

Lemma round_half_even_ge (z : Z) (y : Q) :
  inject_Z z <= y -> (z <= round_half_even y)%Z.
Proof.
  intros Hzy. apply Qfloor_resp_le in Hzy. rewrite Qfloor_Z in Hzy.
  unfold round_half_even.
  destruct (Qltb (y - inject_Z (Qfloor y)) (1 # 2)); [exact Hzy |].
  destruct (Qltb (1 # 2) (y - inject_Z (Qfloor y))); [lia |].
  destruct (Z.even (Qfloor y)); lia.
Qed.

Lemma round_half_even_le (z : Z) (y : Q) :
  y <= inject_Z z -> (round_half_even y <= z)%Z.
Proof.
  intros Hyz. pose proof (Qfloor_le y) as Hfloor.
  assert (Hle : (Qfloor y <= z)%Z).
  { rewrite Zle_Qle. now apply Qle_trans with y. }
  unfold round_half_even.
  destruct (Qltb (y - inject_Z (Qfloor y)) (1 # 2)) eqn:Elow; [exact Hle |].
  apply Qltb_ge in Elow.
  assert (Hlt : (Qfloor y < z)%Z) by (rewrite Zlt_Qlt; lra).
  destruct (Qltb (1 # 2) (y - inject_Z (Qfloor y))); [lia |].
  destruct (Z.even (Qfloor y)); lia.
Qed.

(** Rounding to [d] decimals keeps a number between two integers
    between them. *)
Lemma Qround_to_between (d : nat) (lo hi : Z) (x : Q) :
  inject_Z lo <= x -> x <= inject_Z hi ->
  inject_Z lo <= Qround_to d x /\ Qround_to d x <= inject_Z hi.
Proof.
  intros Hlo Hhi. unfold Qround_to.
  pose proof (power_of_ten_pos d) as Hscale.
  set (s := (10 ^ Z.of_nat d)%Z) in *.
  assert (Hround_lo : (lo * s <= round_half_even (x * inject_Z s))%Z).
  { apply round_half_even_ge. rewrite inject_Z_mult.
    apply Qmult_le_compat_r; [exact Hlo | lra]. }
  assert (Hround_hi : (round_half_even (x * inject_Z s) <= hi * s)%Z).
  { apply round_half_even_le. rewrite inject_Z_mult.
    apply Qmult_le_compat_r; [exact Hhi | lra]. }
  rewrite Zle_Qle, inject_Z_mult in Hround_lo, Hround_hi.
  split.
  - apply Qle_shift_div_l; assumption.
  - apply Qle_shift_div_r; assumption.
Qed.

Lemma count_labelled_bounds (l : Z) (labels : list Z) :
  (0 <= count_labelled l labels <= Z.of_nat (length labels))%Z.
Proof.
  unfold count_labelled. pose proof (filter_length_le (Z.eqb l) labels). lia.
Qed.

Lemma share_as_percentage (a n : Z) :
  (0 <= a <= n)%Z -> (0 < n)%Z ->
  inject_Z 0 <= inject_Z a / inject_Z n * 100 /\
  inject_Z a / inject_Z n * 100 <= inject_Z 100.
Proof.
  intros Ha Hn.
  assert (Hn' : 0 < inject_Z n) by (change 0 with (inject_Z 0); now rewrite <- Zlt_Qlt).
  assert (Ha0 : 0 <= inject_Z a)
    by (change 0 with (inject_Z 0); rewrite <- Zle_Qle; lia).
  assert (Han : inject_Z a <= inject_Z n) by (rewrite <- Zle_Qle; lia).
  assert (Hlow : 0 <= inject_Z a / inject_Z n)
    by (apply Qle_shift_div_l; [exact Hn' | lra]).
  assert (Hhigh : inject_Z a / inject_Z n <= 1)
    by (apply Qle_shift_div_r; [exact Hn' | lra]).
  change (inject_Z 0) with 0. change (inject_Z 100) with 100.
  split; lra.
Qed.

(** X10: the metrics [train] writes are within range: at least ten
    samples, anomaly and normal counts between 0 and the sample count,
    and an anomaly percentage between 0 and 100. *)
Theorem metrics_within_range `{Sklearn} (fs fs' : filesystem)
        (metrics : Metrics) :
  train fs = (Ok metrics, fs') ->
  (10 <= n_samples metrics)%Z /\
  (0 <= n_anomalies metrics <= n_samples metrics)%Z /\
  (0 <= n_normal metrics <= n_samples metrics)%Z /\
  0 <= anomaly_percentage metrics /\
  anomaly_percentage metrics <= 100.
Proof.
  intros Htrain.
  destruct (train_Ok _ _ _ Htrain) as (df & run & _ & Hrun & -> & _).
  destruct (train_frame_spec _ _ Hrun)
    as (Hten & Hscores & Hlabels & Hflags & Hsamples & _ & Hcount &
        Hnormal & Hpct).
  assert (Hanomalies :
            (0 <= n_anomalies (run_metrics run) <= Z.of_nat (nrows df))%Z).
  { rewrite Hcount, Hflags, flags_sum_counts_label.
    pose proof (count_labelled_bounds (-1) (run_labels run)) as Hbound.
    assert (Hlen : length (run_labels run) = nrows df)
      by (rewrite Hlabels, length_map; exact Hscores).
    now rewrite Hlen in Hbound. }
  rewrite Hnormal, Hsamples.
  split; [lia |]. split; [exact Hanomalies |]. split; [lia |].
  rewrite Hpct, Hsamples.
  destruct (share_as_percentage (n_anomalies (run_metrics run))
              (Z.of_nat (nrows df)) Hanomalies ltac:(lia)) as [Hlow Hhigh].
  exact (Qround_to_between 2 0 100 _ Hlow Hhigh).
Qed.

Lemma metrics_within_range_witness :
  (10 <= n_samples training_metrics)%Z /\
  (0 <= n_anomalies training_metrics <= n_samples training_metrics)%Z /\
  (0 <= n_normal training_metrics <= n_samples training_metrics)%Z /\
  0 <= anomaly_percentage training_metrics /\
  anomaly_percentage training_metrics <= 100.
Proof.
  apply (@metrics_within_range first_feature_estimators training_files
           (snd (@train first_feature_estimators training_files))).
  vm_compute. reflexivity.
Defined.

(** ** Files written by [train] *)






(** ** Generated tables through [preprocess] *)

Lemma finite_frame_clean (n : nat) (df : DataFrame) :
  finite_frame n df -> Forall (fun kv => series_count_na (snd kv) = O) df.
Proof.
  apply Forall_impl. intros [k s] (xs & Hs & Hxs & _). simpl in *. subst s.
  simpl. exact (count_na_fin_sat _ _ Hxs).
Qed.

(** X12: for every seed numpy accepts and every row count above 313,
    [preprocess] succeeds on the generated table and returns a table of
    that many rows and 21 columns holding only finite numbers, with no
    missing value and no identifier. *)
Theorem generated_tables_preprocess_cleanly `{NumpyRandom} (n_samples : nat)
        (seed : Z) (st : rng_state) :
  valid_seed seed ->
  (313 < n_samples)%nat ->
  exists (df : DataFrame) (st' : rng_state) (out : DataFrame),
    generate_credit_card_data n_samples seed st = (Ok df, st') /\
    preprocess_frame df = Ok out /\
    shape out = (n_samples, 21%nat) /\
    finite_frame n_samples out /\
    clean out.
Proof.
  intros Hseed Hn.
  destruct (generate_credit_card_data_spec n_samples seed st Hseed
              ltac:(lia)) as (df & st' & Hrun & ids & c & i1 & i2 & Hfrom).
  pose proof (processed_generated_finite _ _ _ _ _ _ Hfrom Hn) as Hfinite.
  destruct Hfrom as [-> _ _ _ _ _ _ _ _].
  exists (customer_frame (Some ids) (with_missing i1 i2 c)), st',
    (processed_frame (with_missing i1 i2 c)).
  split; [exact Hrun |]. split; [apply preprocess_customer_frame |].
  split.
  - unfold shape. rewrite (finite_frame_nrows _ _ Hfinite); [reflexivity |].
    discriminate.
  - split; [exact Hfinite |]. split.
    + exact (finite_frame_clean _ _ Hfinite).
    + unfold columns, processed_frame. not_listed.
Qed.

Lemma generated_tables_preprocess_cleanly_witness :
  exists (df : DataFrame) (st' : Z) (out : DataFrame),
    @generate_credit_card_data counting_random 400 42 0%Z = (Ok df, st') /\
    preprocess_frame df = Ok out /\
    shape out = (400%nat, 21%nat) /\
    finite_frame 400 out /\
    clean out.
Proof.
  apply (@generated_tables_preprocess_cleanly counting_random 400 42 0%Z).
  - unfold valid_seed. lia.
  - lia.
Defined.

(** ** A table whose MINIMUM_PAYMENTS are all blanked *)

Lemma count_na_all (xs : list float) :
  count_na xs = length xs -> Forall (fun x => x = NaN) xs.
Proof.
  unfold count_na. induction xs as [| x xs IH]; simpl; [constructor |].
  pose proof (filter_length_le isna xs) as Hle.
  destruct (isna x) eqn:E; simpl; intros Hall; [| lia].
  constructor; [now destruct x | apply IH; lia].
Qed.

Lemma dropna_all_na (xs : list float) :
  Forall (fun x => x = NaN) xs -> dropna xs = [].
Proof.
  unfold dropna. induction 1 as [| x xs Hx _ IH]; [reflexivity |].
  subst x. simpl. exact IH.
Qed.

(** An entirely missing column has no median to fill it with, so
    imputing and clipping give it back as it was. *)
Lemma imputed_clipped_all_na (xs : list float) :
  Forall (fun x => x = NaN) xs ->
  clip_upper (quantile (99 # 100) (fillna xs (median xs)))
             (fillna xs (median xs)) = xs.
Proof.
  intros Hall.
  assert (Hmedian : median xs = NaN)
    by (unfold median; now rewrite (dropna_all_na xs Hall)).
  assert (Hfill : fillna xs NaN = xs).
  { unfold fillna. clear Hmedian.
    induction Hall as [| x xs Hx _ IH]; [reflexivity |].
    subst x. simpl. now rewrite IH. }
  rewrite Hmedian, Hfill.
  assert (Hquantile : quantile (99 # 100) xs = NaN)
    by (unfold quantile; now rewrite (dropna_all_na xs Hall)).
  rewrite Hquantile. unfold clip_upper. clear Hmedian Hfill Hquantile.
  induction Hall as [| x xs Hx _ IH]; [reflexivity |].
  subst x. simpl. now rewrite IH.
Qed.

(** X13: with exactly 313 rows the generator blanks every
    MINIMUM_PAYMENTS; [preprocess] still succeeds, but the column has no
    median, so it is written entirely missing. *)
Theorem all_minimum_payments_blanked_at_313_rows `{NumpyRandom} (seed : Z)
        (st : rng_state) :
  valid_seed seed ->
  exists (df : DataFrame) (st' : rng_state) (out : DataFrame)
         (mp : list float),
    generate_credit_card_data 313 seed st = (Ok df, st') /\
    preprocess_frame df = Ok out /\
    get_num out "MINIMUM_PAYMENTS" = Ok mp /\
    length mp = 313%nat /\
    Forall (fun x => x = NaN) mp.
Proof.
  intros Hseed.
  destruct (generate_credit_card_data_spec 313 seed st Hseed (Nat.le_refl _))
    as (df & st' & Hrun & ids & c & i1 & i2 &
        [-> _ _ Hlen Hfin _ _ _ Hsample]).
  pose proof (every_column_get _ c "MINIMUM_PAYMENTS" _ Hlen eq_refl) as Hmp_len.
  pose proof (every_column_get _ c "MINIMUM_PAYMENTS" _ Hfin eq_refl) as Hmp_fin.
  cbv beta in Hmp_len.
  assert (Hall : Forall (fun x => x = NaN)
                        (set_nan_at i2 (minimum_payments c))).
  { apply count_na_all. rewrite set_nan_at_length, Hmp_len.
    apply count_na_set_nan_at; [exact Hmp_fin | now rewrite Hmp_len]. }
  exists (customer_frame (Some ids) (with_missing i1 i2 c)), st',
    (processed_frame (with_missing i1 i2 c)),
    (set_nan_at i2 (minimum_payments c)).
  split; [exact Hrun |]. split; [apply preprocess_customer_frame |].
  split; [| split; [now rewrite set_nan_at_length | exact Hall]].
  unfold get_num, processed_frame, with_missing.
  cbn [get_col String.eqb Ascii.eqb Bool.eqb minimum_payments].
  now rewrite (imputed_clipped_all_na _ Hall).
Qed.

Lemma all_minimum_payments_blanked_at_313_rows_witness :
  exists (df : DataFrame) (st' : Z) (out : DataFrame) (mp : list float),
    @generate_credit_card_data counting_random 313 42 0%Z = (Ok df, st') /\
    preprocess_frame df = Ok out /\
    get_num out "MINIMUM_PAYMENTS" = Ok mp /\
    length mp = 313%nat /\
    Forall (fun x => x = NaN) mp.
Proof.
  apply (@all_minimum_payments_blanked_at_313_rows counting_random 42 0%Z).
  unfold valid_seed. lia.
Defined.
